(** * OBSGameLauncher: game detection and configuration management

    A shallow embedding of the two Python sources

    - [obs_game_recorder.py]    (module [Recorder]), the OBS script, and
    - [debug_process_checker.py] (module [Manager]), the companion CLI,

    followed by the properties of section 8 of the specification.

    Python values that come out of [json.load] are modelled by the type
    [json]; the Python operations the sources apply to them ([d.get],
    [d[k]], [k in d], [s.lower()], iteration, truth value) are given with
    the exceptions Python raises when the value has the wrong shape, so that
    a configuration file edited by hand is part of the model.  Strings are
    Rocq strings; [lower] and [strip] act on the ASCII range, and the
    substitution of [re.sub] is given on ASCII text and left to the host
    on other strings. *)

From Stdlib Require Import ZArith Ascii String List Bool Lia.
From stdpp Require Import base option list strings gmap.

Set Warnings "-register-all".

Local Open Scope string_scope.
Local Open Scope Z_scope.

(** ** Python values and the operations the sources use *)

Module Py.

(** Exceptions the modelled fragment can raise. *)
Inductive exn : Type :=
| AttributeError
| TypeError
| KeyError
| ValueError
| IndexError
| OSError
| EOFError.

(** Outcome of an expression: a value or a raised exception. *)
Inductive res (A : Type) : Type :=
| Ok (a : A)
| Raise (e : exn).
Arguments Ok {A} a.
Arguments Raise {A} e.

Definition bind {A B : Type} (m : res A) (k : A -> res B) : res B :=
  match m with
  | Ok a => k a
  | Raise e => Raise e
  end.

Notation "'let!' x ':=' m 'in' k" := (bind m (fun x => k))
  (at level 10, x name, m at level 100, k at level 200).

Definition is_ok {A : Type} (m : res A) : bool :=
  match m with Ok _ => true | Raise _ => false end.

(** [try: m  except: d] with a handler that catches everything. *)
Definition catch {A : Type} (m : res A) (d : A) : A :=
  match m with Ok a => a | Raise _ => d end.

(** What [json.load] produces (floats are left out: the program never
    creates or inspects one). *)
Inductive json : Type :=
| JNull
| JBool (b : bool)
| JNum (n : Z)
| JStr (s : string)
| JArr (l : list json)
| JObj (kvs : list (string * json)).

(** *** Strings *)

Definition is_upper (c : ascii) : bool :=
  let n := N_of_ascii c in (N.leb 65 n && N.leb n 90)%bool.

Definition lower_ascii (c : ascii) : ascii :=
  if is_upper c then ascii_of_N (N_of_ascii c + 32) else c.

(** [s.lower()] *)
Fixpoint lower (s : string) : string :=
  match s with
  | EmptyString => EmptyString
  | String c r => String (lower_ascii c) (lower r)
  end.

(** [sub in s] for two strings *)
Fixpoint contains (sub s : string) : bool :=
  (String.prefix sub s ||
   match s with
   | EmptyString => false
   | String _ r => contains sub r
   end)%bool.

(** Python's ASCII white space: tab, LF, VT, FF, CR, FS, GS, RS, US, space *)
Definition is_space (c : ascii) : bool :=
  let n := N_of_ascii c in
  ((N.leb 9 n && N.leb n 13) || (N.leb 28 n && N.leb n 32))%bool.

Fixpoint lstrip (s : string) : string :=
  match s with
  | EmptyString => EmptyString
  | String c r => if is_space c then lstrip r else s
  end.

Fixpoint rstrip (s : string) : string :=
  match s with
  | EmptyString => EmptyString
  | String c r =>
      match rstrip r with
      | EmptyString => if is_space c then EmptyString else String c EmptyString
      | r' => String c r'
      end
  end.

(** [s.strip()] *)
Definition strip (s : string) : string := rstrip (lstrip s).

(** Truth value of a string: [if s:] *)
Definition nonempty (s : string) : bool :=
  match s with EmptyString => false | String _ _ => true end.

(** *** Dictionaries kept as association lists in insertion order *)

Fixpoint assoc (k : string) (kvs : list (string * json)) : option json :=
  match kvs with
  | [] => None
  | (k', v) :: rest => if String.eqb k k' then Some v else assoc k rest
  end.

(** [d[k] = v] on the items of a dict: replace in place, or append *)
Fixpoint assoc_set (k : string) (v : json) (kvs : list (string * json))
  : list (string * json) :=
  match kvs with
  | [] => [(k, v)]
  | (k', v') :: rest =>
      if String.eqb k k' then (k', v) :: rest
      else (k', v') :: assoc_set k v rest
  end.

(** Truth value of a Python object. *)
Definition truthy (v : json) : bool :=
  match v with
  | JNull => false
  | JBool b => b
  | JNum n => negb (n =? 0)
  | JStr s => nonempty s
  | JArr l => match l with [] => false | _ => true end
  | JObj kvs => match kvs with [] => false | _ => true end
  end.

(** [v.get(k, default)]: only dictionaries have [get]. *)
Definition dict_get (v : json) (k : string) (default : json) : res json :=
  match v with
  | JObj kvs => Ok (match assoc k kvs with Some x => x | None => default end)
  | _ => Raise AttributeError
  end.

(** [v[k]] with a string key. *)
Definition getitem (v : json) (k : string) : res json :=
  match v with
  | JObj kvs => match assoc k kvs with Some x => Ok x | None => Raise KeyError end
  | _ => Raise TypeError
  end.

(** [v[k] = x] with a string key. *)
Definition setitem (v : json) (k : string) (x : json) : res json :=
  match v with
  | JObj kvs => Ok (JObj (assoc_set k x kvs))
  | _ => Raise TypeError
  end.

Definition is_str (k : string) (v : json) : bool :=
  match v with JStr s => String.eqb s k | _ => false end.

(** [k in v] with a string [k]: key of a dict, element of a list,
    substring of a string; the other values are not iterable. *)
Definition py_in (k : string) (v : json) : res bool :=
  match v with
  | JObj kvs => Ok (match assoc k kvs with Some _ => true | None => false end)
  | JArr l => Ok (existsb (is_str k) l)
  | JStr s => Ok (contains k s)
  | _ => Raise TypeError
  end.

Fixpoint chars (s : string) : list json :=
  match s with
  | EmptyString => []
  | String c r => JStr (String c EmptyString) :: chars r
  end.

(** [for x in v]: the elements a loop visits. *)
Definition iter (v : json) : res (list json) :=
  match v with
  | JArr l => Ok l
  | JObj kvs => Ok (List.map (fun kv => JStr (fst kv)) kvs)
  | JStr s => Ok (chars s)
  | _ => Raise TypeError
  end.

(** [v.lower()]: only strings have it. *)
Definition str_lower (v : json) : res string :=
  match v with
  | JStr s => Ok (lower s)
  | _ => Raise AttributeError
  end.

(** [len(v)] *)
Definition len (v : json) : res Z :=
  match v with
  | JArr l => Ok (Z.of_nat (length l))
  | JObj kvs => Ok (Z.of_nat (length kvs))
  | JStr s => Ok (Z.of_nat (String.length s))
  | _ => Raise TypeError
  end.

(** [v.append(x)]: only lists have it. *)
Definition append (v : json) (x : json) : res json :=
  match v with
  | JArr l => Ok (JArr (l ++ [x]))
  | _ => Raise AttributeError
  end.

(** [re.sub(r'[^\w\-]', '_', s)] on ASCII text: every character that is
    not a letter, a digit, an underscore or a hyphen becomes '_'.  Outside
    ASCII, what [\w] keeps is a matter of Unicode tables; the callers ask
    the host there (see [safe_name] below). *)
Definition is_word (c : ascii) : bool :=
  let n := N_of_ascii c in
  ((N.leb 48 n && N.leb n 57) || (N.leb 65 n && N.leb n 90) ||
   (N.leb 97 n && N.leb n 122) || N.eqb n 95 || N.eqb n 45)%bool.

Fixpoint sub_non_word (s : string) : string :=
  match s with
  | EmptyString => EmptyString
  | String c r => String (if is_word c then c else "_"%char) (sub_non_word r)
  end.

(** Whether a string is ASCII text. *)
Fixpoint is_ascii (s : string) : bool :=
  match s with
  | EmptyString => true
  | String c r => (N.ltb (N_of_ascii c) 128 && is_ascii r)%bool
  end.

(** A JSON file on disk, as [os.path.exists] and [json.load] see it:
    missing, present but failing to open or to parse, or holding a value.
    [json.dump] followed by [json.load] gives the value back; that is a
    property of Python's [json] module, which the model takes as given. *)
Inductive file : Type :=
| Absent
| Unreadable
| Content (v : json).

(** [game.get("selector", "").lower() == selector.lower()], the test all
    the configuration functions share. *)
Definition same_selector (selector : string) (game : json) : res bool :=
  let! s := dict_get game "selector" (JStr "") in
  let! l := str_lower s in
  Ok (String.eqb l (lower selector)).

End Py.

Import Py.

(** ** obs_game_recorder.py *)

Module Recorder.

(** *** What the operating system shows *)

(** A top-level window as [EnumWindows] hands it to the callback of
    [get_visible_windows]: [IsWindowVisible], the text [GetWindowTextW]
    copies (whose length is what [GetWindowTextLengthW] reports) and the
    owner given by [GetWindowThreadProcessId]. *)
Record toplevel : Type := {
  handle : Z;
  visible : bool;
  text : string;
  owner : Z
}.

(** An entry of the process table ([PROCESSENTRY32W]), as far as it is read. *)
Record process_entry : Type := {
  th32ProcessID : Z;
  szExeFile : string
}.

(** A snapshot of the system: the windows in enumeration order and the
    process table ([None] when [CreateToolhelp32Snapshot] returns -1). *)
Record snapshot : Type := {
  desktop : list toplevel;
  toolhelp : option (list process_entry)
}.

(** The dictionaries [get_visible_windows] returns. *)
Record window : Type := {
  title : string;
  win_pid : Z;
  win_hwnd : Z
}.

(** The dictionaries [get_processes_detailed] returns. *)
Record proc : Type := {
  name : string;
  pid : Z;
  window_title : string;
  hwnd : Z;
  command_line : string
}.

(** The callback [enum_callback] of [get_visible_windows] on one window:
    the dictionary it appends, if any. *)
Definition enum_callback (t : toplevel) : option window :=
  if visible t then
    if (0 <? Z.of_nat (String.length (text t))) then
      if nonempty (text t) then
        Some {| title := text t; win_pid := owner t; win_hwnd := handle t |}
      else None
    else None
  else None.

Definition get_visible_windows (os : snapshot) : list window :=
  omap enum_callback (desktop os).

(** [processes[entry.th32ProcessID] = entry.szExeFile.lower()] for every
    entry in turn: a later entry with the same id overwrites. *)
Definition get_process_list (os : snapshot) : gmap Z string :=
  match toolhelp os with
  | None => ∅
  | Some entries =>
      fold_left (fun processes entry =>
                   <[th32ProcessID entry := lower (szExeFile entry)]> processes)
                entries ∅
  end.

(** The loop of [get_processes_detailed]: one entry per process id, made
    from the first window of that process. *)
Fixpoint detailed_loop (processes_map : gmap Z string) (seen_pids : gset Z)
         (windows : list window) : list proc :=
  match windows with
  | [] => []
  | win :: rest =>
      if decide (win_pid win ∈ seen_pids) then
        detailed_loop processes_map seen_pids rest
      else
        {| name := default "" (processes_map !! win_pid win);
           pid := win_pid win;
           window_title := title win;
           hwnd := win_hwnd win;
           command_line := "" |}
        :: detailed_loop processes_map ({[win_pid win]} ∪ seen_pids) rest
  end.

Definition get_processes_detailed (os : snapshot) : list proc :=
  detailed_loop (get_process_list os) ∅ (get_visible_windows os).

(** The loop of [is_program_running]. *)
Fixpoint first_match (target_lower : string) (processes : list proc)
  : bool * option proc :=
  match processes with
  | [] => (false, None)
  | p :: rest =>
      if contains target_lower (lower (window_title p)) then (true, Some p)
      else if contains target_lower (name p) then (true, Some p)
      else first_match target_lower rest
  end.

(** [is_program_running(target_name, processes=None)]; [target_name] is
    whatever the configuration holds under "selector". *)
Definition is_program_running (os : snapshot) (target_name : json)
           (processes : option (list proc)) : res (bool * option proc) :=
  if negb (truthy target_name) then Ok (false, None)
  else
    let processes :=
      match processes with
      | Some ps => ps
      | None => get_processes_detailed os
      end in
    let! target_lower := str_lower target_name in
    Ok (first_match target_lower processes).

(** *** The configuration and the files around it *)

(** What the machine allows: whether [games_config.json] can be opened for
    writing, which file descriptors are open ([os.path.exists] of an
    integer), which files [os.remove] manages to delete, whether the icon
    directory can be created, where it is, whether the icon of a
    window can be extracted to a path ([extract_icon_from_window], which
    catches its own errors), and what [re.sub(r'[^\w\-]', '_', s)] makes
    of a string that is not ASCII text. *)
Record host : Type := {
  can_write : bool;
  fd_open : Z -> bool;
  can_remove : string -> bool;
  can_mkdir : bool;
  ICONS_DIR : string;
  extract_icon_from_window : Z -> string -> bool;
  sub_unicode : string -> string
}.

(** The global [games_config], the configuration file, the other files
    that exist (icons) and whether the icon directory exists. *)
Record world : Type := {
  games_config : json;
  config_file : file;
  files : list string;
  icons_dir : bool
}.

Definition set_games_config (v : json) (w : world) : world :=
  {| games_config := v; config_file := config_file w;
     files := files w; icons_dir := icons_dir w |}.

Definition set_config_file (f : file) (w : world) : world :=
  {| games_config := games_config w; config_file := f;
     files := files w; icons_dir := icons_dir w |}.

Definition set_files (l : list string) (w : world) : world :=
  {| games_config := games_config w; config_file := config_file w;
     files := l; icons_dir := icons_dir w |}.

Definition set_icons_dir (b : bool) (w : world) : world :=
  {| games_config := games_config w; config_file := config_file w;
     files := files w; icons_dir := b |}.

(** The value the module starts with: [games_config = {"games": []}]. *)
Definition empty_config : json := JObj [("games", JArr [])].

(** [save_config()]: the whole of [games_config] replaces the file; a
    failure is logged and swallowed. *)
Definition save_config (h : host) (w : world) : world :=
  if can_write h then set_config_file (Content (games_config w)) w else w.

(** [load_config()] *)
Definition load_config (h : host) (w : world) : json * world :=
  match config_file w with
  | Content v =>
      let w1 := set_games_config v w in
      match (let! present := py_in "games" v in
             if negb present then setitem v "games" (JArr []) else Ok v) with
      | Ok v' => (v', set_games_config v' w1)
      | Raise _ => (empty_config, set_games_config empty_config w1)
      end
  | Unreadable => (empty_config, set_games_config empty_config w)
  | Absent =>
      let w1 := save_config h (set_games_config empty_config w) in
      (games_config w1, w1)
  end.

(** The loop head shared by [add_game], [remove_game] and
    [set_game_enabled]: the first entry whose selector is the given one,
    with its position. *)
Fixpoint first_with_selector (selector : string) (i : nat) (games : list json)
  : res (option (nat * json)) :=
  match games with
  | [] => Ok None
  | game :: rest =>
      let! same := same_selector selector game in
      if same then Ok (Some (i, game))
      else first_with_selector selector (S i) rest
  end.

(** [games_config.get("games", [])] as the list a [for] loop walks. *)
Definition games_of (config : json) : res (list json) :=
  let! games := dict_get config "games" (JArr []) in
  iter games.

(** [add_game(name, selector, enabled=True)] *)
Definition add_game (h : host) (name selector : string)
           (enabled : option bool) (w : world)
  : res (bool * string) * world :=
  let enabled := default true enabled in
  match (let! games := games_of (games_config w) in
         first_with_selector selector 0 games) with
  | Raise e => (Raise e, w)
  | Ok (Some _) => (Ok (false, "Game with this selector already exists"), w)
  | Ok None =>
      let game := JObj [("name", JStr name);
                        ("selector", JStr selector);
                        ("icon_path", JStr "");
                        ("enabled", JBool enabled)] in
      match (let! games := getitem (games_config w) "games" in
             let! games' := append games game in
             setitem (games_config w) "games" games') with
      | Raise e => (Raise e, w)
      | Ok config =>
          (Ok (true, "Game added successfully"),
           save_config h (set_games_config config w))
      end
  end.

(** [os.path.exists(v)]: a path, or an integer taken as a file
    descriptor; other values are a [TypeError]. *)
Definition os_path_exists (h : host) (w : world) (v : json) : res bool :=
  match v with
  | JStr p => Ok (existsb (String.eqb p) (files w))
  | JNum n => Ok (fd_open h n)
  | JBool b => Ok (fd_open h (if b then 1 else 0))
  | _ => Raise TypeError
  end.

(** [try: os.remove(v)  except: pass] *)
Definition os_remove (h : host) (v : json) (w : world) : world :=
  match v with
  | JStr p =>
      if (existsb (String.eqb p) (files w) && can_remove h p)%bool
      then set_files (List.filter (fun q => negb (String.eqb p q)) (files w)) w
      else w
  | _ => w
  end.

(** The list comprehension of [remove_game]. *)
Fixpoint without_selector (selector : string) (games : list json)
  : res (list json) :=
  match games with
  | [] => Ok []
  | g :: rest =>
      let! same := same_selector selector g in
      let! rest' := without_selector selector rest in
      Ok (if same then rest' else g :: rest')
  end.

(** The first loop of [remove_game]: the icon file of the first entry with
    the selector is deleted, if it has one that exists. *)
Definition remove_icon (h : host) (selector : string) (w : world) : res world :=
  let! games := games_of (games_config w) in
  let! found := first_with_selector selector 0 games in
  match found with
  | None => Ok w
  | Some (_, game) =>
      let! icon := dict_get game "icon_path" JNull in
      if truthy icon then
        let! there := os_path_exists h w icon in
        Ok (if there then os_remove h icon w else w)
      else Ok w
  end.

(** [remove_game(selector)] *)
Definition remove_game (h : host) (selector : string) (w : world)
  : res unit * world :=
  match remove_icon h selector w with
  | Raise e => (Raise e, w)
  | Ok w1 =>
      match (let! games := games_of (games_config w1) in
             let! kept := without_selector selector games in
             setitem (games_config w1) "games" (JArr kept)) with
      | Raise e => (Raise e, w1)
      | Ok config => (Ok tt, save_config h (set_games_config config w1))
      end
  end.

(** Assignment to a key of the [i]-th entry of the list under "games":
    the entries are objects shared with that list, so the list changes. *)
Definition store_game (i : nat) (game : json) (config : json) : json :=
  match config with
  | JObj kvs =>
      match assoc "games" kvs with
      | Some (JArr games) =>
          JObj (assoc_set "games" (JArr (<[i := game]> games)) kvs)
      | _ => config
      end
  | _ => config
  end.

(** [set_game_enabled(selector, enabled)] *)
Definition set_game_enabled (h : host) (selector : string) (enabled : bool)
           (w : world) : res bool * world :=
  match (let! games := games_of (games_config w) in
         let! found := first_with_selector selector 0 games in
         match found with
         | None => Ok None
         | Some (i, game) =>
             let! game' := setitem game "enabled" (JBool enabled) in
             Ok (Some (store_game i game' (games_config w)))
         end) with
  | Raise e => (Raise e, w)
  | Ok None => (Ok false, w)
  | Ok (Some config) => (Ok true, save_config h (set_games_config config w))
  end.

(** *** Detection over the configured games *)

(** [ensure_icons_dir()]: [os.makedirs] raises when it cannot create. *)
Definition ensure_icons_dir (h : host) (w : world) : res unit * world :=
  if icons_dir w then (Ok tt, w)
  else if can_mkdir h then (Ok tt, set_icons_dir true w)
  else (Raise OSError, w).

(** [safe_name = re.sub(r'[^\w\-]', '_', game['name'])] *)
Definition safe_name (h : host) (game_name : string) : string :=
  if is_ascii game_name then sub_non_word game_name
  else sub_unicode h game_name.

(** [os.path.join(ICONS_DIR, f"{safe_name}.png")] *)
Definition icon_file (h : host) (game_name : string) : string :=
  ICONS_DIR h +:+ "\" +:+ safe_name h game_name +:+ ".png".

(** [try_extract_icon_for_game(game, proc)], where [game] is the [i]-th
    entry of the configured list; the result is [game] as the call leaves
    it. *)
Definition try_extract_icon_for_game (h : host) (i : nat) (game : json)
           (p : proc) (w : world) : res json * world :=
  match (let! icon := dict_get game "icon_path" JNull in
         if truthy icon then os_path_exists h w icon else Ok false) with
  | Raise e => (Raise e, w)
  | Ok true => (Ok game, w)
  | Ok false =>
      match ensure_icons_dir h w with
      | (Raise e, w1) => (Raise e, w1)
      | (Ok _, w1) =>
          match (let! n := getitem game "name" in
                 match n with
                 | JStr s => Ok (icon_file h s)
                 | _ => Raise TypeError
                 end) with
          | Raise e => (Raise e, w1)
          | Ok icon_path =>
              if (negb (hwnd p =? 0) &&
                  extract_icon_from_window h (hwnd p) icon_path)%bool then
                match setitem game "icon_path" (JStr icon_path) with
                | Raise e => (Raise e, w1)
                | Ok game' =>
                    let w2 := set_files (icon_path :: files w1) w1 in
                    (Ok game',
                     save_config h
                       (set_games_config (store_game i game' (games_config w2)) w2))
                end
              else (Ok game, w1)
          end
      end
  end.

(** The loop of [check_any_game_running] from the [i]-th entry on. *)
Fixpoint check_games (h : host) (os : snapshot) (processes : list proc)
         (i : nat) (games : list json) (w : world)
  : res (option json * option proc) * world :=
  match games with
  | [] => (Ok (None, None), w)
  | game :: rest =>
      match dict_get game "enabled" (JBool true) with
      | Raise e => (Raise e, w)
      | Ok enabled =>
          if negb (truthy enabled) then check_games h os processes (S i) rest w
          else
            match dict_get game "selector" (JStr "") with
            | Raise e => (Raise e, w)
            | Ok selector =>
                if truthy selector then
                  match is_program_running os selector (Some processes) with
                  | Raise e => (Raise e, w)
                  | Ok (true, Some p) =>
                      match try_extract_icon_for_game h i game p w with
                      | (Raise e, w') => (Raise e, w')
                      | (Ok game', w') => (Ok (Some game', Some p), w')
                      end
                  | Ok (true, None) => (Raise AttributeError, w)
                  | Ok (false, _) => check_games h os processes (S i) rest w
                  end
                else check_games h os processes (S i) rest w
            end
      end
  end.

(** [check_any_game_running(processes=None)] *)
Definition check_any_game_running (h : host) (os : snapshot)
           (processes : option (list proc)) (w : world)
  : res (option json * option proc) * world :=
  let processes :=
    match processes with
    | Some ps => ps
    | None => get_processes_detailed os
    end in
  match games_of (games_config w) with
  | Raise e => (Raise e, w)
  | Ok games => check_games h os processes 0 games w
  end.

(** *** The OBS script interface *)

(** The settings object OBS hands to the script ([obs_data]), as the
    functions [obs_data_get_string], [obs_data_get_bool] and
    [obs_data_get_int] read it. *)
Record obs_data : Type := {
  get_string : string -> string;
  get_bool : string -> bool;
  get_int : string -> Z
}.

(** [obs.obs_data_set_string(settings, key, value)] *)
Definition set_string (key value : string) (settings : obs_data) : obs_data :=
  {| get_string := fun k => if String.eqb k key then value else get_string settings k;
     get_bool := get_bool settings;
     get_int := get_int settings |}.

(** What the script asks of the OBS frontend. *)
Inductive command : Type :=
| RecordingStart
| RecordingStop.

(** The other globals of the script; they start as
    [is_recording_for_game = False], [current_game = None],
    [current_settings = None] and [check_interval = 3000]. *)
Record script : Type := {
  is_recording_for_game : bool;
  current_game : option json;
  current_settings : option obs_data;
  check_interval : Z
}.

Definition initial_script : script :=
  {| is_recording_for_game := false; current_game := None;
     current_settings := None; check_interval := 3000 |}.

Definition set_recording (b : bool) (g : option json) (s : script) : script :=
  {| is_recording_for_game := b; current_game := g;
     current_settings := current_settings s;
     check_interval := check_interval s |}.

Definition set_settings (d : obs_data) (s : script) : script :=
  {| is_recording_for_game := is_recording_for_game s;
     current_game := current_game s;
     current_settings := Some d;
     check_interval := check_interval s |}.

Definition set_interval (n : Z) (s : script) : script :=
  {| is_recording_for_game := is_recording_for_game s;
     current_game := current_game s;
     current_settings := current_settings s;
     check_interval := n |}.

(** Truth value of what [check_any_game_running] returns as game. *)
Definition game_found (game : option json) : bool :=
  match game with
  | Some g => truthy g
  | None => false
  end.

(** [check_program_callback()], the timer callback; [recording_active] is
    what [obs_frontend_recording_active()] answers.  The result lists the
    commands sent to the frontend. *)
Definition check_program_callback (h : host) (os : snapshot)
           (recording_active : bool) (s : script) (w : world)
  : res (list command) * script * world :=
  match check_any_game_running h os None w with
  | (Raise e, w') => (Raise e, s, w')
  | (Ok (game, p), w') =>
      if (game_found game && negb recording_active &&
          negb (is_recording_for_game s))%bool then
        match (match game, p with
               | Some g, Some _ => getitem g "name"
               | _, _ => Raise TypeError
               end) with
        | Raise e => (Raise e, s, w')
        | Ok _ => (Ok [RecordingStart], set_recording true game s, w')
        end
      else if (negb (game_found game) && is_recording_for_game s)%bool then
        match (match current_game s with
               | Some g => if truthy g then getitem g "name" else Ok (JStr "game")
               | None => Ok (JStr "game")
               end) with
        | Raise e => (Raise e, s, w')
        | Ok _ => (Ok [RecordingStop], set_recording false None s, w')
        end
      else (Ok [], s, w')
  end.

(** The timer firing again and again: each firing meets a snapshot of the
    system, an answer of the frontend and whatever the configuration is by
    then; an exception ends that firing only. *)
Fixpoint run_timer (h : host) (ticks : list (snapshot * bool * world))
         (s : script) : list command * script :=
  match ticks with
  | [] => ([], s)
  | (os, recording_active, w) :: rest =>
      let '(r, s', _) := check_program_callback h os recording_active s w in
      let '(commands, s'') := run_timer h rest s' in
      ((catch r [] ++ commands)%list, s'')
  end.

(** The lists [system_titles] and [system_procs] of
    [on_detect_running_clicked]. *)
Definition system_titles : list string :=
  ["program manager"; "settings"; "task manager"; "obs"].

Definition system_procs : list string :=
  ["explorer.exe"; "cmd.exe"; "powershell.exe"; "code.exe";
   "chrome.exe"; "firefox.exe"; "msedge.exe"; "obs64.exe"; "obs32.exe";
   "searchhost.exe"; "textinputhost.exe"; "shellexperiencehost.exe"].

(** A window the detection button passes over. *)
Definition is_system_window (processes_map : gmap Z string) (win : window)
  : bool :=
  (existsb (String.eqb (default "" (processes_map !! win_pid win))) system_procs ||
   existsb (fun t => contains t (lower (title win))) system_titles)%bool.

(** The loop of [on_detect_running_clicked]: the title of the first window
    that is not a system window. *)
Fixpoint first_candidate (processes_map : gmap Z string) (windows : list window)
  : option string :=
  match windows with
  | [] => None
  | win :: rest =>
      if existsb (String.eqb (default "" (processes_map !! win_pid win)))
                 system_procs
      then first_candidate processes_map rest
      else if existsb (fun t => contains t (lower (title win))) system_titles
      then first_candidate processes_map rest
      else Some (title win)
  end.

(** [on_detect_running_clicked(props, prop)] *)
Definition on_detect_running_clicked (os : snapshot) (s : script)
  : bool * script :=
  match current_settings s with
  | None => (false, s)
  | Some settings =>
      let windows := get_visible_windows os in
      let processes_map := get_process_list os in
      match first_candidate processes_map windows with
      | Some t => (true, set_settings (set_string "new_game_selector" t settings) s)
      | None =>
          match windows with
          | win :: _ =>
              (true, set_settings (set_string "new_game_selector" (title win) settings) s)
          | [] => (true, s)
          end
      end
  end.

(** The loop of [on_add_game_clicked] and [on_remove_game_clicked] that
    looks for [g['selector'] == selector]. *)
Fixpoint first_exact (selector : string) (i : nat) (games : list json)
  : res (option (nat * json)) :=
  match games with
  | [] => Ok None
  | g :: rest =>
      let! sel := getitem g "selector" in
      if is_str selector sel then Ok (Some (i, g))
      else first_exact selector (S i) rest
  end.

(** [on_add_game_clicked(props, prop)] *)
Definition on_add_game_clicked (h : host) (os : snapshot) (s : script)
           (w : world) : res bool * script * world :=
  match current_settings s with
  | None => (Ok false, s, w)
  | Some settings =>
      let name := strip (get_string settings "new_game_name") in
      let selector := strip (get_string settings "new_game_selector") in
      if negb (nonempty name) then (Ok false, s, w)
      else if negb (nonempty selector) then (Ok false, s, w)
      else
        let w1 := (load_config h w).2 in
        match add_game h name selector (Some true) w1 with
        | (Raise e, w2) => (Raise e, s, w2)
        | (Ok (false, _), w2) => (Ok true, s, w2)
        | (Ok (true, _), w2) =>
            let s' := set_settings
                        (set_string "new_game_selector" ""
                           (set_string "new_game_name" "" settings)) s in
            let processes := get_processes_detailed os in
            match is_program_running os (JStr selector) (Some processes) with
            | Raise e => (Raise e, s', w2)
            | Ok (true, Some p) =>
                match (let! games := games_of (games_config w2) in
                       first_exact selector 0 games) with
                | Raise e => (Raise e, s', w2)
                | Ok (Some (i, g)) =>
                    match try_extract_icon_for_game h i g p w2 with
                    | (Raise e, w3) => (Raise e, s', w3)
                    | (Ok _, w3) => (Ok true, s', w3)
                    end
                | Ok None => (Ok true, s', w2)
                end
            | Ok (true, None) => (Raise AttributeError, s', w2)
            | Ok (false, _) => (Ok true, s', w2)
            end
        end
  end.

(** [on_remove_game_clicked(props, prop)] *)
Definition on_remove_game_clicked (h : host) (s : script) (w : world)
  : res bool * world :=
  match current_settings s with
  | None => (Ok false, w)
  | Some settings =>
      let selector := get_string settings "remove_game_selector" in
      if nonempty selector then
        let w1 := (load_config h w).2 in
        match (let! games := games_of (games_config w1) in
               let! found := first_exact selector 0 games in
               match found with
               | Some (_, g) => getitem g "name"
               | None => Ok JNull
               end) with
        | Raise e => (Raise e, w1)
        | Ok _ =>
            match remove_game h selector w1 with
            | (Raise e, w2) => (Raise e, w2)
            | (Ok _, w2) => (Ok true, w2)
            end
        end
      else (Ok true, w)
  end.

Section Panel.

(** [str(v)] for a value that is not a string, as an f-string inserts it. *)
Variable py_str : json -> string.

(** [f"game_enabled_{game['selector']}"] *)
Definition setting_name (selector : json) : string :=
  "game_enabled_" +:+ match selector with
                      | JStr s => s
                      | v => py_str v
                      end.

(** The loop of [on_game_checkbox_changed] and [script_update]: every
    entry takes the flag the settings hold for its selector.  The entries
    are changed in place, so what was done stays done when an entry
    raises. *)
Fixpoint sync_enabled (settings : obs_data) (games : list json)
  : res unit * list json :=
  match games with
  | [] => (Ok tt, [])
  | game :: rest =>
      match (let! selector := getitem game "selector" in
             setitem game "enabled"
               (JBool (get_bool settings (setting_name selector)))) with
      | Raise e => (Raise e, game :: rest)
      | Ok game' =>
          let '(r, rest') := sync_enabled settings rest in
          (r, game' :: rest')
      end
  end.

(** The entries of the list under "games" after such a loop. *)
Definition store_all (games : list json) (config : json) : json :=
  match config with
  | JObj kvs =>
      match assoc "games" kvs with
      | Some (JArr _) => JObj (assoc_set "games" (JArr games) kvs)
      | _ => config
      end
  | _ => config
  end.

(** [on_game_checkbox_changed(props, prop, settings)] *)
Definition on_game_checkbox_changed (h : host) (settings : obs_data)
           (w : world) : res bool * world :=
  match games_of (games_config w) with
  | Raise e => (Raise e, w)
  | Ok games =>
      match sync_enabled settings games with
      | (Raise e, games') =>
          (Raise e, set_games_config (store_all games' (games_config w)) w)
      | (Ok _, games') =>
          (Ok true,
           save_config h (set_games_config (store_all games' (games_config w)) w))
      end
  end.

(** [sum(1 for g in games if g.get('enabled', True))] *)
Fixpoint count_enabled (games : list json) : res Z :=
  match games with
  | [] => Ok 0
  | g :: rest =>
      let! enabled := dict_get g "enabled" (JBool true) in
      let! n := count_enabled rest in
      Ok (if truthy enabled then 1 + n else n)
  end.

(** [script_update(settings)]; its loop over the games and the
    [save_config()] after it are those of [on_game_checkbox_changed].  The
    result is the number of enabled games it logs. *)
Definition script_update (h : host) (settings : obs_data) (s : script)
           (w : world) : res Z * script * world :=
  let s1 := set_interval (get_int settings "check_interval")
              (set_settings settings s) in
  let w1 := (load_config h w).2 in
  match on_game_checkbox_changed h settings w1 with
  | (Raise e, w2) => (Raise e, s1, w2)
  | (Ok _, w2) =>
      match (let! games := games_of (games_config w2) in count_enabled games) with
      | Raise e => (Raise e, s1, w2)
      | Ok n => (Ok n, s1, w2)
      end
  end.

End Panel.

(** [script_load(settings)] *)
Definition script_load (h : host) (settings : obs_data) (s : script)
           (w : world) : script * world :=
  (set_settings settings s, (load_config h w).2).

End Recorder.

(** ** debug_process_checker.py *)

Module Manager.

(** A text file ([watcher.pid], [game_state]): missing, present but
    failing to open or read, or holding text. *)
Inductive text_file : Type :=
| NoFile
| Unopenable
| Text (s : string).

(** The files the tool works on, whether [games_config.json] can be
    opened for writing, and the lines still to be read by [input()]. *)
Record world : Type := {
  config_file : file;
  pid_file : text_file;
  state_file : text_file;
  can_write : bool;
  stdin : list string
}.

Definition set_config_file (f : file) (w : world) : world :=
  {| config_file := f; pid_file := pid_file w; state_file := state_file w;
     can_write := can_write w; stdin := stdin w |}.

Definition set_stdin (l : list string) (w : world) : world :=
  {| config_file := config_file w; pid_file := pid_file w;
     state_file := state_file w; can_write := can_write w; stdin := l |}.

Definition empty_config : json := JObj [("games", JArr [])].

(** [load_config()] *)
Definition load_config (w : world) : json :=
  match config_file w with
  | Content v => v
  | Unreadable => empty_config
  | Absent => empty_config
  end.

(** [save_config(config)]: nothing is caught here. *)
Definition save_config (config : json) (w : world) : res unit * world :=
  if can_write w then (Ok tt, set_config_file (Content config) w)
  else (Raise OSError, w).

(** [input(...)] *)
Definition input (w : world) : res string * world :=
  match stdin w with
  | [] => (Raise EOFError, w)
  | line :: rest => (Ok line, set_stdin rest w)
  end.

(** The dictionaries the tool's [get_visible_windows] returns: a title
    and a process id, no handle. *)
Record window : Type := {
  title : string;
  win_pid : Z
}.

(** The callback of [get_visible_windows] on one window. *)
Definition callback (t : Recorder.toplevel) : option window :=
  if Recorder.visible t then
    if (0 <? Z.of_nat (String.length (Recorder.text t))) then
      if nonempty (Recorder.text t) then
        Some {| title := Recorder.text t; win_pid := Recorder.owner t |}
      else None
    else None
  else None.

Definition get_visible_windows (os : Recorder.snapshot) : list window :=
  omap callback (Recorder.desktop os).

(** [get_process_list()], as in the script. *)
Definition get_process_list (os : Recorder.snapshot) : gmap Z string :=
  match Recorder.toolhelp os with
  | None => ∅
  | Some entries =>
      fold_left (fun processes entry =>
                   <[Recorder.th32ProcessID entry :=
                       lower (Recorder.szExeFile entry)]> processes)
                entries ∅
  end.

(** [search_windows(term)]: the windows whose title or process name
    contains the term; it prints them and touches nothing. *)
Definition search_windows (os : Recorder.snapshot) (term : string)
  : list (window * string) :=
  let windows := get_visible_windows os in
  let procs := get_process_list os in
  let term_lower := lower term in
  omap (fun w =>
          let proc := default "" (procs !! win_pid w) in
          if (contains term_lower (lower (title w)) ||
              contains term_lower proc)%bool
          then Some (w, proc) else None)
       windows.

(** What the loop of [list_games] evaluates for each entry. *)
Fixpoint list_entries (games : list json) : res unit :=
  match games with
  | [] => Ok tt
  | g :: rest =>
      let! _enabled := dict_get g "enabled" (JBool true) in
      let! _name := getitem g "name" in
      let! _selector := getitem g "selector" in
      list_entries rest
  end.

(** [list_games()]: prints the configured games. *)
Definition list_games (w : world) : res unit :=
  let config := load_config w in
  let! games := dict_get config "games" (JArr []) in
  if negb (truthy games) then Ok tt
  else
    let! entries := iter games in
    list_entries entries.

(** The dictionary written by the interactive add and by [--add]. *)
Definition new_game (name selector : string) : json :=
  JObj [("name", JStr name);
        ("selector", JStr selector);
        ("icon_path", JStr "");
        ("enabled", JBool true)].

(** The loop of [add_game_interactive] that looks for the selector. *)
Fixpoint already_exists (selector : string) (games : list json) : res bool :=
  match games with
  | [] => Ok false
  | g :: rest =>
      let! same := same_selector selector g in
      if same then Ok true else already_exists selector rest
  end.

(** How [add_game_interactive] ends when it returns: silently on an empty
    answer, after printing "Already exists!", or after printing "Added". *)
Inductive add_outcome : Type :=
| Cancelled
| AlreadyExists
| Added.

(** [add_game_interactive()]; the call of [search_windows] between the
    second and the third line read only prints. *)
Definition add_game_interactive (w : world) : res add_outcome * world :=
  match input w with
  | (Raise e, w0) => (Raise e, w0)
  | (Ok _, w0) =>
  match input w0 with
  | (Raise e, w1) => (Raise e, w1)
  | (Ok line1, w1) =>
  let term := strip line1 in
  if negb (nonempty term) then (Ok Cancelled, w1) else
  match input w1 with
  | (Raise e, w2) => (Raise e, w2)
  | (Ok line2, w2) =>
  let name := strip line2 in
  if negb (nonempty name) then (Ok Cancelled, w2) else
  match input w2 with
  | (Raise e, w3) => (Raise e, w3)
  | (Ok line3, w3) =>
  let selector := if nonempty (strip line3) then strip line3 else term in
  let config := load_config w3 in
  match (let! entries := Recorder.games_of config in
         already_exists selector entries) with
  | Raise e => (Raise e, w3)
  | Ok true => (Ok AlreadyExists, w3)
  | Ok false =>
      match (let! games := getitem config "games" in
             let! games' := append games (new_game name selector) in
             setitem config "games" games') with
      | Raise e => (Raise e, w3)
      | Ok config' =>
          match save_config config' w3 with
          | (Raise e, w4) => (Raise e, w4)
          | (Ok _, w4) => (Ok Added, w4)
          end
      end
  end
  end end end end.

(** The [--add] branch of the command line:
    [elif cmd == "--add" and len(sys.argv) > 3]. [None] when [argv]
    selects another branch. *)
Definition main_add (argv : list string) (w : world)
  : option (res unit * world) :=
  match argv with
  | _ :: cmd :: name :: selector :: _ =>
      if String.eqb cmd "--add" then
        let config := load_config w in
        Some
          match (let! games := getitem config "games" in
                 let! games' := append games (new_game name selector) in
                 setitem config "games" games') with
          | Raise e => (Raise e, w)
          | Ok config' => save_config config' w
          end
      else None
  | _ => None
  end.

Section Builtins.

(** [int(s)] for a string, which raises [ValueError] on what is not a
    number, and [kernel32.OpenProcess(0x1000, False, pid)], which gives
    a handle (0 when it fails) or raises when the argument does not fit
    the C type. *)
Variable py_int : string -> res Z.
Variable OpenProcess : Z -> res Z.

(** [games.pop(i)] for the indices the callers use, [0 <= i]. *)
Definition pop (games : json) (i : Z) : res (json * json) :=
  match games with
  | JArr l =>
      match l !! Z.to_nat i with
      | Some g => Ok (g, JArr (delete (Z.to_nat i) l))
      | None => Raise IndexError
      end
  | JObj _ => Raise KeyError
  | _ => Raise AttributeError
  end.

(** The list held under "games" is changed in place: [config] sees it. *)
Definition store_games (games : json) (config : json) : json :=
  match config with
  | JObj kvs => JObj (assoc_set "games" games kvs)
  | _ => config
  end.

(** [remove_game_interactive()] *)
Definition remove_game_interactive (w : world) : res unit * world :=
  let config := load_config w in
  match list_games w with
  | Raise e => (Raise e, w)
  | Ok _ =>
      match dict_get config "games" (JArr []) with
      | Raise e => (Raise e, w)
      | Ok games =>
          if negb (truthy games) then (Ok tt, w)
          else
            match input w with
            | (Raise _, w1) => (Ok tt, w1)
            | (Ok line, w1) =>
                match py_int line with
                | Raise _ => (Ok tt, w1)
                | Ok choice =>
                    if choice =? 0 then (Ok tt, w1)
                    else
                      match (let! n := len games in
                             if ((1 <=? choice) && (choice <=? n))%bool then
                               let! popped := pop games (choice - 1) in
                               Ok (Some (store_games (snd popped) config))
                             else Ok None) with
                      | Ok (Some config') =>
                          (Ok tt, snd (save_config config' w1))
                      | _ => (Ok tt, w1)
                      end
                end
            end
      end
  end.

(** [games[i]] with an integer index, for the indices the callers
    use, [0 <= i]. *)
Definition index (games : json) (i : Z) : res json :=
  match games with
  | JArr l =>
      match l !! Z.to_nat i with
      | Some g => Ok g
      | None => Raise IndexError
      end
  | JStr s =>
      match chars s !! Z.to_nat i with
      | Some c => Ok c
      | None => Raise IndexError
      end
  | JObj _ => Raise KeyError
  | _ => Raise TypeError
  end.

(** [toggle_game_interactive()] *)
Definition toggle_game_interactive (w : world) : res unit * world :=
  let config := load_config w in
  match list_games w with
  | Raise e => (Raise e, w)
  | Ok _ =>
      match dict_get config "games" (JArr []) with
      | Raise e => (Raise e, w)
      | Ok games =>
          if negb (truthy games) then (Ok tt, w)
          else
            match input w with
            | (Raise _, w1) => (Ok tt, w1)
            | (Ok line, w1) =>
                match py_int line with
                | Raise _ => (Ok tt, w1)
                | Ok choice =>
                    if choice =? 0 then (Ok tt, w1)
                    else
                      match (let! n := len games in
                             if ((1 <=? choice) && (choice <=? n))%bool then
                               let! g := index games (choice - 1) in
                               let! enabled := dict_get g "enabled" (JBool true) in
                               let! g' := setitem g "enabled" (JBool (negb (truthy enabled))) in
                               Ok (Some (Recorder.store_game
                                           (Z.to_nat (choice - 1)) g' config))
                             else Ok None) with
                      | Ok (Some config') =>
                          (Ok tt, snd (save_config config' w1))
                      | _ => (Ok tt, w1)
                      end
                end
            end
      end
  end.

(** [is_watcher_running()] *)
Definition is_watcher_running (w : world) : bool * option Z :=
  match pid_file w with
  | NoFile => (false, None)
  | Unopenable => (false, None)
  | Text s =>
      match (let! pid := py_int (strip s) in
             let! handle := OpenProcess pid in
             Ok (pid, handle)) with
      | Ok (pid, handle) =>
          if negb (handle =? 0) then (true, Some pid) else (false, None)
      | Raise _ => (false, None)
      end
  end.

(** [get_watcher_state()] *)
Definition get_watcher_state (w : world) : option string :=
  match state_file w with
  | Text s => Some (strip s)
  | Unopenable => None
  | NoFile => None
  end.

(** Whether [os.remove] manages to delete the file of that name. *)
Variable os_remove_ok : string -> bool.

Definition set_pid_file (f : text_file) (w : world) : world :=
  {| config_file := config_file w; pid_file := f; state_file := state_file w;
     can_write := can_write w; stdin := stdin w |}.

Definition set_state_file (f : text_file) (w : world) : world :=
  {| config_file := config_file w; pid_file := pid_file w; state_file := f;
     can_write := can_write w; stdin := stdin w |}.

(** What [stop_watcher] prints. *)
Inductive stop_outcome : Type :=
| NotRunning
| Stopped (pid : option Z)
| StopError.

(** What [stop_watcher] asks of the system besides removing files:
    [kernel32.TerminateProcess(kernel32.OpenProcess(1, False, pid), 0)]. *)
Inductive request : Type :=
| TerminateProcess (pid : option Z).

(** [if os.path.exists(path): os.remove(path)] *)
Definition remove_if_exists (name : string) (f : text_file) : res text_file :=
  match f with
  | NoFile => Ok NoFile
  | _ => if os_remove_ok name then Ok NoFile else Raise OSError
  end.

(** [stop_watcher()], with the requests it has made of the system.  The
    termination comes first in the [try] block; its result and that of
    the [OpenProcess] inside it are not looked at, and the two calls get
    the [pid] that [OpenProcess] has accepted in [is_watcher_running]. *)
Definition stop_watcher (w : world) : stop_outcome * list request * world :=
  match is_watcher_running w with
  | (false, _) => (NotRunning, [], w)
  | (true, pid) =>
      let requests := [TerminateProcess pid] in
      match remove_if_exists "watcher.pid" (pid_file w) with
      | Raise _ => (StopError, requests, w)
      | Ok f =>
          let w1 := set_pid_file f w in
          match remove_if_exists "game_state" (state_file w1) with
          | Raise _ => (StopError, requests, w1)
          | Ok f' => (Stopped pid, requests, set_state_file f' w1)
          end
      end
  end.

(** What [show_status] prints: whether the watcher runs, the PID when
    there is one to show ([if pid:]), the state ([state or 'N/A']), and
    the numbers of enabled and of configured games. *)
Definition show_status (w : world)
  : res (bool * option Z * string * Z * Z) :=
  let '(running, pid) := is_watcher_running w in
  let state := get_watcher_state w in
  let config := load_config w in
  let! games := Recorder.games_of config in
  let! enabled := Recorder.count_enabled games in
  let! all := dict_get config "games" (JArr []) in
  let! total := len all in
  Ok (running,
      match pid with
      | Some p => if p =? 0 then None else Some p
      | None => None
      end,
      match state with
      | Some s => if nonempty s then s else "N/A"
      | None => "N/A"
      end,
      enabled, total).

End Builtins.

End Manager.


(** ** The properties of the specification, as they are written *)

Module Spec.

Import Recorder.

(** What the detection routine answers for a selector, on a snapshot of the
    system: [is_program_running(selector)] with the process list it builds
    itself, as [check_any_game_running] uses it. *)
Definition detected (os : snapshot) (selector : string) : bool :=
  match is_program_running os (JStr selector) None with
  | Ok (running, _) => running
  | Raise _ => false
  end.

(** "case-insensitive substring" *)
Definition ci_substring (selector s : string) : bool :=
  contains (lower selector) (lower s).

(** The titles of the visible windows and the names of the running
    executables of a snapshot. *)
Definition visible_titles (os : snapshot) : list string :=
  List.map text (List.filter visible (desktop os)).

Definition running_names (os : snapshot) : list string :=
  match toolhelp os with
  | Some entries => List.map szExeFile entries
  | None => []
  end.

(** Section 8 (a): the selector is a case-insensitive substring of some
    visible window title or running executable name. *)
Definition detected_as_specified (os : snapshot) (selector : string) : bool :=
  (existsb (ci_substring selector) (visible_titles os) ||
   existsb (ci_substring selector) (running_names os))%bool.

(** A process entry whose lower-cased window title, or whose process name,
    contains the lower-cased selector. *)
Definition hit (target_lower : string) (p : proc) : bool :=
  (contains target_lower (lower (window_title p)) ||
   contains target_lower (name p))%bool.

(** The entry [get_processes_detailed] makes from a window. *)
Definition proc_of (processes_map : gmap Z string) (win : window) : proc :=
  {| name := default "" (processes_map !! win_pid win);
     pid := win_pid win;
     window_title := title win;
     hwnd := win_hwnd win;
     command_line := "" |}.

(** The dictionary [get_visible_windows] makes from a window. *)
Definition window_of (t : toplevel) : window :=
  {| title := text t; win_pid := owner t; win_hwnd := handle t |}.

(** A window that [get_visible_windows] keeps. *)
Definition shown (t : toplevel) : Prop :=
  visible t = true /\ text t <> "".

(** The first shown window of its process, in enumeration order. *)
Definition leading_window (os : snapshot) (t : toplevel) : Prop :=
  exists before after,
    desktop os = (before ++ t :: after)%list /\
    shown t /\
    forall u, In u before -> shown u -> owner u <> owner t.

(** The entry of the process table that gives a process id its name: the
    last one with that id. *)
Definition names_process (os : snapshot) (id : Z) (e : process_entry) : Prop :=
  exists entries before after,
    toolhelp os = Some entries /\
    entries = (before ++ e :: after)%list /\
    th32ProcessID e = id /\
    forall e', In e' after -> th32ProcessID e' <> id.

(** *** Entries of the games list *)

(** [game.get("enabled", True)] as a truth value, and
    [game.get("selector", "")] as a string, for an entry that is a
    dictionary. *)
Definition enabled_of (game : json) : bool :=
  truthy (catch (dict_get game "enabled" (JBool true)) (JBool true)).

Definition selector_of (game : json) : string :=
  match catch (dict_get game "selector" (JStr "")) (JStr "") with
  | JStr s => s
  | _ => ""
  end.

(** An entry the program can work with: a dictionary with a string under
    "name", and strings under "selector" and "icon_path" when it has them. *)
Definition well_formed (game : json) : Prop :=
  exists kvs,
    game = JObj kvs /\
    (exists n, assoc "name" kvs = Some (JStr n)) /\
    (forall v, assoc "selector" kvs = Some v -> exists s, v = JStr s) /\
    (forall v, assoc "icon_path" kvs = Some v -> exists s, v = JStr s).

(** Two entries that agree on every key but [k]. *)
Definition same_but (k : string) (game game' : json) : Prop :=
  forall k', k' <> k -> getitem game' k' = getitem game k'.

(** The scan of section 4-5 as it is written: the first enabled entry whose
    selector is a case-insensitive substring of a window title or process
    name of the list, with the first process it matches. *)
Definition first_running_as_specified (processes : list proc)
           (games : list json) : option json * option proc :=
  match List.find (fun g => (enabled_of g &&
                             existsb (hit (lower (selector_of g))) processes)%bool)
                  games with
  | Some g => (Some g, List.find (hit (lower (selector_of g))) processes)
  | None => (None, None)
  end.

(** The process an entry is found running as, if any: the entry is
    enabled, its selector is not empty, and the process is the first of the
    list whose lower-cased title or name contains the lower-cased selector. *)
Definition running_as (processes : list proc) (game : json) : option proc :=
  if (enabled_of game && nonempty (selector_of game))%bool
  then List.find (hit (lower (selector_of game))) processes
  else None.

(** *** Configurations *)

(** The games list of a configuration, [config.get("games", [])] as a loop
    sees it; empty when the configuration cannot be read that way. *)
Definition games_list (config : json) : list json :=
  catch (games_of config) [].

(** The games list of the configuration file, as the companion tool loads
    it. *)
Definition file_games (w : Manager.world) : list json :=
  games_list (Manager.load_config w).

(** An entry whose selector equals the given one, case-insensitively. *)
Definition has_selector (selector : string) (game : json) : bool :=
  catch (same_selector selector game) false.

(** The record an add operation creates. *)
Definition game_record (name selector icon_path : string) (enabled : bool)
  : json :=
  JObj [("name", JStr name); ("selector", JStr selector);
        ("icon_path", JStr icon_path); ("enabled", JBool enabled)].

Definition is_game_record (game : json) : Prop :=
  exists name selector icon_path enabled,
    game = game_record name selector icon_path enabled.



(** Section 8 (b) for one add operation, seen from the games list before
    and after: a selector that is already there leaves the list alone. *)
Definition duplicate_rejected (selector : string) (before after : list json)
  : Prop :=
  existsb (has_selector selector) before = true -> after = before.

(** *** The recording commands *)

(** A sequence of commands in which starts and stops take turns, given
    whether the script holds a recording of its own at the beginning. *)
Fixpoint alternates (recording : bool) (commands : list command) : bool :=
  match commands with
  | [] => true
  | RecordingStart :: rest => (negb recording && alternates true rest)%bool
  | RecordingStop :: rest => (recording && alternates false rest)%bool
  end.

(** The script holds a current game exactly while it records for one. *)
Definition consistent (s : script) : Prop :=
  if is_recording_for_game s then is_Some (current_game s)
  else current_game s = None.

(** No two entries of a games list have the same selector, up to case. *)
Definition distinct_selectors (games : list json) : Prop :=
  NoDup (List.map (fun g => lower (selector_of g)) games).

(** An entry after the loop of [on_game_checkbox_changed]: the same
    entry with, under "enabled", the flag the settings hold for its
    selector. *)
Definition synced (py_str : json -> string) (settings : obs_data)
           (game game' : json) : Prop :=
  exists kvs selector,
    game = JObj kvs /\
    assoc "selector" kvs = Some selector /\
    game' = JObj (assoc_set "enabled"
                    (JBool (get_bool settings (setting_name py_str selector)))
                    kvs).

(** *** Searching windows *)

(** The test of [search_windows] on one window. *)
Definition found_by (os : snapshot) (term : string) (w : Manager.window) : bool :=
  (ci_substring term (Manager.title w) ||
   contains (lower term)
            (default "" (Manager.get_process_list os !! Manager.win_pid w)))%bool.

(** *** Lists *)

(** The elements of a list in the order of their first occurrence, each
    one kept once. *)
Fixpoint first_occurrences (l : list Z) : list Z :=
  match l with
  | [] => []
  | x :: rest => x :: filter (fun y => y <> x) (first_occurrences rest)
  end.

End Spec.

(** ** Concrete situations *)

Module Examples.

Import Recorder.

(** A desktop with one Notepad window, while a game without any window of
    its own runs in the background. *)
Definition background_game : snapshot :=
  {| desktop := [ {| handle := 1001; visible := true;
                     text := "Untitled - Notepad"; owner := 11 |} ];
     toolhelp := Some [ {| th32ProcessID := 11; szExeFile := "notepad.exe" |};
                        {| th32ProcessID := 12; szExeFile := "EldenRing.exe" |} ] |}.

(** A launcher process with two windows, the second one being the game. *)
Definition two_windows : snapshot :=
  {| desktop := [ {| handle := 2001; visible := true;
                     text := "Launcher"; owner := 21 |};
                  {| handle := 2002; visible := true;
                     text := "Hollow Knight"; owner := 21 |} ];
     toolhelp := Some [ {| th32ProcessID := 21; szExeFile := "launcher.exe" |} ] |}.

(** The game itself in a window. *)
Definition game_window : snapshot :=
  {| desktop := [ {| handle := 3001; visible := false;
                     text := "Default IME"; owner := 30 |};
                  {| handle := 3002; visible := true;
                     text := "ELDEN RING"; owner := 31 |} ];
     toolhelp := Some [ {| th32ProcessID := 31; szExeFile := "eldenring.exe" |} ] |}.

(** A machine on which everything works, and one where nothing can be
    written. *)
Definition friendly : host :=
  {| can_write := true;
     fd_open := fun _ => false;
     can_remove := fun _ => true;
     can_mkdir := true;
     ICONS_DIR := "C:\obs\icons";
     extract_icon_from_window := fun _ _ => true;
     sub_unicode := fun s => s |}.

Definition read_only : host :=
  {| can_write := false;
     fd_open := fun _ => false;
     can_remove := fun _ => false;
     can_mkdir := false;
     ICONS_DIR := "C:\obs\icons";
     extract_icon_from_window := fun _ _ => false;
     sub_unicode := fun s => s |}.

Definition game (name selector icon : string) (enabled : bool) : json :=
  JObj [("name", JStr name); ("selector", JStr selector);
        ("icon_path", JStr icon); ("enabled", JBool enabled)].

Definition config (games : list json) : json := JObj [("games", JArr games)].

(** The script with a configuration loaded and the same one on disk. *)
Definition loaded (games : list json) : world :=
  {| games_config := config games;
     config_file := Content (config games);
     files := [];
     icons_dir := true |}.

(** Two games, the second one disabled. *)
Definition two_games : list json :=
  [ game "Elden Ring" "elden ring" "" true;
    game "Hollow Knight" "hollow" "" false ].

(** Two entries with the same selector up to case (the [--add] flag
    allows that) around a third one. *)
Definition with_duplicates : list json :=
  [ game "Elden Ring" "elden ring" "" true;
    game "Hollow Knight" "hollow" "" false;
    game "Elden Ring again" "ELDEN RING" "" true ].

(** An enabled entry without selector, alone and in front of a real one. *)
Definition blank_only : list json :=
  [ game "Anything" "" "" true ].

Definition blank_first : list json :=
  [ game "Anything" "" "" true;
    game "Elden Ring" "elden ring" "" true ].

(** The companion tool with a configuration on disk and lines typed by
    the user. *)
Definition on_disk (games : list json) (lines : list string) : Manager.world :=
  {| Manager.config_file := Content (config games);
     Manager.pid_file := Manager.NoFile;
     Manager.state_file := Manager.NoFile;
     Manager.can_write := true;
     Manager.stdin := lines |}.

(** The script facing a configuration file with the given content. *)
Definition facing (f : file) : world :=
  {| games_config := config [];
     config_file := f;
     files := [];
     icons_dir := true |}.

(** The companion tool next to a PID file left behind with other text. *)
Definition stale_pid_file : Manager.world :=
  {| Manager.config_file := Absent;
     Manager.pid_file := Manager.Text "restarting";
     Manager.state_file := Manager.Unopenable;
     Manager.can_write := true;
     Manager.stdin := [] |}.

(** Reading a number the user typed, for decimal digits. *)
Definition digit (c : ascii) : option Z :=
  let n := N_of_ascii c in
  if (N.leb 48 n && N.leb n 57)%bool then Some (Z.of_N (n - 48)) else None.

Fixpoint digits (acc : Z) (s : string) : res Z :=
  match s with
  | EmptyString => Ok acc
  | String c r =>
      match digit c with
      | Some d => digits (10 * acc + d) r
      | None => Raise ValueError
      end
  end.

Definition decimal (s : string) : res Z :=
  match strip s with
  | EmptyString => Raise ValueError
  | t => digits 0 t
  end.

(** A system where every process can be opened. *)
Definition open_any (pid : Z) : res Z := Ok 4.


Definition typed_elden_ring : obs_data :=
  {| get_string := fun k => if String.eqb k "new_game_name" then " Elden Ring "
                            else " ELDEN RING ";
     get_bool := fun k => String.eqb k "game_enabled_elden ring";
     get_int := fun _ => 5000 |}.

(** Python's [str] of a value that is not a string, where it does not
    matter. *)
Definition no_str (v : json) : string := "?".

(** The panel with "ELDEN RING" typed in the field of the Remove button. *)
Definition typed_to_remove : obs_data :=
  {| get_string := fun k => if String.eqb k "remove_game_selector"
                            then "ELDEN RING" else "";
     get_bool := fun _ => true;
     get_int := fun _ => 5000 |}.


End Examples.

(** ** Strings *)

Import Recorder.
Import Spec.

Ltac solve_well_formed :=
  repeat
    match goal with
    | |- Forall _ _ => constructor
    | |- well_formed _ =>
        eexists; split; [reflexivity|];
        split; [eexists; reflexivity|];
        split; intros ? [= <-]; eexists; reflexivity
    end.

Lemma nonempty_lower s : nonempty (lower s) = nonempty s.
Proof. by destruct s. Qed.

Lemma nonempty_true s : nonempty s = true <-> s <> "".
Proof. destruct s; simpl; split; intros; congruence. Qed.

Lemma lower_ascii_idempotent c : lower_ascii (lower_ascii c) = lower_ascii c.
Proof.
  destruct c as [[] [] [] [] [] [] [] []]; reflexivity.
Qed.

Lemma lower_idempotent s : lower (lower s) = lower s.
Proof.
  induction s as [|c s IH]; [done|]. cbn. by rewrite lower_ascii_idempotent, IH.
Qed.

Lemma prefix_app sub s :
  String.prefix sub s = true <-> exists b, s = sub +:+ b.
Proof.
  revert s. induction sub as [|c sub IH]; intros s.
  - split; [intros _; by exists s | intros _; by destruct s].
  - destruct s as [|d s].
    + split; [discriminate | intros [b Hb]; discriminate].
    + cbn. destruct (Ascii.ascii_dec c d) as [->|Hne].
      * rewrite IH. split; intros [b Hb]; exists b; [by rewrite Hb | by injection Hb].
      * split; [discriminate | intros [b Hb]; injection Hb; congruence].
Qed.

(** [contains] is the substring relation. *)
Lemma contains_spec sub s :
  contains sub s = true <-> exists a b, s = a +:+ sub +:+ b.
Proof.
  induction s as [|c s IH]; cbn [contains].
  - rewrite orb_false_r, prefix_app. split.
    + intros [b Hb]. by exists "", b.
    + intros (a & b & Hab). destruct a; [by exists b|discriminate].
  - rewrite orb_true_iff, IH, prefix_app. split.
    + intros [[b Hb]|(a & b & Hab)].
      * by exists "", b.
      * exists (String c a), b. cbn. by rewrite Hab.
    + intros (a & b & Hab). destruct a as [|d a].
      * left. by exists b.
      * right. exists a, b. injection Hab. done.
Qed.

Lemma contains_empty s : contains "" s = true.
Proof. destruct s; reflexivity. Qed.

Lemma contains_in_empty sub : contains sub "" = true -> sub = "".
Proof. destruct sub; cbn; [done|discriminate]. Qed.

(** ** Detection: [is_program_running] and [get_processes_detailed] *)

Lemma first_match_cases t ps :
  (exists p before after,
      ps = (before ++ p :: after)%list /\ hit t p = true /\
      Forall (fun q => hit t q = false) before /\
      first_match t ps = (true, Some p)) \/
  (Forall (fun q => hit t q = false) ps /\ first_match t ps = (false, None)).
Proof.
  induction ps as [|p ps IH]; [right; by split|].
  cbn [first_match].
  destruct (contains t (lower (window_title p))) eqn:Ht.
  { left. exists p, [], ps. unfold hit. rewrite Ht. by repeat split. }
  destruct (contains t (name p)) eqn:Hn.
  { left. exists p, [], ps. unfold hit. rewrite Ht, Hn. by repeat split. }
  assert (hit t p = false) as Hp by (unfold hit; by rewrite Ht, Hn).
  destruct IH as [(q & before & after & -> & Hq & Hb & ->)|[Hall ->]].
  - left. exists q, (p :: before), after. repeat split; auto.
  - right. split; auto.
Qed.

Lemma first_match_true t ps :
  (first_match t ps).1 = true <-> exists p, In p ps /\ hit t p = true.
Proof.
  destruct (first_match_cases t ps) as [(p & b & a & -> & Hp & Hb & ->)|[Hall ->]].
  - split; [intros _|done]. exists p. split; [|done].
    apply in_or_app. right. by left.
  - split; [discriminate|]. intros (p & Hin & Hp).
    rewrite Forall_forall in Hall. apply list_elem_of_In in Hin.
    specialize (Hall p Hin). congruence.
Qed.

Lemma first_match_In t ps q :
  first_match t ps = (true, Some q) -> In q ps /\ hit t q = true.
Proof.
  destruct (first_match_cases t ps) as [(p & b & a & -> & Hp & _ & ->)|[_ ->]];
    [|discriminate].
  intros [= <-]. split; [|done]. apply in_or_app. right. by left.
Qed.

(** The entries of [get_processes_detailed]: one for each window whose
    process id is new when the loop reaches it. *)
Lemma detailed_loop_In m seen ws p :
  In p (detailed_loop m seen ws) <->
  exists before win after,
    ws = (before ++ win :: after)%list /\
    (win_pid win ∉ seen) /\
    (forall u, In u before -> win_pid u <> win_pid win) /\
    p = proc_of m win.
Proof.
  revert seen. induction ws as [|w ws IH]; intros seen; cbn [detailed_loop].
  - split; [done|]. intros (b & win & a & Hws & _). by destruct b.
  - destruct (decide (win_pid w ∈ seen)) as [Hin|Hnin].
    + rewrite IH. split.
      * intros (b & win & a & -> & Hs & Hb & ->).
        exists (w :: b), win, a. repeat split; auto.
        intros u [<-|Hu]; [congruence|auto].
      * intros (b & win & a & Hws & Hs & Hb & ->).
        destruct b as [|u b]; injection Hws as -> ->; [done|].
        exists b, win, a. repeat split; auto. intros v Hv. apply Hb. by right.
    + cbn [In]. rewrite IH. split.
      * intros [<-|(b & win & a & -> & Hs & Hb & ->)].
        { exists [], w, ws. repeat split; auto. }
        apply not_elem_of_union in Hs as [Hs1 Hs2].
        apply not_elem_of_singleton in Hs1.
        exists (w :: b), win, a. repeat split; auto.
        intros u [<-|Hu]; [congruence|auto].
      * intros (b & win & a & Hws & Hs & Hb & ->).
        destruct b as [|u b]; injection Hws as -> ->; [by left|].
        right. exists b, win, a. repeat split; auto.
        { apply not_elem_of_union. split; [|done].
          apply not_elem_of_singleton. intros Heq. apply (Hb u); [by left|done]. }
        intros v Hv. apply Hb. by right.
Qed.

(** Splitting the result of [omap] splits its argument. *)
Lemma omap_split {A B} (f : A -> option B) l l1 y l2 :
  omap f l = (l1 ++ y :: l2)%list ->
  exists k1 x k2,
    l = (k1 ++ x :: k2)%list /\ f x = Some y /\ omap f k1 = l1 /\ omap f k2 = l2.
Proof.
  revert l1. induction l as [|a l IH]; intros l1; cbn [omap list_omap].
  - by destruct l1.
  - destruct (f a) as [b|] eqn:Ha.
    + destruct l1 as [|b' l1]; cbn; intros Heq; injection Heq as <- Heq.
      * exists [], a, l. by repeat split.
      * destruct (IH _ Heq) as (k1 & x & k2 & -> & Hx & <- & <-).
        exists (a :: k1), x, k2. cbn. rewrite Ha. by repeat split.
    + intros Heq. destruct (IH _ Heq) as (k1 & x & k2 & -> & Hx & <- & <-).
      exists (a :: k1), x, k2. cbn. rewrite Ha. by repeat split.
Qed.

Lemma enum_callback_Some t win :
  enum_callback t = Some win <-> shown t /\ win = window_of t.
Proof.
  unfold enum_callback, shown, window_of.
  destruct (visible t); [|split; [done|intros [[? _] _]; done]].
  destruct (text t) as [|c s] eqn:Ht; cbn.
  - split; [done|]. intros [[_ ?] _]. done.
  - split; [intros [= <-]|intros [_ ->]]; done.
Qed.

(** The windows that head an entry of [get_processes_detailed] are the
    leading windows of the desktop. *)
Lemma leading_window_kept os win :
  (exists before after,
      get_visible_windows os = (before ++ win :: after)%list /\
      forall u, In u before -> win_pid u <> win_pid win) <->
  exists t, leading_window os t /\ win = window_of t.
Proof.
  unfold get_visible_windows. split.
  - intros (b & a & Hsplit & Hb).
    destruct (omap_split _ _ _ _ _ Hsplit) as (k1 & t & k2 & Hd & Ht & <- & <-).
    apply enum_callback_Some in Ht as [Hshown ->].
    exists t. split; [|done]. exists k1, k2. repeat split; try done; try apply Hshown.
    intros u Hu Hsu. apply (Hb (window_of u)).
    apply list_elem_of_In, list_elem_of_omap. exists u.
    split; [by apply list_elem_of_In|]. by apply enum_callback_Some.
  - intros (t & (k1 & k2 & Hd & Hshown & Hk1) & ->).
    exists (omap enum_callback k1), (omap enum_callback k2). split.
    + rewrite Hd, omap_app. cbn [omap list_omap].
      assert (enum_callback t = Some (window_of t)) as -> by by apply enum_callback_Some.
      done.
    + intros u Hu. apply list_elem_of_In, list_elem_of_omap in Hu as (x & Hx & Hux).
      apply enum_callback_Some in Hux as [Hsx ->]. cbn.
      apply Hk1; [by apply list_elem_of_In|done].
Qed.

(** The name [get_process_list] records for a process id is the
    lower-cased name of the last entry of the table with that id. *)
Lemma fold_insert_lookup (entries : list process_entry) id s :
  fold_left (fun (processes : gmap Z string) entry =>
               <[th32ProcessID entry := lower (szExeFile entry)]> processes)
            entries ∅ !! id = Some s <->
  exists e before after,
    entries = (before ++ e :: after)%list /\
    th32ProcessID e = id /\
    (forall e', In e' after -> th32ProcessID e' <> id) /\
    s = lower (szExeFile e).
Proof.
  induction entries as [|x entries IH] using rev_ind.
  - cbn. rewrite lookup_empty. split; [done|].
    intros (e & b & a & Heq & _). by destruct b.
  - rewrite fold_left_app. cbn [fold_left].
    destruct (decide (th32ProcessID x = id)) as [Hx|Hx].
    + rewrite <- Hx at 1. rewrite lookup_insert_eq. split.
      * intros [= <-]. exists x, entries, []. repeat split; auto.
      * intros (e & b & a & Heq & He & Ha & ->).
        destruct a as [|y a _] using rev_ind.
        { apply app_inj_tail in Heq as [_ ->]. done. }
        change (b ++ e :: a ++ [y])%list with (b ++ (e :: a) ++ [y])%list in Heq.
        rewrite app_assoc in Heq. apply app_inj_tail in Heq as [_ ->].
        exfalso. apply (Ha y); [|done]. apply in_or_app. right. by left.
    + rewrite lookup_insert_ne by done. rewrite IH. split.
      * intros (e & b & a & -> & He & Ha & ->).
        exists e, b, (a ++ [x])%list. repeat split; auto.
        { by rewrite <- app_assoc. }
        intros e' Hin. apply in_app_or in Hin as [Hin|[<-|[]]]; auto.
      * intros (e & b & a & Heq & He & Ha & ->).
        destruct a as [|y a _] using rev_ind.
        { apply app_inj_tail in Heq as [_ ->]. done. }
        change (b ++ e :: a ++ [y])%list with (b ++ (e :: a) ++ [y])%list in Heq.
        rewrite app_assoc in Heq. apply app_inj_tail in Heq as [-> ->].
        exists e, b, a. repeat split; auto.
        intros e' Hin. apply Ha. apply in_or_app. by left.
Qed.

Lemma get_process_list_lookup os id s :
  get_process_list os !! id = Some s <->
  exists e, names_process os id e /\ s = lower (szExeFile e).
Proof.
  unfold get_process_list, names_process.
  destruct (toolhelp os) as [entries|].
  - rewrite fold_insert_lookup. split.
    + intros (e & b & a & -> & He & Ha & ->). exists e. split; [|done].
      exists (b ++ e :: a)%list, b, a. by repeat split.
    + intros (e & (entries' & b & a & [= <-] & -> & He & Ha) & ->).
      exists e, b, a. by repeat split.
  - rewrite lookup_empty. split; [done|].
    intros (e & (entries' & b & a & Hn & _) & _). done.
Qed.

Lemma detected_unfold os selector :
  detected os selector =
  if nonempty selector
  then (first_match (lower selector) (get_processes_detailed os)).1
  else false.
Proof.
  unfold detected, is_program_running. cbn [truthy str_lower bind].
  destruct (nonempty selector); cbn; [|done].
  by destruct (first_match _ _).
Qed.

(** The list of processes is the same whether [check_any_game_running]
    builds it and passes it on, or [is_program_running] builds it. *)
Lemma is_program_running_default os target :
  is_program_running os target (Some (get_processes_detailed os)) =
  is_program_running os target None.
Proof. reflexivity. Qed.

(** The answer of the detection routine, in terms of the snapshot. *)
Lemma detected_iff os selector :
  detected os selector = true <->
  selector <> "" /\
  exists t,
    leading_window os t /\
    (ci_substring selector (text t) = true \/
     exists e, names_process os (owner t) e /\
               ci_substring selector (szExeFile e) = true).
Proof.
  rewrite detected_unfold. destruct (nonempty selector) eqn:Hne.
  2:{ split; [done|]. intros [Hs _]. apply nonempty_true in Hs. congruence. }
  apply nonempty_true in Hne. rewrite first_match_true.
  unfold get_processes_detailed. split.
  - intros (p & Hin & Hp). split; [done|].
    apply detailed_loop_In in Hin as (b & win & a & Hsplit & _ & Hb & ->).
    destruct (proj1 (leading_window_kept os win)) as (t & Hlead & ->); [by eauto|].
    exists t. split; [done|]. unfold hit in Hp. cbn in Hp.
    apply orb_true_iff in Hp as [Hp|Hp]; [by left|right].
    destruct (get_process_list os !! owner t) as [s|] eqn:Hs; cbn in Hp.
    + apply get_process_list_lookup in Hs as (e & He & ->). by exists e.
    + apply contains_in_empty in Hp. destruct selector; [done|discriminate].
  - intros (_ & t & Hlead & Hmatch).
    destruct (proj2 (leading_window_kept os (window_of t))) as (b & a & Hsplit & Hb);
      [by eauto|].
    exists (proc_of (get_process_list os) (window_of t)). split.
    + apply detailed_loop_In. exists b, (window_of t), a.
      repeat split; [done| |done]. apply not_elem_of_empty.
    + unfold hit. cbn. apply orb_true_iff.
      destruct Hmatch as [Ht|(e & He & Hm)]; [by left|right].
      assert (get_process_list os !! owner t = Some (lower (szExeFile e))) as ->
        by (apply get_process_list_lookup; eauto).
      done.
Qed.

(** What the routine reports is a case-insensitive substring of a visible
    title or of a running executable name; the converse is what fails. *)
Lemma detected_is_specified os selector :
  detected os selector = true -> detected_as_specified os selector = true.
Proof.
  intros (_ & t & (before & after & Hd & [Hvis _] & _) & Hmatch)%detected_iff.
  unfold detected_as_specified. apply orb_true_iff.
  destruct Hmatch as [Ht|(e & (entries & b & a & Htool & -> & _) & He)].
  - left. apply existsb_exists. exists (text t). split; [|done].
    unfold visible_titles. apply in_map, filter_In. split; [|done].
    rewrite Hd. apply in_or_app. right. by left.
  - right. apply existsb_exists. exists (szExeFile e). split; [|done].
    unfold running_names. rewrite Htool. apply in_map.
    apply in_or_app. right. by left.
Qed.

(** C1, as amended: a selector is reported as running exactly when it is
    not empty and its lower-cased form is a substring of the lower-cased
    title of the first visible, titled window of some process, or of the
    lower-cased executable name the process table gives for the process of
    such a window. *)
Theorem C1_detection_by_leading_windows os selector :
  detected os selector = true <->
  selector <> "" /\
  exists t,
    leading_window os t /\
    (ci_substring selector (text t) = true \/
     exists e, names_process os (owner t) e /\
               ci_substring selector (szExeFile e) = true).
Proof. apply detected_iff. Qed.

(** C1 as it is written fails: a game that runs without a window of its
    own is not reported, although its executable name contains the
    selector. *)
Lemma C1_background_game_not_detected :
  ~ (detected Examples.background_game "eldenring" = true <->
     detected_as_specified Examples.background_game "eldenring" = true).
Proof. vm_compute. intros [_ H]. discriminate (H eq_refl). Qed.

(** Two more situations where the two sides differ: the second window of a
    process is never looked at, and the empty selector matches nothing. *)
Example second_window_not_detected :
  detected Examples.two_windows "hollow" = false /\
  detected_as_specified Examples.two_windows "hollow" = true.
Proof. by vm_compute. Qed.

Example empty_selector_not_detected :
  detected Examples.game_window "" = false /\
  detected_as_specified Examples.game_window "" = true.
Proof. by vm_compute. Qed.

Example game_window_detected :
  detected Examples.game_window "Elden Ring" = true /\
  detected Examples.game_window "eldenring.exe" = true /\
  detected Examples.game_window "Default IME" = false.
Proof. by vm_compute. Qed.

(** ** Dictionaries *)

Lemma assoc_set_eq k v kvs : assoc k (assoc_set k v kvs) = Some v.
Proof.
  induction kvs as [|[k' v'] kvs IH]; cbn.
  - by rewrite String.eqb_refl.
  - destruct (String.eqb k k') eqn:Hk; cbn; rewrite Hk; done.
Qed.

Lemma assoc_set_ne k k' v kvs :
  k' <> k -> assoc k' (assoc_set k v kvs) = assoc k' kvs.
Proof.
  intros Hne. induction kvs as [|[k0 v0] kvs IH]; cbn.
  - apply String.eqb_neq in Hne. by rewrite Hne.
  - destruct (String.eqb k k0) eqn:Hk; cbn.
    + apply String.eqb_eq in Hk as <-.
      apply String.eqb_neq in Hne. by rewrite Hne.
    + by rewrite IH.
Qed.

Lemma setitem_same_but game k v game' :
  setitem game k v = Ok game' -> same_but k game game'.
Proof.
  destruct game; try discriminate. intros [= <-] k' Hk'.
  cbn. by rewrite assoc_set_ne.
Qed.

Lemma same_but_refl k game : same_but k game game.
Proof. by intros k' _. Qed.

(** ** The scan of [check_any_game_running] *)

Lemma first_match_find t ps :
  first_match t ps =
  match List.find (hit t) ps with
  | Some p => (true, Some p)
  | None => (false, None)
  end.
Proof.
  induction ps as [|p ps IH]; [done|]. cbn. unfold hit at 1.
  destruct (contains t (lower (window_title p))); [done|].
  destruct (contains t (name p)); done.
Qed.

(** Whatever [try_extract_icon_for_game] does, the entry it leaves differs
    from the one it got at most under "icon_path". *)
Lemma try_extract_icon_same_but h i game p w game' w' :
  try_extract_icon_for_game h i game p w = (Ok game', w') ->
  same_but "icon_path" game game'.
Proof.
  unfold try_extract_icon_for_game.
  destruct (bind (dict_get game "icon_path" JNull) _) as [[|]|e]; [| |done].
  { intros [= <- _]. apply same_but_refl. }
  destruct (ensure_icons_dir h w) as [[?|e] w1]; [|done].
  destruct (bind (getitem game "name") _) as [icon_path|e]; [|done].
  destruct (_ && _)%bool.
  - destruct (setitem game "icon_path" (JStr icon_path)) as [g|e] eqn:Hset; [|done].
    intros [= <- _]. by eapply setitem_same_but.
  - intros [= <- _]. apply same_but_refl.
Qed.

(** On a well-formed entry, and where the icon directory exists or can be
    made, [try_extract_icon_for_game] returns. *)
Lemma try_extract_icon_returns h i game p w :
  well_formed game ->
  icons_dir w = true \/ can_mkdir h = true ->
  exists game' w', try_extract_icon_for_game h i game p w = (Ok game', w').
Proof.
  intros (kvs & -> & [n Hn] & _ & Hicon) Hdir.
  unfold try_extract_icon_for_game. cbn [dict_get getitem bind].
  assert (exists b, (if truthy (match assoc "icon_path" kvs with
                               | Some x => x | None => JNull end)
                     then os_path_exists h w
                            (match assoc "icon_path" kvs with
                             | Some x => x | None => JNull end)
                     else Ok false) = Ok b) as [b ->].
  { destruct (assoc "icon_path" kvs) as [v|]; [|by exists false].
    destruct (Hicon v eq_refl) as [s ->]. cbn. destruct (nonempty s); eauto. }
  destruct b; [by eauto|].
  assert (exists w1, ensure_icons_dir h w = (Ok tt, w1)) as [w1 ->].
  { unfold ensure_icons_dir. destruct (icons_dir w); [by eauto|].
    destruct Hdir as [? | ->]; [done|by eauto]. }
  rewrite Hn. cbn [setitem bind].
  match goal with |- context [if ?b then _ else _] => destruct b end; eauto.
Qed.

Lemma well_formed_selector game :
  well_formed game ->
  dict_get game "selector" (JStr "") = Ok (JStr (selector_of game)).
Proof.
  intros (kvs & -> & _ & Hsel & _). unfold selector_of. cbn.
  destruct (assoc "selector" kvs) as [v|]; [|done].
  by destruct (Hsel v eq_refl) as [s ->].
Qed.

Lemma well_formed_enabled game :
  well_formed game ->
  exists v, dict_get game "enabled" (JBool true) = Ok v /\ truthy v = enabled_of game.
Proof. intros (kvs & -> & _). unfold enabled_of. cbn. eauto. Qed.

(** One turn of the loop on a well-formed entry. *)
Lemma check_games_step h os ps i game rest w :
  well_formed game ->
  check_games h os ps i (game :: rest) w =
  match running_as ps game with
  | None => check_games h os ps (S i) rest w
  | Some p =>
      match try_extract_icon_for_game h i game p w with
      | (Raise e, w') => (Raise e, w')
      | (Ok game', w') => (Ok (Some game', Some p), w')
      end
  end.
Proof.
  intros Hwf. cbn [check_games].
  destruct (well_formed_enabled _ Hwf) as (v & -> & Hv).
  rewrite (well_formed_selector _ Hwf). unfold running_as. rewrite <- Hv.
  destruct (truthy v); cbn [negb andb]; [|done].
  unfold is_program_running. cbn [truthy str_lower bind].
  destruct (nonempty (selector_of game)); cbn [negb]; [|done].
  rewrite first_match_find. by destruct (List.find _ ps).
Qed.

Lemma check_games_skip h os ps i before rest w :
  Forall well_formed before ->
  Forall (fun g => running_as ps g = None) before ->
  check_games h os ps i (before ++ rest) w =
  check_games h os ps (i + length before) rest w.
Proof.
  revert i. induction before as [|g before IH]; intros i Hwf Hnone.
  - cbn. by rewrite Nat.add_0_r.
  - apply Forall_cons in Hwf as [Hg Hwf]. apply Forall_cons in Hnone as [Hn Hnone].
    change ((g :: before) ++ rest)%list with (g :: (before ++ rest))%list.
    rewrite check_games_step by done. rewrite Hn, IH by done.
    f_equal. cbn. lia.
Qed.

(** The list [get_processes_detailed] builds holds lower-case names. *)
Lemma own_list_names_are_lower os p :
  In p (get_processes_detailed os) -> lower (name p) = name p.
Proof.
  unfold get_processes_detailed. intros Hin.
  apply detailed_loop_In in Hin as (b & win & a & _ & _ & _ & ->).
  cbn [name proc_of].
  destruct (get_process_list os !! win_pid win) as [s|] eqn:Hs; [|done].
  apply get_process_list_lookup in Hs as (e & _ & ->). apply lower_idempotent.
Qed.

(** C2, as amended: [check_any_game_running] walks the configured entries
    in list order, passes over the disabled ones and over those whose
    selector is empty, and looks for the first remaining entry whose
    lower-cased selector is contained in the lower-cased title, or in the
    name as the list holds it, of some process of the list.  Where the
    entries up to that one are well-formed and the icon directory exists
    or can be made, it returns that entry together with the first such
    process; the entry comes back as the icon extraction leaves it, that
    is, equal up to "icon_path".  Where all entries are well-formed and
    none qualifies the result is (None, None) and nothing changes.  On the
    list the function builds itself the names are lower-case already, so
    that the test is a case-insensitive substring test on titles and names
    alike. *)
Theorem C2_first_running_game h os processes w games :
  games_of (games_config w) = Ok games ->
  let ps := match processes with
            | Some ps => ps
            | None => get_processes_detailed os
            end in
  (forall before game after p,
      games = (before ++ game :: after)%list ->
      Forall well_formed before ->
      well_formed game ->
      icons_dir w = true \/ can_mkdir h = true ->
      Forall (fun g => running_as ps g = None) before ->
      running_as ps game = Some p ->
      exists game' w',
        check_any_game_running h os processes w = (Ok (Some game', Some p), w') /\
        same_but "icon_path" game game') /\
  (Forall well_formed games ->
   Forall (fun g => running_as ps g = None) games ->
   check_any_game_running h os processes w = (Ok (None, None), w)) /\
  (processes = None ->
   forall selector p,
     In p ps ->
     hit (lower selector) p =
     (ci_substring selector (window_title p) || ci_substring selector (name p))%bool).
Proof.
  intros Hgames ps. unfold check_any_game_running. rewrite Hgames.
  fold ps. split; [|split].
  - intros before game after p -> Hwf Hg Hdir Hnone Hp.
    rewrite check_games_skip, check_games_step by done. rewrite Hp.
    destruct (try_extract_icon_returns h (0 + length before) game p w Hg Hdir)
      as (game' & w' & Hret).
    rewrite Hret. exists game', w'. split; [done|].
    by eapply try_extract_icon_same_but.
  - intros Hwf Hnone.
    rewrite <- (app_nil_r games), check_games_skip by done. done.
  - intros -> selector p Hin. unfold hit, ci_substring.
    by rewrite (own_list_names_are_lower os p Hin).
Qed.

(** On a desktop where the game runs, behind an entry without selector. *)
Lemma C2_first_running_game_witness :
  exists game' w',
    check_any_game_running Examples.friendly Examples.game_window None
      (Examples.loaded Examples.blank_first) =
    (Ok (Some game',
         Some {| name := "eldenring.exe"; pid := 31;
                 window_title := "ELDEN RING"; hwnd := 3002;
                 command_line := "" |}), w') /\
    same_but "icon_path" (Examples.game "Elden Ring" "elden ring" "" true) game'.
Proof.
  refine (proj1 (C2_first_running_game Examples.friendly Examples.game_window None
                   (Examples.loaded Examples.blank_first) Examples.blank_first
                   eq_refl)
                [Examples.game "Anything" "" "" true]
                (Examples.game "Elden Ring" "elden ring" "" true) [] _
                eq_refl _ _ (or_introl eq_refl) _ eq_refl).
  - solve_well_formed.
  - solve_well_formed.
  - repeat constructor.
Defined.

(** On a list that is passed in, the case of a process name counts. *)
Example name_case_counts_on_a_passed_list :
  is_program_running Examples.game_window (JStr "notepad")
    (Some [ {| name := "Notepad.exe"; pid := 11; window_title := "Untitled";
               hwnd := 1001; command_line := "" |} ]) = Ok (false, None) /\
  is_program_running Examples.game_window (JStr "NOTEPAD")
    (Some [ {| name := "notepad.exe"; pid := 11; window_title := "Untitled";
               hwnd := 1001; command_line := "" |} ]) =
  Ok (true, Some {| name := "notepad.exe"; pid := 11; window_title := "Untitled";
                    hwnd := 1001; command_line := "" |}).
Proof. by vm_compute. Qed.

(** C2 as it is written fails: an enabled entry with an empty selector
    would match any process, but the scan passes over it. *)
Lemma C2_blank_selector_is_skipped :
  (check_any_game_running Examples.friendly Examples.game_window None
     (Examples.loaded Examples.blank_only)).1 <>
  Ok (first_running_as_specified (get_processes_detailed Examples.game_window)
        Examples.blank_only).
Proof. vm_compute. discriminate. Qed.

(** ** Empty selectors *)

Lemma getitem_dict_get game k x d :
  getitem game k = Ok x -> dict_get game k d = Ok x.
Proof.
  destruct game; try discriminate. cbn.
  destruct (assoc k kvs); [by intros [= ->]|discriminate].
Qed.

Lemma dict_get_truthy_getitem game k x :
  dict_get game k (JStr "") = Ok x -> truthy x = true -> getitem game k = Ok x.
Proof.
  destruct game; try discriminate. cbn.
  destruct (assoc k kvs); intros [= <-]; [done|discriminate].
Qed.

(** A game that [check_games] returns has a selector that is a non-empty
    string. *)
Lemma check_games_selector h os ps i games w game p w' :
  check_games h os ps i games w = (Ok (Some game, p), w') ->
  exists s, dict_get game "selector" (JStr "") = Ok (JStr s) /\ s <> "".
Proof.
  revert i. induction games as [|g games IH]; intros i; cbn [check_games].
  { discriminate. }
  destruct (dict_get g "enabled" (JBool true)) as [en|e]; [|discriminate].
  destruct (truthy en); cbn [negb]; [|by apply IH].
  destruct (dict_get g "selector" (JStr "")) as [sel|e] eqn:Hsel; [|discriminate].
  destruct (truthy sel) eqn:Htruthy; [|by apply IH].
  unfold is_program_running. rewrite Htruthy. cbn [negb].
  destruct sel as [| | |s| |]; cbn [str_lower bind]; try discriminate.
  destruct (first_match (lower s) ps) as [[|] [q|]]; try discriminate;
    try by apply IH.
  destruct (try_extract_icon_for_game h i g q w) as [[g'|e] w1] eqn:Hextract;
    [|discriminate].
  intros [= <- <- <-]. exists s. split; [|by apply nonempty_true].
  apply getitem_dict_get.
  rewrite (try_extract_icon_same_but _ _ _ _ _ _ _ Hextract "selector") by done.
  by apply dict_get_truthy_getitem.
Qed.

(** C8: an empty selector is never found running.  [is_program_running]
    answers (False, None) for it on any list of processes;
    [check_any_game_running] passes over an entry whose selector is empty
    or missing, and never returns one; and this although the empty string
    is contained in every title and name. *)
Theorem C8_empty_selector_never_running :
  (forall os processes,
      is_program_running os (JStr "") processes = Ok (false, None)) /\
  (forall h os ps i kvs rest w,
      dict_get (JObj kvs) "selector" (JStr "") = Ok (JStr "") ->
      check_games h os ps i (JObj kvs :: rest) w =
      check_games h os ps (S i) rest w) /\
  (forall h os processes w game p w',
      check_any_game_running h os processes w = (Ok (Some game, p), w') ->
      exists s, dict_get game "selector" (JStr "") = Ok (JStr s) /\ s <> "") /\
  (forall p, hit (lower "") p = true).
Proof.
  split; [done|]. split; [|split].
  - intros h os ps i kvs rest w Hsel. cbn [check_games]. rewrite Hsel.
    cbn [dict_get truthy nonempty]. by destruct (negb _).
  - intros h os processes w game p w'. unfold check_any_game_running.
    destruct (games_of (games_config w)) as [games|e]; [|discriminate].
    apply check_games_selector.
  - intros p. unfold hit. cbn [lower]. by rewrite contains_empty.
Qed.

(** An enabled entry without selector on a desktop full of windows. *)
Lemma C8_empty_selector_never_running_witness :
  check_games Examples.friendly Examples.game_window
    (get_processes_detailed Examples.game_window) 0
    Examples.blank_first (Examples.loaded Examples.blank_first) =
  check_games Examples.friendly Examples.game_window
    (get_processes_detailed Examples.game_window) 1
    [Examples.game "Elden Ring" "elden ring" "" true]
    (Examples.loaded Examples.blank_first).
Proof.
  exact (proj1 (proj2 C8_empty_selector_never_running)
           Examples.friendly Examples.game_window
           (get_processes_detailed Examples.game_window) 0%nat
           [("name", JStr "Anything"); ("selector", JStr "");
            ("icon_path", JStr ""); ("enabled", JBool true)]
           [Examples.game "Elden Ring" "elden ring" "" true]
           (Examples.loaded Examples.blank_first) eq_refl).
Defined.

(** ** The games list under the configuration functions *)

Lemma same_selector_object selector game b :
  same_selector selector game = Ok b -> exists kvs, game = JObj kvs.
Proof. destruct game; try discriminate. eauto. Qed.

Lemma has_selector_ok selector game b :
  same_selector selector game = Ok b -> has_selector selector game = b.
Proof. unfold has_selector. by intros ->. Qed.

(** A list that holds a dictionary and is walked by a loop over
    [config.get("games", [])] is the list stored under "games". *)
Lemma games_of_stored config games k kvs0 :
  games_of config = Ok games ->
  games !! k = Some (JObj kvs0) ->
  exists kvs, config = JObj kvs /\ assoc "games" kvs = Some (JArr games).
Proof.
  unfold games_of. destruct config; try discriminate. cbn [dict_get bind].
  intros Hiter Hk. exists kvs. split; [done|].
  destruct (assoc "games" kvs) as [v|]; [|injection Hiter as <-; done].
  destruct v; try discriminate; cbn in Hiter; injection Hiter as <-.
  - exfalso. revert k Hk. induction s; intros [|k]; cbn; try done. eauto.
  - done.
  - exfalso. apply list_lookup_fmap_Some in Hk as (? & ? & ?). done.
Qed.

Lemma games_of_store kvs games :
  games_of (JObj (assoc_set "games" (JArr games) kvs)) = Ok games.
Proof. unfold games_of. cbn. by rewrite assoc_set_eq. Qed.

(** What [first_with_selector] finds. *)
Lemma first_with_selector_Some selector i0 games i game :
  first_with_selector selector i0 games = Ok (Some (i, game)) ->
  exists k,
    i = (i0 + k)%nat /\ games !! k = Some game /\
    same_selector selector game = Ok true.
Proof.
  revert i0. induction games as [|g games IH]; intros i0; cbn; [done|].
  destruct (same_selector selector g) as [[|]|e] eqn:Hg; cbn; [| |done].
  - intros [= <- <-]. exists 0%nat. by rewrite Nat.add_0_r.
  - intros Hrest. destruct (IH _ Hrest) as (k & -> & Hk & Hsame).
    exists (S k). split; [lia|done].
Qed.

Lemma first_with_selector_None selector i0 games :
  first_with_selector selector i0 games = Ok None ->
  Forall (fun g => same_selector selector g = Ok false) games.
Proof.
  revert i0. induction games as [|g games IH]; intros i0; cbn; [done|].
  destruct (same_selector selector g) as [[|]|e] eqn:Hg; cbn; [done| |done].
  intros Hrest. constructor; eauto.
Qed.

(** When every entry can be compared, the loop finds an entry with the
    selector if there is one. *)
Lemma first_with_selector_total selector i0 games :
  Forall (fun g => exists b, same_selector selector g = Ok b) games ->
  exists found,
    first_with_selector selector i0 games = Ok found /\
    (existsb (has_selector selector) games = true -> found <> None).
Proof.
  revert i0. induction games as [|g games IH]; intros i0 Hall; cbn.
  - eexists. split; [done|]. discriminate.
  - apply Forall_cons in Hall as [[b Hb] Hall]. rewrite Hb. cbn.
    rewrite (has_selector_ok _ _ _ Hb). destruct b; cbn.
    + eexists. split; [done|]. done.
    + apply IH. done.
Qed.

Lemma well_formed_same_selector selector game :
  well_formed game -> exists b, same_selector selector game = Ok b.
Proof.
  intros Hwf. unfold same_selector. rewrite (well_formed_selector _ Hwf).
  cbn. eauto.
Qed.

(** What the list comprehension of [remove_game] keeps. *)
Lemma without_selector_filter selector games kept :
  without_selector selector games = Ok kept ->
  kept = List.filter (fun g => negb (has_selector selector g)) games /\
  Forall (fun g => same_selector selector g = Ok false) kept.
Proof.
  revert kept. induction games as [|g games IH]; intros kept; cbn.
  - intros [= <-]. done.
  - destruct (same_selector selector g) as [b|e] eqn:Hg; cbn; [|done].
    destruct (without_selector selector games) as [rest|e]; cbn; [|done].
    intros [= <-]. destruct (IH _ eq_refl) as [-> Hall].
    rewrite (has_selector_ok _ _ _ Hg). destruct b; cbn; [done|].
    split; [done|]. by constructor.
Qed.

Lemma without_selector_total selector games :
  Forall (fun g => exists b, same_selector selector g = Ok b) games ->
  exists kept, without_selector selector games = Ok kept.
Proof.
  induction games as [|g games IH]; intros Hall; cbn; [by eauto|].
  apply Forall_cons in Hall as [[b ->] Hall]. destruct (IH Hall) as [kept ->].
  cbn. eauto.
Qed.

Lemma filter_all_kept {A} (f : A -> bool) l :
  Forall (fun x => f x = true) l -> List.filter f l = l.
Proof.
  induction l as [|x l IH]; intros Hall; cbn; [done|].
  apply Forall_cons in Hall as [-> Hall]. by rewrite IH.
Qed.

Lemma os_remove_config h icon w :
  games_config (os_remove h icon w) = games_config w.
Proof. unfold os_remove. destruct icon; try done. by destruct (_ && _)%bool. Qed.

(** The first loop of [remove_game] leaves the configuration alone. *)
Lemma remove_icon_config h selector w w1 :
  remove_icon h selector w = Ok w1 -> games_config w1 = games_config w.
Proof.
  unfold remove_icon.
  destruct (games_of (games_config w)) as [games|e]; cbn [bind]; [|done].
  destruct (first_with_selector selector 0 games) as [[[i g]|]|e];
    cbn [bind]; [| |done].
  - destruct (dict_get g "icon_path" JNull) as [icon|e]; cbn [bind]; [|done].
    destruct (truthy icon); [|by intros [= <-]].
    destruct (os_path_exists h w icon) as [[|]|e]; cbn [bind]; [| |done].
    + intros [= <-]. apply os_remove_config.
    + by intros [= <-].
  - by intros [= <-].
Qed.

Lemma remove_icon_returns h selector w games :
  games_of (games_config w) = Ok games ->
  Forall well_formed games ->
  exists w1, remove_icon h selector w = Ok w1.
Proof.
  intros Hgames Hwf. unfold remove_icon. rewrite Hgames. cbn [bind].
  destruct (first_with_selector selector 0 games) as [[[i g]|]|e] eqn:Hfirst;
    cbn [bind].
  - apply first_with_selector_Some in Hfirst as (k & _ & Hk & _).
    assert (well_formed g) as (kvs & -> & _ & _ & Hicon).
    { rewrite Forall_forall in Hwf. apply Hwf. by eapply list_elem_of_lookup_2. }
    cbn [dict_get bind]. destruct (assoc "icon_path" kvs) as [v|]; [|by eauto].
    destruct (Hicon v eq_refl) as [s ->]. cbn.
    destruct (nonempty s); cbn; eauto.
  - eauto.
  - assert (Forall (fun g => exists b, same_selector selector g = Ok b) games) as Hcmp.
    { eapply Forall_impl; [done|]. intros g. apply well_formed_same_selector. }
    destruct (first_with_selector_total selector 0 games Hcmp) as (f & Hf & _).
    congruence.
Qed.

(** The outcome of [remove_game], in terms of the games list. *)
Lemma remove_game_Ok h selector w w' :
  remove_game h selector w = (Ok tt, w') ->
  exists games kept,
    games_of (games_config w) = Ok games /\
    without_selector selector games = Ok kept /\
    games_of (games_config w') = Ok kept.
Proof.
  unfold remove_game.
  destruct (remove_icon h selector w) as [w1|e] eqn:Hfirst; [|done].
  rewrite (remove_icon_config _ _ _ _ Hfirst).
  destruct (games_of (games_config w)) as [games|e] eqn:Hgames; cbn [bind]; [|done].
  destruct (without_selector selector games) as [kept|e] eqn:Hkept; cbn [bind]; [|done].
  destruct (games_config w) as [| | | | |kvs]; cbn [setitem]; try done.
  intros [= <-]. exists games, kept. split; [done|]. split; [done|].
  unfold save_config. destruct (can_write h); cbn; apply games_of_store.
Qed.

Lemma remove_game_Raise h selector w e w' :
  remove_game h selector w = (Raise e, w') ->
  games_config w' = games_config w.
Proof.
  unfold remove_game.
  destruct (remove_icon h selector w) as [w1|e1] eqn:Hfirst; [|by intros [= _ <-]].
  match goal with
  | |- context [match ?m with Ok _ => _ | Raise _ => _ end] =>
      destruct m as [c|e1]; [done|]
  end.
  intros [= _ <-]. by eapply remove_icon_config.
Qed.

(** [remove_game] returns on a configuration that is a dictionary with
    well-formed entries. *)
Lemma remove_game_returns h selector w kvs games :
  games_config w = JObj kvs ->
  games_of (games_config w) = Ok games ->
  Forall well_formed games ->
  exists w', remove_game h selector w = (Ok tt, w').
Proof.
  intros Hobj Hgames Hwf. unfold remove_game.
  destruct (remove_icon_returns h selector w games Hgames Hwf) as [w1 Hw1].
  rewrite Hw1, (remove_icon_config _ _ _ _ Hw1), Hgames. cbn [bind].
  assert (Forall (fun g => exists b, same_selector selector g = Ok b) games) as Hcmp.
  { eapply Forall_impl; [done|]. intros g. apply well_formed_same_selector. }
  destruct (without_selector_total selector games Hcmp) as [kept ->].
  rewrite Hobj. cbn. eauto.
Qed.

(** C9: when [remove_game(selector)] returns, the games list is the old one
    without the entries whose selector equals the argument in lower case,
    all of them, so that no such entry remains; when no entry had the
    selector the list is the same.  On a configuration with well-formed
    entries [remove_game] does return. *)
Theorem C9_remove_game_removes_every_match h selector w :
  (forall kvs games,
      games_config w = JObj kvs ->
      games_of (games_config w) = Ok games ->
      Forall well_formed games ->
      exists w', remove_game h selector w = (Ok tt, w')) /\
  (forall w',
      remove_game h selector w = (Ok tt, w') ->
      exists games games',
        games_of (games_config w) = Ok games /\
        games_of (games_config w') = Ok games' /\
        Forall (fun g => same_selector selector g = Ok false) games' /\
        games' = List.filter (fun g => negb (has_selector selector g)) games /\
        (Forall (fun g => same_selector selector g = Ok false) games ->
         games' = games)).
Proof.
  split.
  - intros kvs games. apply remove_game_returns.
  - intros w' Hret.
    destruct (remove_game_Ok _ _ _ _ Hret) as (games & kept & Hg & Hk & Hg').
    destruct (without_selector_filter _ _ _ Hk) as [Hfilter Hnone].
    exists games, kept. repeat (split; [done|]).
    intros Hall. rewrite Hfilter. apply filter_all_kept.
    eapply Forall_impl; [done|]. intros g Hgsel. cbn.
    by rewrite (has_selector_ok _ _ _ Hgsel).
Qed.

(** Removing "Elden Ring" where two entries carry that selector. *)
Lemma C9_remove_game_removes_every_match_witness :
  exists games games',
    games_of (games_config (Examples.loaded Examples.with_duplicates)) = Ok games /\
    games_of (games_config
                (remove_game Examples.friendly "Elden Ring"
                   (Examples.loaded Examples.with_duplicates)).2) = Ok games' /\
    Forall (fun g => same_selector "Elden Ring" g = Ok false) games' /\
    games' = List.filter (fun g => negb (has_selector "Elden Ring" g)) games /\
    (Forall (fun g => same_selector "Elden Ring" g = Ok false) games ->
     games' = games).
Proof.
  apply (proj2 (C9_remove_game_removes_every_match Examples.friendly "Elden Ring"
                  (Examples.loaded Examples.with_duplicates))).
  reflexivity.
Defined.

Example remove_game_with_duplicates :
  games_list (games_config
                (remove_game Examples.friendly "Elden Ring"
                   (Examples.loaded Examples.with_duplicates)).2) =
  [ Examples.game "Hollow Knight" "hollow" "" false ].
Proof. reflexivity. Qed.

(** ** Toggling and removing leave the other entries alone *)

(** The frame of an update in place: same length, and only position [i]
    may differ, and there only under the key [k]. *)
Lemma frame_refl (k : string) (l : list json) (i : nat) :
  length l = length l /\
  (forall j, j <> i -> l !! j = l !! j) /\
  (forall g g', l !! i = Some g -> l !! i = Some g' -> same_but k g g').
Proof.
  repeat split. intros g g' Hg Hg'. assert (g' = g) as -> by congruence.
  apply same_but_refl.
Qed.

Lemma frame_insert (k : string) (l : list json) (i : nat) g0 g1 :
  l !! i = Some g0 ->
  same_but k g0 g1 ->
  length (<[i := g1]> l) = length l /\
  (forall j, j <> i -> <[i := g1]> l !! j = l !! j) /\
  (forall g g', l !! i = Some g -> <[i := g1]> l !! i = Some g' -> same_but k g g').
Proof.
  intros Hi Hsame. split; [apply length_insert|]. split.
  - intros j Hj. by apply list_lookup_insert_ne.
  - intros g g' Hg Hg'. rewrite list_lookup_insert_eq in Hg'
      by (by eapply lookup_lt_Some).
    assert (g = g0) as -> by congruence.
    assert (g' = g1) as -> by congruence. done.
Qed.

Lemma set_game_enabled_frame h selector enabled w :
  let before := games_list (games_config w) in
  let after := games_list (games_config (set_game_enabled h selector enabled w).2) in
  exists i,
    length after = length before /\
    (forall j, j <> i -> after !! j = before !! j) /\
    (forall g g', before !! i = Some g -> after !! i = Some g' ->
                  same_but "enabled" g g').
Proof.
  cbn zeta. unfold set_game_enabled.
  destruct (games_of (games_config w)) as [games|e] eqn:Hgames; cbn [bind];
    [|exists 0%nat; apply frame_refl].
  destruct (first_with_selector selector 0 games) as [[[i game]|]|e] eqn:Hfirst;
    cbn [bind]; [| exists 0%nat; apply frame_refl ..].
  apply first_with_selector_Some in Hfirst as (k & -> & Hk & Hsame).
  destruct (same_selector_object _ _ _ Hsame) as [kvs0 ->].
  destruct (games_of_stored _ _ _ _ Hgames Hk) as (kvs & Hcfg & Hstored).
  cbn [setitem bind snd]. change (0 + k)%nat with k. exists k.
  assert (games_list (games_config w) = games) as ->
    by (unfold games_list; by rewrite Hgames).
  assert (games_list
            (games_config
               (save_config h
                  (set_games_config
                     (store_game k (JObj (assoc_set "enabled" (JBool enabled) kvs0))
                        (games_config w)) w))) =
          <[k := JObj (assoc_set "enabled" (JBool enabled) kvs0)]> games) as ->.
  { replace (games_config (save_config h _)) with
      (store_game k (JObj (assoc_set "enabled" (JBool enabled) kvs0)) (games_config w))
      by (unfold save_config; by destruct (can_write h)).
    rewrite Hcfg. unfold store_game. rewrite Hstored.
    unfold games_list. by rewrite games_of_store. }
  eapply frame_insert; [done|]. by eapply (setitem_same_but (JObj kvs0)).
Qed.

Lemma remove_game_frame h selector w :
  match remove_game h selector w with
  | (Ok _, w') =>
      games_list (games_config w') =
      List.filter (fun g => negb (has_selector selector g))
                  (games_list (games_config w))
  | (Raise _, w') => games_config w' = games_config w
  end.
Proof.
  destruct (remove_game h selector w) as [[[]|e] w'] eqn:Hret.
  - destruct (remove_game_Ok _ _ _ _ Hret) as (games & kept & Hg & Hk & Hg').
    unfold games_list. rewrite Hg, Hg'. cbn.
    by destruct (without_selector_filter _ _ _ Hk).
  - by eapply remove_game_Raise.
Qed.

Lemma input_files w r w1 :
  Manager.input w = (r, w1) ->
  Manager.config_file w1 = Manager.config_file w /\
  Manager.can_write w1 = Manager.can_write w.
Proof.
  unfold Manager.input. destruct (Manager.stdin w); intros [= <- <-]; done.
Qed.

Lemma file_games_same w w1 :
  Manager.config_file w1 = Manager.config_file w -> file_games w1 = file_games w.
Proof. unfold file_games, Manager.load_config. by intros ->. Qed.

Lemma load_config_same w w1 :
  Manager.config_file w1 = Manager.config_file w ->
  Manager.load_config w1 = Manager.load_config w.
Proof. unfold Manager.load_config. by intros ->. Qed.

(** After [save_config(config)] the file holds [config], or what it held
    before when the write failed. *)
Lemma file_games_save config w :
  file_games (Manager.save_config config w).2 = games_list config \/
  file_games (Manager.save_config config w).2 = file_games w.
Proof.
  unfold Manager.save_config. destruct (Manager.can_write w); [left|right]; done.
Qed.

(** The list a dictionary holds under "games", when it is a list with an
    element. *)
Lemma dict_get_games config l n (g : json) :
  dict_get config "games" (JArr []) = Ok (JArr l) ->
  l !! n = Some g ->
  exists kvs, config = JObj kvs /\ assoc "games" kvs = Some (JArr l) /\
              games_list config = l.
Proof.
  destruct config; try discriminate. cbn. intros Hget Hn.
  exists kvs. split; [done|].
  assert (assoc "games" kvs = Some (JArr l)) as Hassoc.
  { destruct (assoc "games" kvs); [congruence|].
    injection Hget as <-. done. }
  split; [done|]. unfold games_list, games_of. cbn. by rewrite Hassoc.
Qed.

Lemma chars_not_object s k kvs : chars s !! k = Some (JObj kvs) -> False.
Proof. revert k. induction s; intros [|k]; cbn; try done. eauto. Qed.

(** The body of [toggle_game_interactive] once a number is chosen. *)
Lemma toggle_body config games choice config' :
  dict_get config "games" (JArr []) = Ok games ->
  (let! n := len games in
   if ((1 <=? choice) && (choice <=? n))%bool then
     let! g := Manager.index games (choice - 1) in
     let! enabled := dict_get g "enabled" (JBool true) in
     let! g' := setitem g "enabled" (JBool (negb (truthy enabled))) in
     Ok (Some (store_game (Z.to_nat (choice - 1)) g' config))
   else Ok None) = Ok (Some config') ->
  exists g g',
    games_list config !! Z.to_nat (choice - 1) = Some g /\
    games_list config' = <[Z.to_nat (choice - 1) := g']> (games_list config) /\
    same_but "enabled" g g'.
Proof.
  intros Hget. destruct (len games) as [n|e]; cbn [bind]; [|done].
  destruct (_ && _)%bool; [|done].
  destruct (Manager.index games (choice - 1)) as [g|e] eqn:Hindex; cbn [bind]; [|done].
  destruct (dict_get g "enabled" (JBool true)) as [en|e] eqn:Hen; cbn [bind]; [|done].
  destruct g as [| | | | |kvs0]; try discriminate. cbn [setitem bind].
  intros [= <-].
  destruct games as [| | |s|l|]; try discriminate.
  - cbn in Hindex. destruct (chars s !! Z.to_nat (choice - 1)) as [c|] eqn:Hc;
      [|done]. injection Hindex as ->. by apply chars_not_object in Hc.
  - cbn in Hindex. destruct (l !! Z.to_nat (choice - 1)) as [g|] eqn:Hl; [|done].
    injection Hindex as ->.
    destruct (dict_get_games _ _ _ _ Hget Hl) as (kvs & -> & Hassoc & Hlist).
    rewrite Hlist. exists (JObj kvs0), (JObj (assoc_set "enabled" (JBool (negb (truthy en))) kvs0)).
    split; [done|]. split.
    + unfold store_game. rewrite Hassoc. unfold games_list.
      by rewrite games_of_store.
    + by eapply (setitem_same_but (JObj kvs0)).
Qed.

Lemma toggle_game_interactive_frame py_int w :
  let before := file_games w in
  let after := file_games (Manager.toggle_game_interactive py_int w).2 in
  exists i,
    length after = length before /\
    (forall j, j <> i -> after !! j = before !! j) /\
    (forall g g', before !! i = Some g -> after !! i = Some g' ->
                  same_but "enabled" g g').
Proof.
  cbn zeta. unfold Manager.toggle_game_interactive.
  destruct (Manager.list_games w); [|exists 0%nat; apply frame_refl].
  destruct (dict_get (Manager.load_config w) "games" (JArr [])) as [games|e] eqn:Hget;
    [|exists 0%nat; apply frame_refl].
  destruct (negb (truthy games)); [exists 0%nat; apply frame_refl|].
  destruct (Manager.input w) as [[line|e] w1] eqn:Hin;
    destruct (input_files _ _ _ Hin) as [Hfile Hcw].
  2:{ cbn [snd]. rewrite (file_games_same _ _ Hfile). exists 0%nat. apply frame_refl. }
  destruct (py_int line) as [choice|e].
  2:{ cbn [snd]. rewrite (file_games_same _ _ Hfile). exists 0%nat. apply frame_refl. }
  destruct (choice =? 0).
  { cbn [snd]. rewrite (file_games_same _ _ Hfile). exists 0%nat. apply frame_refl. }
  match goal with
  | |- context [match ?m with Ok _ => _ | Raise _ => _ end] =>
      destruct m as [[config'|]|e] eqn:Hbody
  end; cbn [snd].
  2,3: rewrite (file_games_same _ _ Hfile); exists 0%nat; apply frame_refl.
  destruct (toggle_body _ _ _ _ Hget Hbody) as (g & g' & Hg & Hafter & Hsame).
  destruct (file_games_save config' w1) as [-> | ->].
  - rewrite Hafter. exists (Z.to_nat (choice - 1)).
    eapply frame_insert; done.
  - rewrite (file_games_same _ _ Hfile). exists 0%nat. apply frame_refl.
Qed.

(** The body of [remove_game_interactive] once a number is chosen. *)
Lemma remove_body config games choice config' :
  dict_get config "games" (JArr []) = Ok games ->
  (let! n := len games in
   if ((1 <=? choice) && (choice <=? n))%bool then
     let! popped := Manager.pop games (choice - 1) in
     Ok (Some (Manager.store_games (snd popped) config))
   else Ok None) = Ok (Some config') ->
  games_list config' = delete (Z.to_nat (choice - 1)) (games_list config).
Proof.
  intros Hget. destruct (len games) as [n|e]; cbn [bind]; [|done].
  destruct (_ && _)%bool; [|done].
  destruct games as [| | | |l|]; try discriminate.
  cbn [Manager.pop]. destruct (l !! Z.to_nat (choice - 1)) as [g|] eqn:Hl; [|done].
  cbn [bind snd]. intros [= <-].
  destruct (dict_get_games _ _ _ _ Hget Hl) as (kvs & -> & Hassoc & ->).
  unfold Manager.store_games, games_list. by rewrite games_of_store.
Qed.

Lemma remove_game_interactive_frame py_int w :
  let before := file_games w in
  let after := file_games (Manager.remove_game_interactive py_int w).2 in
  after = before \/ exists i, after = delete i before.
Proof.
  cbn zeta. unfold Manager.remove_game_interactive.
  destruct (Manager.list_games w); [|by left].
  destruct (dict_get (Manager.load_config w) "games" (JArr [])) as [games|e] eqn:Hget;
    [|by left].
  destruct (negb (truthy games)); [by left|].
  destruct (Manager.input w) as [[line|e] w1] eqn:Hin;
    destruct (input_files _ _ _ Hin) as [Hfile Hcw].
  2:{ left. cbn [snd]. by apply file_games_same. }
  destruct (py_int line) as [choice|e].
  2:{ left. cbn [snd]. by apply file_games_same. }
  destruct (choice =? 0).
  { left. cbn [snd]. by apply file_games_same. }
  match goal with
  | |- context [match ?m with Ok _ => _ | Raise _ => _ end] =>
      destruct m as [[config'|]|e] eqn:Hbody
  end; cbn [snd].
  2,3: left; by apply file_games_same.
  destruct (file_games_save config' w1) as [-> | ->].
  - right. exists (Z.to_nat (choice - 1)). by eapply remove_body.
  - left. by apply file_games_same.
Qed.

(** C4: toggling the enabled flag of a game, or removing a game, leaves
    every other entry of the games list as it was and in the same order.
    After [set_game_enabled] and after [toggle_game_interactive] the list
    has the same length and at most one position differs, there only under
    "enabled"; after [remove_game] the list is the old one filtered by the
    selector (unchanged if the call raises); after
    [remove_game_interactive] it is the old one, or the old one with one
    position deleted. *)
Theorem C4_other_entries_unchanged :
  (forall h selector enabled w,
      let before := games_list (games_config w) in
      let after :=
        games_list (games_config (set_game_enabled h selector enabled w).2) in
      exists i,
        length after = length before /\
        (forall j, j <> i -> after !! j = before !! j) /\
        (forall g g', before !! i = Some g -> after !! i = Some g' ->
                      same_but "enabled" g g')) /\
  (forall h selector w,
      match remove_game h selector w with
      | (Ok _, w') =>
          games_list (games_config w') =
          List.filter (fun g => negb (has_selector selector g))
                      (games_list (games_config w))
      | (Raise _, w') => games_config w' = games_config w
      end) /\
  (forall py_int w,
      let before := file_games w in
      let after := file_games (Manager.toggle_game_interactive py_int w).2 in
      exists i,
        length after = length before /\
        (forall j, j <> i -> after !! j = before !! j) /\
        (forall g g', before !! i = Some g -> after !! i = Some g' ->
                      same_but "enabled" g g')) /\
  (forall py_int w,
      let before := file_games w in
      let after := file_games (Manager.remove_game_interactive py_int w).2 in
      after = before \/ exists i, after = delete i before).
Proof.
  split; [exact set_game_enabled_frame|].
  split; [exact remove_game_frame|].
  split; [exact toggle_game_interactive_frame|exact remove_game_interactive_frame].
Qed.

(** Disabling "Elden Ring" in a list of three. *)
Lemma C4_other_entries_unchanged_witness :
  exists i,
    length (games_list (games_config
              (set_game_enabled Examples.friendly "elden ring" false
                 (Examples.loaded Examples.with_duplicates)).2)) =
    length (games_list (games_config (Examples.loaded Examples.with_duplicates))) /\
    (forall j, j <> i ->
       games_list (games_config
         (set_game_enabled Examples.friendly "elden ring" false
            (Examples.loaded Examples.with_duplicates)).2) !! j =
       games_list (games_config (Examples.loaded Examples.with_duplicates)) !! j) /\
    (forall g g',
       games_list (games_config (Examples.loaded Examples.with_duplicates)) !! i
         = Some g ->
       games_list (games_config
         (set_game_enabled Examples.friendly "elden ring" false
            (Examples.loaded Examples.with_duplicates)).2) !! i = Some g' ->
       same_but "enabled" g g').
Proof.
  exact (proj1 C4_other_entries_unchanged Examples.friendly "elden ring" false
           (Examples.loaded Examples.with_duplicates)).
Defined.

Example set_game_enabled_first_only :
  games_list (games_config
    (set_game_enabled Examples.friendly "elden ring" false
       (Examples.loaded Examples.with_duplicates)).2) =
  [ Examples.game "Elden Ring" "elden ring" "" false;
    Examples.game "Hollow Knight" "hollow" "" false;
    Examples.game "Elden Ring again" "ELDEN RING" "" true ].
Proof. reflexivity. Qed.

Example toggle_second :
  file_games
    (Manager.toggle_game_interactive Examples.decimal
       (Examples.on_disk Examples.with_duplicates ["2"])).2 =
  [ Examples.game "Elden Ring" "elden ring" "" true;
    Examples.game "Hollow Knight" "hollow" "" true;
    Examples.game "Elden Ring again" "ELDEN RING" "" true ].
Proof. reflexivity. Qed.

Example remove_second :
  file_games
    (Manager.remove_game_interactive Examples.decimal
       (Examples.on_disk Examples.with_duplicates ["2"])).2 =
  [ Examples.game "Elden Ring" "elden ring" "" true;
    Examples.game "Elden Ring again" "ELDEN RING" "" true ].
Proof. reflexivity. Qed.

(** ** Adding a game *)

Lemma well_formed_comparable selector games :
  Forall well_formed games ->
  Forall (fun g => exists b, same_selector selector g = Ok b) games.
Proof.
  intros Hwf. eapply Forall_impl; [done|]. intros g.
  apply well_formed_same_selector.
Qed.

(** [add_game] rejects a selector that is already configured. *)
Lemma add_game_rejects_duplicate h name selector enabled w games :
  games_of (games_config w) = Ok games ->
  Forall well_formed games ->
  existsb (has_selector selector) games = true ->
  add_game h name selector enabled w =
  (Ok (false, "Game with this selector already exists"), w).
Proof.
  intros Hgames Hwf Hdup. unfold add_game. rewrite Hgames. cbn [bind].
  destruct (first_with_selector_total selector 0 games
              (well_formed_comparable _ _ Hwf)) as (found & -> & Hfound).
  destruct found as [x|]; [done|]. by destruct (Hfound Hdup).
Qed.

Lemma already_exists_first selector games :
  Manager.already_exists selector games =
  let! found := first_with_selector selector 0 games in
  Ok (match found with Some _ => true | None => false end).
Proof.
  generalize 0%nat. induction games as [|g games IH]; intros n; cbn; [done|].
  destruct (same_selector selector g) as [[|]|e]; cbn; [done| |done].
  apply IH.
Qed.

(** [add_game_interactive] rejects a selector that is already configured:
    it prints "Already exists!" and writes nothing. *)
Lemma add_game_interactive_rejects_duplicate w line0 line1 line2 line3 rest games :
  Manager.stdin w = line0 :: line1 :: line2 :: line3 :: rest ->
  strip line1 <> "" ->
  strip line2 <> "" ->
  games_of (Manager.load_config w) = Ok games ->
  Forall well_formed games ->
  existsb (has_selector (if nonempty (strip line3) then strip line3
                         else strip line1)) games = true ->
  Manager.add_game_interactive w =
  (Ok Manager.AlreadyExists, Manager.set_stdin rest w).
Proof.
  intros Hin H1 H2 Hgames Hwf Hdup.
  apply nonempty_true in H1. apply nonempty_true in H2.
  unfold Manager.add_game_interactive, Manager.input. rewrite Hin.
  cbn [Manager.stdin Manager.set_stdin]. rewrite H1. cbn [negb].
  rewrite H2. cbn [negb].
  change (Manager.load_config _) with (Manager.load_config w).
  rewrite Hgames. cbn [bind]. rewrite already_exists_first.
  destruct (first_with_selector_total
              (if nonempty (strip line3) then strip line3 else strip line1)
              0 games (well_formed_comparable _ _ Hwf)) as (found & -> & Hfound).
  destruct found as [x|]; [done|]. by destruct (Hfound Hdup).
Qed.

(** The [--add] flag appends whatever it is given. *)
Lemma main_add_appends script name selector more w kvs games :
  Manager.load_config w = JObj kvs ->
  assoc "games" kvs = Some (JArr games) ->
  Manager.can_write w = true ->
  Manager.main_add (script :: "--add" :: name :: selector :: more) w =
  Some (Ok tt,
        Manager.set_config_file
          (Content (JObj (assoc_set "games"
                            (JArr (games ++ [Manager.new_game name selector]))
                            kvs))) w).
Proof.
  intros Hload Hassoc Hcw. unfold Manager.main_add.
  change (String.eqb "--add" "--add") with true. cbn iota.
  rewrite Hload. cbn [getitem bind]. rewrite Hassoc.
  cbn [append bind setitem]. unfold Manager.save_config. by rewrite Hcw.
Qed.

(** C3 fails on the command line: with "Elden Ring" configured under the
    selector "elden ring",
    [debug_process_checker.py --add "Elden Ring again" "ELDEN RING"]
    succeeds and leaves two entries with the same selector up to case,
    where a rejected duplicate would leave the list as it was. *)
Theorem C3_add_flag_appends_duplicate :
  let before :=
    Examples.on_disk [Examples.game "Elden Ring" "elden ring" "" true] [] in
  let after :=
    Examples.on_disk
      [Examples.game "Elden Ring" "elden ring" "" true;
       Examples.game "Elden Ring again" "ELDEN RING" "" true] [] in
  Manager.main_add
    ["debug_process_checker.py"; "--add"; "Elden Ring again"; "ELDEN RING"]
    before = Some (Ok tt, after) /\
  ~ duplicate_rejected "ELDEN RING" (file_games before) (file_games after).
Proof.
  cbn zeta. split; [reflexivity|].
  intros Hrejected. specialize (Hrejected eq_refl).
  vm_compute in Hrejected. discriminate.
Qed.

(** The same request through the two other add operations is refused. *)
Example add_game_refuses :
  add_game Examples.friendly "Elden Ring again" "ELDEN RING" None
    (Examples.loaded [Examples.game "Elden Ring" "elden ring" "" true]) =
  (Ok (false, "Game with this selector already exists"),
   Examples.loaded [Examples.game "Elden Ring" "elden ring" "" true]).
Proof. reflexivity. Qed.

Example add_game_interactive_refuses :
  Manager.add_game_interactive
    (Examples.on_disk [Examples.game "Elden Ring" "elden ring" "" true]
       [""; "elden"; "Elden Ring again"; "ELDEN RING"]) =
  (Ok Manager.AlreadyExists,
   Examples.on_disk [Examples.game "Elden Ring" "elden ring" "" true] []).
Proof. reflexivity. Qed.

(** What [config["games"].append(game)] does to a configuration. *)
Lemma append_game config game config' :
  (let! games := getitem config "games" in
   let! games' := append games game in
   setitem config "games" games') = Ok config' ->
  exists kvs games,
    config = JObj kvs /\
    assoc "games" kvs = Some (JArr games) /\
    config' = JObj (assoc_set "games" (JArr (games ++ [game])) kvs).
Proof.
  destruct config as [| | | | |kvs]; try discriminate. cbn [getitem bind].
  destruct (assoc "games" kvs) as [v|] eqn:Hassoc; [|discriminate]. cbn [bind].
  destruct v as [| | | |games|]; try discriminate. cbn.
  intros [= <-]. by exists kvs, games.
Qed.

(** C6: every add operation appends a record with exactly the fields name,
    selector, icon_path and enabled, in which icon_path is the empty string
    and enabled is True unless [add_game] is told otherwise; the
    configuration it leaves, and writes when the file can be written, is
    an object whose "games" list is the old list followed by that record,
    so that a list of such records stays one. *)
Theorem C6_added_entry_is_a_four_field_record :
  (forall h name selector enabled w msg w',
      add_game h name selector enabled w = (Ok (true, msg), w') ->
      exists kvs games,
        games_config w = JObj kvs /\
        assoc "games" kvs = Some (JArr games) /\
        games_config w' =
          JObj (assoc_set "games"
                  (JArr (games ++ [game_record name selector ""
                                     (default true enabled)])) kvs) /\
        (can_write h = true -> config_file w' = Content (games_config w'))) /\
  (forall w w',
      Manager.add_game_interactive w = (Ok Manager.Added, w') ->
      exists kvs games name selector,
        Manager.load_config w = JObj kvs /\
        assoc "games" kvs = Some (JArr games) /\
        Manager.config_file w' =
          Content (JObj (assoc_set "games"
                           (JArr (games ++ [game_record name selector "" true]))
                           kvs))) /\
  (forall argv w w',
      Manager.main_add argv w = Some (Ok tt, w') ->
      exists kvs games name selector,
        argv !! 2%nat = Some name /\
        argv !! 3%nat = Some selector /\
        Manager.load_config w = JObj kvs /\
        assoc "games" kvs = Some (JArr games) /\
        Manager.config_file w' =
          Content (JObj (assoc_set "games"
                           (JArr (games ++ [game_record name selector "" true]))
                           kvs))) /\
  (forall name selector enabled games,
      Forall is_game_record games ->
      Forall is_game_record (games ++ [game_record name selector "" enabled])).
Proof.
  split; [|split; [|split]].
  - intros h name selector enabled w msg w'. unfold add_game.
    destruct (bind (games_of (games_config w)) _) as [[x|]|e]; [done| |done].
    match goal with
    | |- context [match ?m with Ok _ => _ | Raise _ => _ end] =>
        destruct m as [config|e] eqn:Happend; [|done]
    end.
    intros [= _ <-].
    destruct (append_game _ _ _ Happend) as (kvs & games & Hcfg & Hassoc & ->).
    exists kvs, games. split; [done|]. split; [done|].
    unfold save_config. split.
    + by destruct (can_write h).
    + by intros ->.
  - intros w w'. unfold Manager.add_game_interactive.
    destruct (Manager.input w) as [[line0|e] w0] eqn:H0; [|done].
    destruct (Manager.input w0) as [[line1|e] w1] eqn:H1; [|done].
    destruct (negb (nonempty (strip line1))); [done|].
    destruct (Manager.input w1) as [[line2|e] w2] eqn:H2; [|done].
    destruct (negb (nonempty (strip line2))); [done|].
    destruct (Manager.input w2) as [[line3|e] w3] eqn:H3; [|done].
    assert (Manager.config_file w3 = Manager.config_file w) as Hfile.
    { rewrite (proj1 (input_files _ _ _ H3)), (proj1 (input_files _ _ _ H2)),
        (proj1 (input_files _ _ _ H1)).
      exact (proj1 (input_files _ _ _ H0)). }
    rewrite (load_config_same _ _ Hfile).
    destruct (bind (games_of (Manager.load_config w)) _) as [[|]|e]; [done| |done].
    match goal with
    | |- context [match ?m with Ok _ => _ | Raise _ => _ end] =>
        destruct m as [config|e] eqn:Happend; [|done]
    end.
    destruct (append_game _ _ _ Happend) as (kvs & games & Hcfg & Hassoc & ->).
    unfold Manager.save_config. destruct (Manager.can_write w3); [|done].
    intros [= <-]. eexists kvs, games, _, _. by repeat split.
  - intros argv w w'. unfold Manager.main_add.
    destruct argv as [|script [|cmd [|name [|selector more]]]]; try done.
    destruct (String.eqb cmd "--add"); [|done].
    match goal with
    | |- context [match ?m with Ok _ => _ | Raise _ => _ end] =>
        destruct m as [config|e] eqn:Happend; [|by intros [= ]]
    end.
    destruct (append_game _ _ _ Happend) as (kvs & games & Hcfg & Hassoc & ->).
    unfold Manager.save_config. destruct (Manager.can_write w); [|by intros [= ]].
    intros [= <-]. exists kvs, games, name, selector. by repeat split.
  - intros name selector enabled games Hall. apply Forall_app. split; [done|].
    constructor; [|done]. by exists name, selector, "", enabled.
Qed.

(** Adding "Hades" to a configuration with two games. *)
Lemma C6_added_entry_is_a_four_field_record_witness :
  exists kvs games,
    games_config (Examples.loaded Examples.two_games) = JObj kvs /\
    assoc "games" kvs = Some (JArr games) /\
    games_config
      (add_game Examples.friendly "Hades" "hades" None
         (Examples.loaded Examples.two_games)).2 =
      JObj (assoc_set "games"
              (JArr (games ++ [game_record "Hades" "hades" "" true])) kvs) /\
    (can_write Examples.friendly = true ->
     config_file
       (add_game Examples.friendly "Hades" "hades" None
          (Examples.loaded Examples.two_games)).2 =
     Content (games_config
                (add_game Examples.friendly "Hades" "hades" None
                   (Examples.loaded Examples.two_games)).2)).
Proof.
  exact (proj1 C6_added_entry_is_a_four_field_record Examples.friendly
           "Hades" "hades" None (Examples.loaded Examples.two_games)
           "Game added successfully" _ eq_refl).
Defined.

Example add_game_appends :
  games_list (games_config
    (add_game Examples.friendly "Hades" "hades" None
       (Examples.loaded Examples.two_games)).2) =
  (Examples.two_games ++ [Examples.game "Hades" "hades" "" true])%list.
Proof. reflexivity. Qed.

(** ** Saving and loading *)

(** What [load_config] of the script makes of a parsed value. *)
Lemma load_config_content h w v :
  config_file w = Content v ->
  (load_config h w).1 =
  catch (let! present := py_in "games" v in
         if negb present then setitem v "games" (JArr []) else Ok v)
        empty_config /\
  games_config (load_config h w).2 = (load_config h w).1.
Proof.
  intros Hfile. unfold load_config. rewrite Hfile.
  by destruct (bind (py_in "games" v) _).
Qed.

Lemma load_after_save_games_list v :
  games_list
    (catch (let! present := py_in "games" v in
            if negb present then setitem v "games" (JArr []) else Ok v)
           empty_config) =
  games_list v.
Proof.
  destruct v as [| | |s|l|kvs]; try done; cbn [py_in bind].
  - by destruct (contains "games" s).
  - by destruct (existsb (is_str "games") l).
  - destruct (assoc "games" kvs) as [x|] eqn:Hassoc; cbn [negb setitem catch]; [done|].
    unfold games_list. rewrite games_of_store. unfold games_of. cbn.
    by rewrite Hassoc.
Qed.

(** What a process that starts with the file [save_config] wrote reads
    from it, whatever it holds in memory. *)
Lemma load_config_of_file h w v :
  config_file w = Content v ->
  games_list (load_config h w).1 = games_list v /\
  games_config (load_config h w).2 = (load_config h w).1 /\
  (forall kvs, v = JObj kvs -> is_Some (assoc "games" kvs) ->
               (load_config h w).1 = v).
Proof.
  intros Hfile. destruct (load_config_content h _ _ Hfile) as [Hret Hglobal].
  rewrite Hglobal, Hret.
  split; [apply load_after_save_games_list|]. split; [done|].
  intros kvs -> [x Hx]. cbn. by rewrite Hx.
Qed.

(** C5: the configuration file round-trips.  Once [save_config] of the
    script has written the file, [load_config] in any state of the script
    that faces this file, whatever configuration it holds in memory,
    returns a configuration with the games list that was saved, and the
    very configuration that was saved when that is an object with the key
    "games"; the companion tool facing the file that its [save_config]
    has written loads exactly what was saved; and the two programs read
    each other's file the same way. *)
Theorem C5_config_round_trip :
  (forall h w h2 w2,
      can_write h = true ->
      config_file w2 = config_file (save_config h w) ->
      let loaded := load_config h2 w2 in
      games_list loaded.1 = games_list (games_config w) /\
      games_config loaded.2 = loaded.1 /\
      (forall kvs, games_config w = JObj kvs -> is_Some (assoc "games" kvs) ->
                   loaded.1 = games_config w)) /\
  (forall config m m2,
      Manager.can_write m = true ->
      Manager.config_file m2 =
        Manager.config_file (Manager.save_config config m).2 ->
      (Manager.save_config config m).1 = Ok tt /\
      Manager.load_config m2 = config) /\
  (forall h w m2,
      can_write h = true ->
      Manager.config_file m2 = config_file (save_config h w) ->
      Manager.load_config m2 = games_config w) /\
  (forall config m h2 w2,
      Manager.can_write m = true ->
      config_file w2 = Manager.config_file (Manager.save_config config m).2 ->
      games_list (load_config h2 w2).1 = games_list config).
Proof.
  assert (forall h w, can_write h = true ->
                      config_file (save_config h w) = Content (games_config w))
    as Hscript by (intros h w Hcw; unfold save_config; by rewrite Hcw).
  assert (forall config m, Manager.can_write m = true ->
            Manager.save_config config m =
            (Ok tt, Manager.set_config_file (Content config) m))
    as Htool by (intros config m Hcw; unfold Manager.save_config; by rewrite Hcw).
  split; [|split; [|split]].
  - intros h w h2 w2 Hcw Hfile. rewrite (Hscript h w Hcw) in Hfile.
    exact (load_config_of_file h2 w2 _ Hfile).
  - intros config m m2 Hcw. rewrite (Htool config m Hcw). cbn [fst snd].
    intros Hfile. split; [done|]. unfold Manager.load_config. by rewrite Hfile.
  - intros h w m2 Hcw Hfile. rewrite (Hscript h w Hcw) in Hfile.
    unfold Manager.load_config. by rewrite Hfile.
  - intros config m h2 w2 Hcw. rewrite (Htool config m Hcw). cbn [snd].
    intros Hfile. exact (proj1 (load_config_of_file h2 w2 _ Hfile)).
Qed.

(** A script that holds no game in memory loads the two games another
    run has saved. *)
Lemma C5_config_round_trip_witness :
  games_list
    (load_config Examples.read_only
       (Examples.facing (Content (Examples.config Examples.two_games)))).1 =
  Examples.two_games /\
  Manager.load_config (Examples.on_disk Examples.two_games ["1"]) =
  Examples.config Examples.two_games.
Proof.
  split.
  - exact (proj1 (proj1 C5_config_round_trip Examples.friendly
                    (Examples.loaded Examples.two_games) Examples.read_only
                    (Examples.facing (Content (Examples.config Examples.two_games)))
                    eq_refl eq_refl)).
  - exact (proj2 (proj1 (proj2 C5_config_round_trip)
                    (Examples.config Examples.two_games)
                    (Examples.on_disk [] [])
                    (Examples.on_disk Examples.two_games ["1"])
                    eq_refl eq_refl)).
Defined.

(** ** Failures while reading *)

(** C7: reading never raises, a failure becomes a plain value.  The
    companion tool's [load_config] gives a configuration with an empty
    games list when the file is missing or unreadable;
    [is_watcher_running] gives (False, None) when the PID file is missing,
    cannot be read, does not hold a number, or names a process that cannot
    be opened; [get_watcher_state] gives None when the state file is
    missing or cannot be read. *)
Theorem C7_read_failures_become_values :
  (forall w,
      Manager.config_file w = Absent \/ Manager.config_file w = Unreadable ->
      Manager.load_config w = JObj [("games", JArr [])]) /\
  (forall py_int OpenProcess w,
      Manager.pid_file w = Manager.NoFile \/
      Manager.pid_file w = Manager.Unopenable \/
      (exists s, Manager.pid_file w = Manager.Text s /\
                 (is_ok (py_int (strip s)) = false \/
                  exists pid, py_int (strip s) = Ok pid /\
                              (is_ok (OpenProcess pid) = false \/
                               OpenProcess pid = Ok 0))) ->
      Manager.is_watcher_running py_int OpenProcess w = (false, None)) /\
  (forall w,
      Manager.state_file w = Manager.NoFile \/
      Manager.state_file w = Manager.Unopenable ->
      Manager.get_watcher_state w = None).
Proof.
  split; [|split].
  - intros w [H|H]; unfold Manager.load_config; by rewrite H.
  - intros py_int OpenProcess w. unfold Manager.is_watcher_running.
    intros [->|[->|(s & -> & Hs)]]; [done|done|].
    destruct Hs as [Hint|(pid & -> & Hopen)].
    + by destruct (py_int (strip s)).
    + cbn [bind]. destruct Hopen as [Hopen| ->]; [|done].
      by destruct (OpenProcess pid).
  - intros w [H|H]; unfold Manager.get_watcher_state; by rewrite H.
Qed.

(** A stale PID file that does not hold a number. *)
Lemma C7_read_failures_become_values_witness :
  Manager.load_config Examples.stale_pid_file = JObj [("games", JArr [])] /\
  Manager.is_watcher_running Examples.decimal Examples.open_any
    Examples.stale_pid_file = (false, None) /\
  Manager.get_watcher_state Examples.stale_pid_file = None.
Proof.
  split; [|split].
  - exact (proj1 C7_read_failures_become_values Examples.stale_pid_file
             (or_introl eq_refl)).
  - apply (proj1 (proj2 C7_read_failures_become_values)).
    right. right. exists "restarting". split; [reflexivity|].
    left. reflexivity.
  - exact (proj2 (proj2 C7_read_failures_become_values) Examples.stale_pid_file
             (or_intror eq_refl)).
Defined.

Example watcher_found :
  Manager.is_watcher_running Examples.decimal Examples.open_any
    {| Manager.config_file := Absent;
       Manager.pid_file := Manager.Text " 4242 ";
       Manager.state_file := Manager.Text "recording ";
       Manager.can_write := true;
       Manager.stdin := [] |} = (true, Some 4242).
Proof. reflexivity. Qed.

(** ** [load_config] of the script *)




Example load_config_keeps_an_array :
  (load_config Examples.friendly
     (Examples.facing (Content (JArr [JStr "games"])))).1 = JArr [JStr "games"] /\
  (load_config Examples.friendly
     (Examples.facing (Content (JArr [])))).1 = JObj [("games", JArr [])] /\
  (load_config Examples.friendly
     (Examples.facing (Content (JStr "my games")))).1 = JStr "my games".
Proof. by vm_compute. Qed.


(** * Further properties of the code *)

(** ** The process list and the detection routine *)

Lemma detailed_loop_NoDup m seen ws :
  NoDup (List.map pid (detailed_loop m seen ws)) /\
  forall p, In p (detailed_loop m seen ws) -> pid p ∉ seen.
Proof.
  revert seen. induction ws as [|w ws IH]; intros seen; cbn [detailed_loop].
  - split; [constructor|]. intros p [].
  - destruct (decide (win_pid w ∈ seen)) as [Hin|Hnin]; [apply IH|].
    destruct (IH ({[win_pid w]} ∪ seen)) as [Hnodup Hfresh].
    cbn [List.map In pid]. split.
    + apply NoDup_cons. split; [|done].
      intros Hin. apply list_elem_of_In, in_map_iff in Hin as (q & Hq & Hinq).
      apply Hfresh in Hinq. apply Hinq. rewrite Hq.
      apply elem_of_union. left. by apply elem_of_singleton.
    + intros p [<-|Hp]; [done|]. apply Hfresh in Hp.
      intros Hseen. apply Hp. apply elem_of_union. by right.
Qed.

Lemma shown_dec t : {shown t} + {~ shown t}.
Proof.
  unfold shown. destruct (visible t); [|right; by intros [? _]].
  destruct (string_dec (text t) "") as [->|Hne]; [right; by intros [_ ?]|left; done].
Qed.

(** Every process with a window that is shown has a leading window. *)
Lemma leading_window_exists os t :
  In t (desktop os) -> shown t ->
  exists t', leading_window os t' /\ owner t' = owner t.
Proof.
  unfold leading_window. generalize (desktop os). intros l.
  induction l as [|u l IH]; [done|]. intros Hin Hshown.
  destruct (shown_dec u) as [Hu|Hu].
  - destruct (decide (owner u = owner t)) as [Heq|Hne].
    + exists u. split; [|done]. exists [], l. repeat split; try apply Hu. intros v [].
    + destruct Hin as [->|Hin]; [done|].
      destruct (IH Hin Hshown) as (t' & (b & a & -> & Ht' & Hb) & Ho).
      exists t'. split; [|done]. exists (u :: b), a. repeat split; try apply Ht'.
      intros v [<-|Hv] Hvs; [congruence|by apply Hb].
  - destruct Hin as [->|Hin]; [done|].
    destruct (IH Hin Hshown) as (t' & (b & a & -> & Ht' & Hb) & Ho).
    exists t'. split; [|done]. exists (u :: b), a. repeat split; try apply Ht'.
    intros v [<-|Hv] Hvs; [done|by apply Hb].
Qed.

(** The process ids of the loop of [get_processes_detailed], in order. *)
Lemma detailed_loop_pids m seen ws :
  List.map pid (detailed_loop m seen ws) =
  filter (fun x => x ∉ seen) (first_occurrences (List.map win_pid ws)).
Proof.
  revert seen. induction ws as [|w ws IH]; intros seen; [done|].
  cbn [detailed_loop List.map first_occurrences].
  destruct (decide (win_pid w ∈ seen)) as [Hin|Hnin].
  - rewrite filter_cons_False by (intros H; by apply H).
    rewrite IH, list_filter_filter. apply list_filter_iff.
    intros x. split; [|tauto]. intros Hx. split; [done|]. by intros ->.
  - rewrite filter_cons_True by done. cbn [List.map pid]. f_equal.
    rewrite IH, list_filter_filter. apply list_filter_iff.
    intros x. rewrite not_elem_of_union, not_elem_of_singleton. tauto.
Qed.

(** X1: [get_processes_detailed] lists every process that shows a titled
    window exactly once, in the order of their first such window: the
    process ids of the list are those of the visible windows in
    enumeration order, each kept at its first occurrence, so they are
    distinct; each entry carries the title and handle of the leading
    window of its process, a title that is not empty, an empty command
    line and the lower-case name the process table gives (empty when the
    table has none); and every process with a shown window has an
    entry. *)
Theorem X1_one_entry_per_windowed_process os :
  List.map pid (get_processes_detailed os) =
    first_occurrences (List.map win_pid (get_visible_windows os)) /\
  NoDup (List.map pid (get_processes_detailed os)) /\
  (forall p, In p (get_processes_detailed os) ->
     exists t, leading_window os t /\
       pid p = owner t /\ window_title p = text t /\ hwnd p = handle t /\
       window_title p <> "" /\ command_line p = "" /\
       name p = default "" (get_process_list os !! owner t) /\
       lower (name p) = name p) /\
  (forall t, In t (desktop os) -> shown t ->
     exists p, In p (get_processes_detailed os) /\ pid p = owner t).
Proof.
  split.
  { unfold get_processes_detailed. rewrite detailed_loop_pids.
    induction (first_occurrences _) as [|x l IH]; [done|].
    rewrite filter_cons_True by apply not_elem_of_empty. by rewrite IH. }
  split; [apply detailed_loop_NoDup|]. split.
  - intros p Hp. apply detailed_loop_In in Hp as (b & win & a & Hsplit & _ & Hb & ->).
    destruct (proj1 (leading_window_kept os win)) as (t & Hlead & ->); [by eauto|].
    exists t. split; [done|]. cbn. repeat split; try done.
    + destruct Hlead as (_ & _ & _ & [_ Htext] & _). done.
    + destruct (get_process_list os !! owner t) as [s|] eqn:Hs; [|done]. cbn.
      apply get_process_list_lookup in Hs as (e & _ & ->). apply lower_idempotent.
  - intros t Hin Hshown.
    destruct (leading_window_exists os t Hin Hshown) as (t' & Hlead & Ho).
    destruct (proj2 (leading_window_kept os (window_of t'))) as (b & a & Hsplit & Hb);
      [by eauto|].
    exists (proc_of (get_process_list os) (window_of t')). split; [|done].
    apply detailed_loop_In. exists b, (window_of t'), a.
    repeat split; [done| |done]. apply not_elem_of_empty.
Qed.

(** On the desktop with two windows of one launcher. *)
Lemma X1_one_entry_per_windowed_process_witness :
  exists p, In p (get_processes_detailed Examples.two_windows) /\ pid p = 21.
Proof.
  refine (proj2 (proj2 (proj2
            (X1_one_entry_per_windowed_process Examples.two_windows)))
            {| handle := 2002; visible := true; text := "Hollow Knight"; owner := 21 |}
            _ _).
  - right. left. reflexivity.
  - split; [reflexivity|discriminate].
Defined.

Lemma first_match_first t before p after :
  Forall (fun q => hit t q = false) before ->
  hit t p = true ->
  first_match t (before ++ p :: after) = (true, Some p).
Proof.
  intros Hb Hp. rewrite first_match_find.
  induction before as [|q before IH]; cbn.
  - by rewrite Hp.
  - apply Forall_cons in Hb as [-> Hb]. by apply IH.
Qed.

Lemma is_program_running_string os selector ps :
  selector <> "" ->
  is_program_running os (JStr selector) (Some ps) =
  Ok (first_match (lower selector) ps).
Proof.
  intros Hne%nonempty_true. unfold is_program_running. cbn. by rewrite Hne.
Qed.

(** X2: on a list of processes and a selector that is not empty,
    [is_program_running] answers (True, p) exactly when p is the first
    process of the list whose lower-cased window title or whose name
    contains the lower-cased selector, and (False, None) exactly when no
    process of the list does; it never answers anything else, so True
    always comes with a process of the list. *)
Theorem X2_is_program_running_first_hit os selector ps :
  selector <> "" ->
  (forall p,
      is_program_running os (JStr selector) (Some ps) = Ok (true, Some p) <->
      exists before after,
        ps = (before ++ p :: after)%list /\
        hit (lower selector) p = true /\
        Forall (fun q => hit (lower selector) q = false) before) /\
  (is_program_running os (JStr selector) (Some ps) = Ok (false, None) <->
   Forall (fun q => hit (lower selector) q = false) ps) /\
  ((exists p, In p ps /\
              is_program_running os (JStr selector) (Some ps) = Ok (true, Some p)) \/
   is_program_running os (JStr selector) (Some ps) = Ok (false, None)).
Proof.
  intros Hne. rewrite is_program_running_string by done.
  destruct (first_match_cases (lower selector) ps)
    as [(p & b & a & Hps & Hp & Hb & Hfm)|[Hall Hfm]]; rewrite Hfm.
  - split; [|split].
    + intros q. split.
      * intros [= <-]. eauto.
      * intros (b' & a' & Hps' & Hq & Hb').
        rewrite Hps', (first_match_first _ _ _ _ Hb' Hq) in Hfm. congruence.
    + split; [discriminate|]. intros Hnone. exfalso.
      rewrite Hps in Hnone. apply Forall_app in Hnone as [_ Hnone].
      apply Forall_cons in Hnone as [Hnone _]. congruence.
    + left. exists p. split; [|done]. rewrite Hps. apply in_or_app. right. by left.
  - split; [|split].
    + intros q. split; [discriminate|].
      intros (b' & a' & Hps' & Hq & Hb'). exfalso.
      rewrite Hps' in Hall. apply Forall_app in Hall as [_ Hall].
      apply Forall_cons in Hall as [Hall _]. congruence.
    + done.
    + by right.
Qed.

(** Looking for "elden" among the processes of the desktop with the game. *)
Lemma X2_is_program_running_first_hit_witness :
  (exists p, In p (get_processes_detailed Examples.game_window) /\
             is_program_running Examples.game_window (JStr "elden")
               (Some (get_processes_detailed Examples.game_window)) =
             Ok (true, Some p)) \/
  is_program_running Examples.game_window (JStr "elden")
    (Some (get_processes_detailed Examples.game_window)) = Ok (false, None).
Proof.
  refine (proj2 (proj2 (X2_is_program_running_first_hit Examples.game_window "elden"
                          (get_processes_detailed Examples.game_window) _))).
  discriminate.
Defined.

(** X3: [is_program_running] does not see the case of the selector: two
    selectors with the same lower-case form get the same answer and the
    same process on every list, and so does a selector and its lower-case
    form. *)
Theorem X3_selector_case_is_ignored os s1 s2 processes :
  lower s1 = lower s2 ->
  is_program_running os (JStr s1) processes =
  is_program_running os (JStr s2) processes /\
  is_program_running os (JStr (lower s1)) processes =
  is_program_running os (JStr s1) processes.
Proof.
  intros Heq. unfold is_program_running. cbn [truthy str_lower bind].
  rewrite lower_idempotent, nonempty_lower.
  rewrite <- (nonempty_lower s1), <- (nonempty_lower s2), Heq. done.
Qed.

Lemma X3_selector_case_is_ignored_witness :
  is_program_running Examples.game_window (JStr "ELDEN ring") None =
  is_program_running Examples.game_window (JStr "elden RING") None.
Proof.
  exact (proj1 (X3_selector_case_is_ignored Examples.game_window
                  "ELDEN ring" "elden RING" None eq_refl)).
Defined.

(** X4: the detection routine has no false positives: when it reports a
    selector as running, the selector is a case-insensitive substring of
    the title of some visible window or of the name of some running
    executable of the snapshot. *)
Theorem X4_detection_has_no_false_positive os selector :
  detected os selector = true ->
  existsb (ci_substring selector) (visible_titles os) = true \/
  existsb (ci_substring selector) (running_names os) = true.
Proof.
  intros H%detected_is_specified. by apply orb_true_iff in H.
Qed.

Lemma X4_detection_has_no_false_positive_witness :
  existsb (ci_substring "Elden") (visible_titles Examples.game_window) = true \/
  existsb (ci_substring "Elden") (running_names Examples.game_window) = true.
Proof.
  exact (X4_detection_has_no_false_positive Examples.game_window "Elden" eq_refl).
Defined.

(** ** Searching windows in the companion tool *)

(** The tool sees the windows the script sees, without their handles. *)
Lemma tool_windows os :
  Manager.get_visible_windows os =
  List.map (fun w => {| Manager.title := title w; Manager.win_pid := win_pid w |})
           (get_visible_windows os).
Proof.
  unfold Manager.get_visible_windows, get_visible_windows.
  induction (desktop os) as [|t ts IH]; [done|]. cbn [omap list_omap].
  unfold Manager.callback at 1, enum_callback at 1.
  destruct (visible t); [|done]. destruct (0 <? _); [|done].
  destruct (nonempty (text t)); [|done]. cbn [List.map]. by rewrite IH.
Qed.

(** X5: [search_windows] of the companion tool returns, in enumeration
    order and as often as they occur, exactly the visible windows whose
    lower-cased title or whose process name contains the lower-cased term,
    each with its process name, empty for a process the table does not
    list; when the script finds the term running as a process, the window
    of that process, with its title, process id and name, is among the
    matches (the converse fails: a second window of a process is found by
    the search only); and an empty term returns every visible window. *)
Theorem X5_search_windows_covers_detection os term :
  Manager.search_windows os term =
    List.map (fun w => (w, default "" (Manager.get_process_list os
                                         !! Manager.win_pid w)))
             (List.filter (found_by os term) (Manager.get_visible_windows os)) /\
  (forall p,
      is_program_running os (JStr term) None = Ok (true, Some p) ->
      In ({| Manager.title := window_title p; Manager.win_pid := pid p |}, name p)
         (Manager.search_windows os term)) /\
  List.map fst (Manager.search_windows os "") = Manager.get_visible_windows os.
Proof.
  assert (Manager.search_windows os term =
          List.map (fun w => (w, default "" (Manager.get_process_list os
                                               !! Manager.win_pid w)))
                   (List.filter (found_by os term) (Manager.get_visible_windows os)))
    as Heq.
  { unfold Manager.search_windows.
    induction (Manager.get_visible_windows os) as [|w ws IH]; [done|].
    cbn [omap list_omap List.filter]. unfold found_by at 1, ci_substring.
    destruct (_ || _)%bool; cbn [List.map]; by rewrite IH. }
  split; [done|]. split.
  - intros p. unfold is_program_running. cbn [truthy str_lower bind].
    destruct (nonempty term); cbn [negb]; [|done].
    intros [= Hfm]. apply first_match_In in Hfm as [Hin Hhit].
    apply detailed_loop_In in Hin as (b & win & a & Hsplit & _ & _ & ->).
    rewrite Heq. cbn [window_title pid name proc_of].
    apply (in_map (fun w => (w, default "" (Manager.get_process_list os
                                              !! Manager.win_pid w)))
                  _ {| Manager.title := title win; Manager.win_pid := win_pid win |}).
    apply filter_In. split.
    + rewrite tool_windows.
      apply (in_map (fun w => {| Manager.title := title w;
                                 Manager.win_pid := win_pid w |})).
      fold (get_visible_windows os) in Hsplit. rewrite Hsplit. apply in_elt.
    + exact Hhit.
  - clear Heq. unfold Manager.search_windows. cbn [lower].
    induction (Manager.get_visible_windows os) as [|w ws IH]; [done|].
    cbn. rewrite contains_empty. cbn. by rewrite IH.
Qed.

(** The window of the game found running is among the matches. *)
Lemma X5_search_windows_covers_detection_witness :
  In ({| Manager.title := "ELDEN RING"; Manager.win_pid := 31 |}, "eldenring.exe")
     (Manager.search_windows Examples.game_window "elden").
Proof.
  exact (proj1 (proj2 (X5_search_windows_covers_detection
                         Examples.game_window "elden"))
               {| name := "eldenring.exe"; pid := 31; window_title := "ELDEN RING";
                  hwnd := 3002; command_line := "" |} eq_refl).
Defined.

Example search_finds_second_window :
  List.map (fun m => Manager.title (fst m))
           (Manager.search_windows Examples.two_windows "hollow") =
  ["Hollow Knight"] /\
  detected Examples.two_windows "hollow" = false.
Proof. by vm_compute. Qed.

(** ** What [check_any_game_running] returns and what it touches *)

(** The entry and the process behind a game that [check_games] returns. *)
Lemma check_games_returned h os ps pre games w game p w' :
  check_games h os ps (length pre) games w = (Ok (Some game, p), w') ->
  exists i g q s en,
    (pre ++ games)%list !! i = Some g /\
    dict_get g "enabled" (JBool true) = Ok en /\ truthy en = true /\
    dict_get g "selector" (JStr "") = Ok (JStr s) /\ s <> "" /\
    first_match (lower s) ps = (true, Some q) /\ p = Some q /\
    try_extract_icon_for_game h i g q w = (Ok game, w').
Proof.
  revert pre. induction games as [|g games IH]; intros pre; cbn [check_games].
  { discriminate. }
  assert (check_games h os ps (S (length pre)) games w = (Ok (Some game, p), w') ->
          exists i g0 q s en,
            (pre ++ g :: games)%list !! i = Some g0 /\
            dict_get g0 "enabled" (JBool true) = Ok en /\ truthy en = true /\
            dict_get g0 "selector" (JStr "") = Ok (JStr s) /\ s <> "" /\
            first_match (lower s) ps = (true, Some q) /\ p = Some q /\
            try_extract_icon_for_game h i g0 q w = (Ok game, w')) as Hnext.
  { intros Hrest. specialize (IH (pre ++ [g])%list).
    rewrite length_app, Nat.add_1_r, <- app_assoc in IH. by apply IH. }
  destruct (dict_get g "enabled" (JBool true)) as [en|e] eqn:Hen; [|discriminate].
  destruct (truthy en) eqn:Htruthy; cbn [negb]; [|done].
  destruct (dict_get g "selector" (JStr "")) as [sel|e] eqn:Hsel; [|discriminate].
  destruct (truthy sel) eqn:Hts; [|done].
  unfold is_program_running. rewrite Hts. cbn [negb].
  destruct sel as [| | |s| |]; cbn [str_lower bind]; try discriminate.
  destruct (first_match (lower s) ps) as [[|] [q|]] eqn:Hfm; try discriminate;
    try done.
  destruct (try_extract_icon_for_game h (length pre) g q w) as [[g'|e] w1] eqn:Hx;
    [|discriminate].
  intros [= <- <- <-]. exists (length pre), g, q, s, en.
  split; [by rewrite list_lookup_middle|].
  repeat split; try done. by apply nonempty_true.
Qed.

Lemma check_games_nothing h os ps i games w p w' :
  check_games h os ps i games w = (Ok (None, p), w') -> p = None /\ w' = w.
Proof.
  revert i. induction games as [|g games IH]; intros i; cbn [check_games].
  { by intros [= <- <-]. }
  destruct (dict_get g "enabled" (JBool true)) as [en|e]; [|discriminate].
  destruct (truthy en); cbn [negb]; [|by apply IH].
  destruct (dict_get g "selector" (JStr "")) as [sel|e]; [|discriminate].
  destruct (truthy sel); [|by apply IH].
  destruct (is_program_running os sel (Some ps)) as [[[|] [q|]]|e];
    try discriminate; try by apply IH.
  by destruct (try_extract_icon_for_game h i g q w) as [[g'|e] w1].
Qed.

Lemma same_but_dict_get k kvs kvs' k' d :
  same_but k (JObj kvs) (JObj kvs') -> k' <> k ->
  dict_get (JObj kvs') k' d = dict_get (JObj kvs) k' d.
Proof.
  intros Hsame Hne. specialize (Hsame k' Hne). cbn in *.
  destruct (assoc k' kvs'), (assoc k' kvs); congruence.
Qed.

Lemma getitem_object game k x : getitem game k = Ok x -> exists kvs, game = JObj kvs.
Proof. destruct game; try discriminate. eauto. Qed.

(** X6: a game that [check_any_game_running] returns is enabled (its
    "enabled" entry is missing or true), has a selector that is a
    non-empty string, and comes with a process of the list whose
    lower-cased title or whose name contains the lower-cased selector;
    when no game is returned, no process is returned and nothing has
    changed.  This holds for every configuration, well-formed or not. *)
Theorem X6_returned_game_is_enabled_and_running h os processes w :
  (forall game p w',
      check_any_game_running h os processes w = (Ok (Some game, p), w') ->
      (exists en, dict_get game "enabled" (JBool true) = Ok en /\
                  truthy en = true) /\
      exists s q,
        dict_get game "selector" (JStr "") = Ok (JStr s) /\ s <> "" /\
        p = Some q /\
        In q (match processes with
              | Some ps => ps
              | None => get_processes_detailed os
              end) /\
        hit (lower s) q = true) /\
  (forall p w',
      check_any_game_running h os processes w = (Ok (None, p), w') ->
      p = None /\ w' = w).
Proof.
  unfold check_any_game_running.
  destruct (games_of (games_config w)) as [games|e]; [|split; intros; discriminate].
  split; [|intros p w'; apply check_games_nothing].
  intros game p w' Hret.
  destruct (check_games_returned h os _ [] games w game p w' Hret)
    as (i & g & q & s & en & _ & Hen & Htrue & Hsel & Hne & Hfm & -> & Hx).
  pose proof (try_extract_icon_same_but _ _ _ _ _ _ _ Hx) as Hsame.
  assert (truthy (JStr s) = true) as Hts by (by apply nonempty_true).
  pose proof (dict_get_truthy_getitem _ _ _ Hsel Hts) as Hgs.
  assert (getitem game "selector" = Ok (JStr s)) as Hgame
    by (by rewrite (Hsame "selector")).
  destruct (getitem_object _ _ _ Hgs) as [kvs ->].
  destruct (getitem_object _ _ _ Hgame) as [kvs' ->].
  split.
  - exists en. split; [|done].
    by rewrite (same_but_dict_get _ _ _ "enabled" _ Hsame).
  - exists s, q. split; [by apply getitem_dict_get|].
    split; [done|]. split; [done|]. by apply first_match_In.
Qed.

(** The game found on the desktop where it runs. *)
Lemma X6_returned_game_is_enabled_and_running_witness :
  exists s q,
    dict_get (Examples.game "Elden Ring" "elden ring"
                "C:\obs\icons\Elden_Ring.png" true)
             "selector" (JStr "") = Ok (JStr s) /\ s <> "" /\
    Some {| name := "eldenring.exe"; pid := 31; window_title := "ELDEN RING";
            hwnd := 3002; command_line := "" |} = Some q /\
    In q (get_processes_detailed Examples.game_window) /\
    hit (lower s) q = true.
Proof.
  refine (proj2 (proj1 (X6_returned_game_is_enabled_and_running
                          Examples.friendly Examples.game_window None
                          (Examples.loaded Examples.blank_first))
                   _ _ (check_any_game_running Examples.friendly
                          Examples.game_window None
                          (Examples.loaded Examples.blank_first)).2 _)).
  reflexivity.
Defined.

(** What [try_extract_icon_for_game] does to the configuration. *)
Lemma try_extract_icon_effect h i g q w r w' :
  try_extract_icon_for_game h i g q w = (r, w') ->
  match r with
  | Raise _ => games_config w' = games_config w /\ config_file w' = config_file w
  | Ok g' =>
      (g' = g /\ games_config w' = games_config w /\
       config_file w' = config_file w) \/
      (exists icon, setitem g "icon_path" (JStr icon) = Ok g' /\
         games_config w' = store_game i g' (games_config w) /\
         (config_file w' = config_file w \/
          config_file w' = Content (games_config w')) /\
         In icon (files w'))
  end.
Proof.
  unfold try_extract_icon_for_game.
  destruct (bind (dict_get g "icon_path" JNull) _) as [[|]|e].
  { intros [= <- <-]. by left. }
  2:{ by intros [= <- <-]. }
  assert (forall r1 w1, ensure_icons_dir h w = (r1, w1) ->
            games_config w1 = games_config w /\ config_file w1 = config_file w /\
            files w1 = files w) as Hdir.
  { unfold ensure_icons_dir. intros r1 w1.
    destruct (icons_dir w); [by intros [= <- <-]|].
    destruct (can_mkdir h); by intros [= <- <-]. }
  destruct (ensure_icons_dir h w) as [[?|e] w1] eqn:Hens;
    destruct (Hdir _ _ eq_refl) as (Hc & Hf & Hfiles).
  2:{ by intros [= <- <-]. }
  destruct (bind (getitem g "name") _) as [icon_path|e].
  2:{ by intros [= <- <-]. }
  destruct (_ && _)%bool.
  2:{ intros [= <- <-]. by left. }
  destruct (setitem g "icon_path" (JStr icon_path)) as [g'|e] eqn:Hset.
  2:{ by intros [= <- <-]. }
  intros [= <- <-]. right. exists icon_path. split; [done|].
  unfold save_config. destruct (can_write h); cbn; rewrite Hc.
  - split; [done|]. split; [by right|]. by left.
  - split; [done|]. split; [by left|]. by left.
Qed.

Lemma check_games_raise h os ps i games w e w' :
  check_games h os ps i games w = (Raise e, w') ->
  games_config w' = games_config w /\ config_file w' = config_file w.
Proof.
  revert i. induction games as [|g games IH]; intros i; cbn [check_games].
  { discriminate. }
  destruct (dict_get g "enabled" (JBool true)) as [en|e0]; [|by intros [= _ <-]].
  destruct (truthy en); cbn [negb]; [|by apply IH].
  destruct (dict_get g "selector" (JStr "")) as [sel|e0]; [|by intros [= _ <-]].
  destruct (truthy sel); [|by apply IH].
  destruct (is_program_running os sel (Some ps)) as [[[|] [q|]]|e0];
    try (by intros [= _ <-]); try by apply IH.
  destruct (try_extract_icon_for_game h i g q w) as [[g'|e0] w1] eqn:Hx;
    [discriminate|].
  intros [= _ <-]. exact (try_extract_icon_effect _ _ _ _ _ _ _ Hx).
Qed.

(** X7: [check_any_game_running] touches the configuration in one place
    only: when it returns a game, the games list is the old one with that
    game written at the position of one entry, from which it differs at
    most under "icon_path"; when it returns no game nothing at all has
    changed; when it raises, the configuration in memory and the
    configuration file are as before. *)
Theorem X7_detection_only_writes_the_icon h os processes w :
  match check_any_game_running h os processes w with
  | (Ok (Some game, _), w') =>
      exists i g,
        games_list (games_config w) !! i = Some g /\
        games_list (games_config w') = <[i := game]> (games_list (games_config w)) /\
        same_but "icon_path" g game
  | (Ok (None, _), w') => w' = w
  | (Raise _, w') =>
      games_config w' = games_config w /\ config_file w' = config_file w
  end.
Proof.
  destruct (check_any_game_running h os processes w) as [[[[game|] p]|e] w'] eqn:Hret.
  - revert Hret. unfold check_any_game_running.
    destruct (games_of (games_config w)) as [games|e] eqn:Hgames;
      [|intros ?; discriminate].
    intros Hret.
    destruct (check_games_returned h os _ [] games w game p w' Hret)
      as (i & g & q & s & en & Hi & Hen & _ & _ & _ & _ & _ & Hx).
    cbn [app] in Hi. exists i, g.
    assert (games_list (games_config w) = games) as ->
      by (unfold games_list; by rewrite Hgames).
    split; [done|]. split; [|by eapply try_extract_icon_same_but].
    destruct (try_extract_icon_effect _ _ _ _ _ _ _ Hx)
      as [(-> & Hc & _)|(icon & Hset & Hc & _)].
    + rewrite list_insert_id by done. unfold games_list. by rewrite Hc, Hgames.
    + destruct g as [| | | | |kvs0]; try discriminate.
      destruct (games_of_stored _ _ _ _ Hgames Hi) as (kvs & Hcfg & Hstored).
      rewrite Hc, Hcfg. unfold store_game. rewrite Hstored.
      unfold games_list. by rewrite games_of_store.
  - revert Hret. unfold check_any_game_running.
    destruct (games_of (games_config w)) as [games|e]; [|intros ?; discriminate].
    intros Hret. by apply check_games_nothing in Hret as [_ ->].
  - revert Hret. unfold check_any_game_running.
    destruct (games_of (games_config w)) as [games|e0]; [|by intros [= _ <-]].
    apply check_games_raise.
Qed.

Example detection_writes_the_icon :
  games_list (games_config
    (check_any_game_running Examples.friendly Examples.game_window None
       (Examples.loaded Examples.blank_first)).2) =
  [ Examples.game "Anything" "" "" true;
    Examples.game "Elden Ring" "elden ring" "C:\obs\icons\Elden_Ring.png" true ].
Proof. reflexivity. Qed.

(** ** Icons *)

(** X8: [try_extract_icon_for_game] keeps an icon that is there.  An
    entry whose "icon_path" names an existing file is left alone, and so
    is the rest of the world; a window handle of 0 never leads to an
    extraction; and when the entry comes back changed, its "icon_path" is
    the file [ICONS_DIR\<safe name>.png] made from its name, the window's
    icon was extracted to that file, the file exists afterwards, and a
    further call on the entry as it came back, for any process, changes
    nothing.  (Nothing keeps a later run from extracting again: the path
    is lost when [save_config] could not write it and the configuration
    is loaded anew.) *)
Theorem X8_existing_icon_is_kept h i game p w :
  (forall icon,
      dict_get game "icon_path" JNull = Ok (JStr icon) ->
      icon <> "" -> In icon (files w) ->
      try_extract_icon_for_game h i game p w = (Ok game, w)) /\
  (hwnd p = 0 ->
   forall game' w',
     try_extract_icon_for_game h i game p w = (Ok game', w') -> game' = game) /\
  (forall n game' w',
      getitem game "name" = Ok (JStr n) ->
      try_extract_icon_for_game h i game p w = (Ok game', w') ->
      game' = game \/
      (setitem game "icon_path" (JStr (icon_file h n)) = Ok game' /\
       extract_icon_from_window h (hwnd p) (icon_file h n) = true /\
       In (icon_file h n) (files w') /\
       forall i' p',
         try_extract_icon_for_game h i' game' p' w' = (Ok game', w'))).
Proof.
  assert (forall g icon w0 i0 p0,
             dict_get g "icon_path" JNull = Ok (JStr icon) ->
             icon <> "" -> In icon (files w0) ->
             try_extract_icon_for_game h i0 g p0 w0 = (Ok g, w0)) as Hkept.
  { intros g icon w0 i0 p0 Hicon Hne%nonempty_true Hin.
    unfold try_extract_icon_for_game.
    rewrite Hicon. cbn [bind truthy os_path_exists]. rewrite Hne.
    assert (existsb (String.eqb icon) (files w0) = true) as ->; [|done].
    apply existsb_exists. exists icon. split; [done|]. apply String.eqb_refl. }
  split; [|split].
  - intros icon. apply Hkept.
  - intros Hzero game' w'. unfold try_extract_icon_for_game.
    destruct (bind (dict_get game "icon_path" JNull) _) as [[|]|e];
      [by intros [= <- _]| |done].
    destruct (ensure_icons_dir h w) as [[?|e] w1]; [|done].
    destruct (bind (getitem game "name") _) as [icon_path|e]; [|done].
    rewrite Hzero. cbn. by intros [= <- _].
  - intros n game' w' Hname. unfold try_extract_icon_for_game.
    destruct (bind (dict_get game "icon_path" JNull) _) as [[|]|e];
      [intros [= <- _]; by left| |done].
    destruct (ensure_icons_dir h w) as [[?|e] w1]; [|done].
    rewrite Hname. cbn [bind].
    destruct (negb (hwnd p =? 0)); cbn [andb]; [|intros [= <- _]; by left].
    destruct (extract_icon_from_window h (hwnd p) (icon_file h n)) eqn:Hx;
      [|intros [= <- _]; by left].
    destruct (setitem game "icon_path" (JStr (icon_file h n))) as [g|e] eqn:Hset;
      [|done].
    intros [= <- <-]. right. split; [done|]. split; [done|].
    assert (In (icon_file h n)
              (files (save_config h
                        (set_games_config
                           (store_game i g
                              (games_config
                                 (set_files (icon_file h n :: files w1) w1)))
                           (set_files (icon_file h n :: files w1) w1))))) as Hin.
    { unfold save_config. destruct (can_write h); cbn; by left. }
    split; [done|]. intros i' p'.
    apply (Hkept g (icon_file h n));
      [|unfold icon_file; destruct (ICONS_DIR h); cbn; discriminate|done].
    destruct game as [| | | | |kvs]; try discriminate. injection Hset as <-.
    cbn. by rewrite assoc_set_eq.
Qed.

(** An entry that already has its icon. *)
Lemma X8_existing_icon_is_kept_witness :
  try_extract_icon_for_game Examples.friendly 0
    (Examples.game "Elden Ring" "elden ring" "C:\obs\icons\Elden_Ring.png" true)
    {| name := "eldenring.exe"; pid := 31; window_title := "ELDEN RING";
       hwnd := 3002; command_line := "" |}
    (set_files ["C:\obs\icons\Elden_Ring.png"] (Examples.loaded [])) =
  (Ok (Examples.game "Elden Ring" "elden ring" "C:\obs\icons\Elden_Ring.png" true),
   set_files ["C:\obs\icons\Elden_Ring.png"] (Examples.loaded [])).
Proof.
  apply (proj1 (X8_existing_icon_is_kept Examples.friendly 0
                  (Examples.game "Elden Ring" "elden ring"
                     "C:\obs\icons\Elden_Ring.png" true)
                  {| name := "eldenring.exe"; pid := 31;
                     window_title := "ELDEN RING"; hwnd := 3002;
                     command_line := "" |}
                  (set_files ["C:\obs\icons\Elden_Ring.png"] (Examples.loaded [])))
               "C:\obs\icons\Elden_Ring.png").
  - reflexivity.
  - discriminate.
  - left. reflexivity.
Defined.

(** A configuration that cannot be saved loses the icon path on the next
    load, and the icon is extracted again. *)
Example icon_is_extracted_again_after_a_reload :
  let p := {| name := "eldenring.exe"; pid := 31; window_title := "ELDEN RING";
              hwnd := 3002; command_line := "" |} in
  let h := {| can_write := false; fd_open := fun _ => false;
              can_remove := fun _ => true; can_mkdir := true;
              ICONS_DIR := "C:\obs\icons";
              extract_icon_from_window := fun _ _ => true;
              sub_unicode := fun s => s |} in
  let g := Examples.game "Elden Ring" "elden ring" "" true in
  let w1 := (try_extract_icon_for_game h 0 g p (Examples.loaded [g])).2 in
  games_list (games_config w1) =
    [Examples.game "Elden Ring" "elden ring" "C:\obs\icons\Elden_Ring.png" true] /\
  games_list (load_config h w1).1 = [g] /\
  files (try_extract_icon_for_game h 0 g p (load_config h w1).2).2 =
    ["C:\obs\icons\Elden_Ring.png"; "C:\obs\icons\Elden_Ring.png"].
Proof. by vm_compute. Qed.

Example safe_name_of_a_path :
  safe_name Examples.friendly "..\..\Windows: Half-Life 2" =
  "______Windows__Half-Life_2".
Proof. reflexivity. Qed.

(** ** The timer callback *)

(** The three ways a firing of the timer can end. *)
Lemma check_program_callback_cases h os active s w :
  let '(r, s', w') := check_program_callback h os active s w in
  (r = Ok [RecordingStart] /\
   active = false /\ is_recording_for_game s = false /\
   (exists game p, check_any_game_running h os None w = (Ok (Some game, p), w') /\
                   s' = set_recording true (Some game) s)) \/
  (r = Ok [RecordingStop] /\
   is_recording_for_game s = true /\
   (exists p, check_any_game_running h os None w = (Ok (None, p), w')) /\
   s' = set_recording false None s) \/
  ((r = Ok [] \/ exists e, r = Raise e) /\ s' = s).
Proof.
  unfold check_program_callback.
  destruct (check_any_game_running h os None w) as [[[game p]|e] w'] eqn:Hret.
  2:{ right. right. split; [right; by eexists|done]. }
  destruct (game_found game) eqn:Hfound; cbn [andb negb].
  - destruct active; cbn [andb negb].
    { right. right. split; [by left|done]. }
    destruct (is_recording_for_game s) eqn:Hrec; cbn [andb negb].
    { right. right. split; [by left|done]. }
    destruct game as [g|]; [|discriminate]. destruct p as [q|].
    + destruct (getitem g "name") as [n|e].
      * left. repeat split; try done. by exists g, (Some q).
      * right. right. split; [right; by eexists|done].
    + right. right. split; [right; by eexists|done].
  - destruct (is_recording_for_game s) eqn:Hrec; cbn [andb negb].
    2:{ right. right. split; [by left|done]. }
    assert (game = None) as ->.
    { destruct game as [g|]; [|done]. exfalso.
      revert Hret. unfold check_any_game_running.
      destruct (games_of (games_config w)) as [games|e]; [|intros ?; discriminate].
      intros (sel & Hsel & Hne)%check_games_selector.
      destruct g as [| | | | |kvs]; try discriminate.
      destruct kvs; [|discriminate]. cbn in Hsel. by injection Hsel as <-. }
    match goal with
    | |- context [match ?m with Ok _ => _ | Raise _ => _ end] =>
        destruct m as [n|e]
    end.
    + right. left. repeat split; try done. by exists p.
    + right. right. split; [right; by eexists|done].
Qed.

(** While the script holds a recording of its own, the callback does not
    look at what OBS reports. *)
Lemma callback_ignores_obs_while_recording h os active active' s w :
  is_recording_for_game s = true ->
  check_program_callback h os active' s w = check_program_callback h os active s w.
Proof.
  intros Hrec. unfold check_program_callback.
  destruct (check_any_game_running h os None w) as [[[game p]|e] w']; [|done].
  rewrite Hrec. cbn [negb]. by rewrite !andb_false_r.
Qed.

(** X10: one firing of [check_program_callback] sends at most one command.
    It starts a recording only when OBS reports none active, the script
    holds none of its own and [check_any_game_running] returned a game,
    which becomes the current game; it stops a recording only when the
    flag [is_recording_for_game] is set and no game is returned any more.
    While the flag is clear and OBS reports a recording, nothing is sent:
    a recording started by hand is then left alone.  While the flag is
    set the callback does not look at what OBS reports, so the stop is
    sent whoever started what is being recorded by then.  When nothing is
    sent, or the callback raises, the globals are as before; the settings
    and the interval are never touched. *)
Theorem X10_timer_callback_is_careful h os active s w :
  let '(r, s', w') := check_program_callback h os active s w in
  (length (catch r []) <= 1)%nat /\
  (In RecordingStart (catch r []) ->
   active = false /\ is_recording_for_game s = false /\
   is_recording_for_game s' = true /\
   exists game p,
     check_any_game_running h os None w = (Ok (Some game, p), w') /\
     current_game s' = Some game) /\
  (In RecordingStop (catch r []) ->
   is_recording_for_game s = true /\
   is_recording_for_game s' = false /\ current_game s' = None /\
   exists p, check_any_game_running h os None w = (Ok (None, p), w')) /\
  (catch r [] = [] -> s' = s) /\
  (is_recording_for_game s = false -> active = true -> catch r [] = [] /\ s' = s) /\
  (is_recording_for_game s = true ->
   forall active', check_program_callback h os active' s w = (r, s', w')) /\
  current_settings s' = current_settings s /\
  check_interval s' = check_interval s /\
  (consistent s -> consistent s').
Proof.
  pose proof (check_program_callback_cases h os active s w) as Hcases.
  pose proof (fun active' Hrec =>
                callback_ignores_obs_while_recording h os active active' s w Hrec)
    as Hsame.
  destruct (check_program_callback h os active s w) as [[r s'] w'].
  destruct Hcases as [(-> & Hact & Hrec & game & p & Hret & ->)
                     |[(-> & Hrec & [p Hret] & ->)
                      |([-> | [e ->]] & ->)]]; cbn [catch length In].
  - split; [lia|]. split; [intros _; repeat split; eauto|].
    split; [intros [?|[]]; discriminate|]. split; [discriminate|].
    split; [intros _ ?; congruence|]. split; [intros ?; congruence|].
    repeat split. intros _. by eexists.
  - split; [lia|]. split; [intros [?|[]]; discriminate|].
    split; [intros _; repeat split; eauto|]. split; [discriminate|].
    split; [intros ?; congruence|]. split; [by auto|]. repeat split.
  - split; [lia|]. split; [intros []|]. split; [intros []|].
    split; [done|]. split; [done|]. split; [by auto|]. by repeat split.
  - split; [lia|]. split; [intros []|]. split; [intros []|].
    split; [done|]. split; [done|]. split; [by auto|]. by repeat split.
Qed.

(** The game starts while nothing is being recorded. *)
Lemma X10_timer_callback_is_careful_witness :
  is_recording_for_game
    (check_program_callback Examples.friendly Examples.game_window false
       initial_script (Examples.loaded Examples.blank_first)).1.2 = true.
Proof.
  pose proof (X10_timer_callback_is_careful Examples.friendly Examples.game_window
                false initial_script (Examples.loaded Examples.blank_first)) as H.
  destruct (check_program_callback Examples.friendly Examples.game_window false
              initial_script (Examples.loaded Examples.blank_first))
    as [[r s'] w'] eqn:Hrun.
  assert (r = Ok [RecordingStart]) as -> by (by injection Hrun as <- _ _).
  destruct H as (_ & Hstart & _).
  destruct (Hstart (or_introl eq_refl)) as (_ & _ & Hrec & _). exact Hrec.
Defined.

(** The game starts and the script records; when the game has closed the
    script sends the stop whether OBS then reports a recording or not, and
    so also when the user has stopped the script's recording and started
    one by hand in between. *)
Example stop_is_sent_without_asking_obs :
  (run_timer Examples.friendly
     [ (Examples.game_window, false, Examples.loaded Examples.two_games);
       (Examples.game_window, true, Examples.loaded Examples.two_games);
       (Examples.background_game, true, Examples.loaded Examples.two_games) ]
     initial_script).1 = [RecordingStart; RecordingStop] /\
  (run_timer Examples.friendly
     [ (Examples.game_window, false, Examples.loaded Examples.two_games);
       (Examples.background_game, false, Examples.loaded Examples.two_games) ]
     initial_script).1 = [RecordingStart; RecordingStop].
Proof. by vm_compute. Qed.

Lemma run_timer_alternates h ticks s :
  alternates (is_recording_for_game s) (run_timer h ticks s).1 = true /\
  (consistent s -> consistent (run_timer h ticks s).2) /\
  (is_recording_for_game s = false ->
   Forall (fun tick => tick.1.2 = true) ticks ->
   run_timer h ticks s = ([], s)).
Proof.
  revert s. induction ticks as [|[[os active] w] ticks IH]; intros s.
  { cbn. by repeat split. }
  cbn [run_timer].
  pose proof (check_program_callback_cases h os active s w) as Hcases.
  destruct (check_program_callback h os active s w) as [[r s'] w'].
  destruct (IH s') as (Halt & Hcons & Hquiet).
  destruct (run_timer h ticks s') as [commands s''] eqn:Hrun. cbn [fst snd] in *.
  destruct Hcases as [(-> & Hact & Hrec & game & p & Hret & ->)
                     |[(-> & Hrec & [p Hret] & ->)
                      |(Hr & ->)]].
  - cbn [catch app alternates]. rewrite Hrec. cbn. split; [done|].
    split; [intros _; apply Hcons; by eexists|].
    intros _ Hall. apply Forall_cons in Hall as [Hall _]. cbn in Hall. congruence.
  - cbn [catch app alternates]. rewrite Hrec. cbn. split; [done|].
    split; [intros _; by apply Hcons|]. intros ?; congruence.
  - assert (catch r [] = []) as -> by (by destruct Hr as [->|[e ->]]).
    cbn [app]. split; [done|]. split; [done|].
    intros Hrec Hall. apply Forall_cons in Hall as [_ Hall].
    specialize (Hquiet Hrec Hall). congruence.
Qed.

(** X11: however often the timer fires, and whatever the system and the
    configuration look like each time, the commands the script sends to
    OBS take turns: from a script that holds no recording of its own they
    read start, stop, start, ..., never two starts or two stops in a row;
    the script keeps a current game exactly while it records; and as long
    as OBS reports a recording of its own as active and the script holds
    none, nothing is ever sent. *)
Theorem X11_starts_and_stops_take_turns h ticks s :
  alternates (is_recording_for_game s) (run_timer h ticks s).1 = true /\
  (consistent s -> consistent (run_timer h ticks s).2) /\
  (is_recording_for_game s = false ->
   Forall (fun tick => tick.1.2 = true) ticks ->
   run_timer h ticks s = ([], s)).
Proof. apply run_timer_alternates. Qed.

(** The game appears, stays for a firing and goes away. *)
Lemma X11_starts_and_stops_take_turns_witness :
  run_timer Examples.friendly
    [ (Examples.game_window, true, Examples.loaded Examples.two_games);
      (Examples.background_game, true, Examples.loaded Examples.two_games) ]
    initial_script = ([], initial_script).
Proof.
  apply (proj2 (proj2 (X11_starts_and_stops_take_turns Examples.friendly
           [ (Examples.game_window, true, Examples.loaded Examples.two_games);
             (Examples.background_game, true, Examples.loaded Examples.two_games) ]
           initial_script))).
  - reflexivity.
  - repeat constructor.
Defined.

Example game_comes_and_goes :
  (run_timer Examples.friendly
     [ (Examples.background_game, false, Examples.loaded Examples.two_games);
       (Examples.game_window, false, Examples.loaded Examples.two_games);
       (Examples.game_window, true, Examples.loaded Examples.two_games);
       (Examples.background_game, true, Examples.loaded Examples.two_games);
       (Examples.background_game, false, Examples.loaded Examples.two_games) ]
     initial_script).1 = [RecordingStart; RecordingStop].
Proof. reflexivity. Qed.

(** ** Adding, removing and enabling games *)

Lemma has_selector_well_formed selector game :
  well_formed game ->
  same_selector selector game =
    Ok (String.eqb (lower (selector_of game)) (lower selector)) /\
  has_selector selector game =
    String.eqb (lower (selector_of game)) (lower selector).
Proof.
  intros Hwf. unfold has_selector, same_selector.
  rewrite (well_formed_selector _ Hwf). done.
Qed.

Lemma game_record_well_formed name selector icon enabled :
  well_formed (game_record name selector icon enabled).
Proof.
  eexists. split; [reflexivity|]. split; [by eexists|].
  split; intros v [= <-]; by eexists.
Qed.

Lemma existsb_has_selector selector games :
  Forall well_formed games ->
  existsb (has_selector selector) games = true <->
  In (lower selector) (List.map (fun g => lower (selector_of g)) games).
Proof.
  intros Hwf. rewrite existsb_exists, in_map_iff. split.
  - intros (g & Hin & Hg). exists g. split; [|done].
    rewrite Forall_forall in Hwf.
    rewrite (proj2 (has_selector_well_formed selector g
                      (Hwf g (proj2 (list_elem_of_In _ _) Hin)))) in Hg.
    by apply String.eqb_eq in Hg.
  - intros (g & Heq & Hin). exists g. split; [done|].
    rewrite Forall_forall in Hwf.
    rewrite (proj2 (has_selector_well_formed selector g
                      (Hwf g (proj2 (list_elem_of_In _ _) Hin)))).
    by apply String.eqb_eq.
Qed.

(** [add_game] on a configuration object that holds a list of well-formed
    entries. *)
Lemma add_game_outcome h name selector enabled w kvs games :
  games_config w = JObj kvs ->
  assoc "games" kvs = Some (JArr games) ->
  Forall well_formed games ->
  add_game h name selector enabled w =
  if existsb (has_selector selector) games
  then (Ok (false, "Game with this selector already exists"), w)
  else (Ok (true, "Game added successfully"),
        save_config h
          (set_games_config
             (JObj (assoc_set "games"
                      (JArr (games ++ [game_record name selector ""
                                         (default true enabled)])) kvs)) w)).
Proof.
  intros Hcfg Hassoc Hwf.
  assert (games_of (games_config w) = Ok games) as Hgames.
  { rewrite Hcfg. unfold games_of. cbn. by rewrite Hassoc. }
  destruct (existsb (has_selector selector) games) eqn:Hdup.
  { by eapply add_game_rejects_duplicate. }
  unfold add_game. rewrite Hgames. cbn [bind].
  destruct (first_with_selector_total selector 0 games
              (well_formed_comparable _ _ Hwf)) as (found & Hfound & _).
  rewrite Hfound. destruct found as [[i g]|].
  - apply first_with_selector_Some in Hfound as (k & _ & Hk & Hsame).
    assert (existsb (has_selector selector) games = true); [|congruence].
    apply existsb_exists. exists g. split.
    + apply list_elem_of_In. by eapply list_elem_of_lookup_2.
    + by rewrite (has_selector_ok _ _ _ Hsame).
  - rewrite Hcfg. cbn [getitem bind]. rewrite Hassoc. done.
Qed.

(** X12: on a configuration whose games are well-formed, [add_game] either
    finds the selector taken, up to case, answers (False, "Game with this
    selector already exists") and changes nothing, or answers (True, "Game
    added successfully") and the games list is the old one followed by the
    new record; either way the selector is taken afterwards, the entries
    are still well-formed, and selectors that were pairwise distinct up to
    case still are. *)
Theorem X12_add_game_keeps_selectors_distinct
        h name selector enabled w kvs games :
  games_config w = JObj kvs ->
  assoc "games" kvs = Some (JArr games) ->
  Forall well_formed games ->
  let run := add_game h name selector enabled w in
  let after := games_list (games_config run.2) in
  (if existsb (has_selector selector) games
   then run = (Ok (false, "Game with this selector already exists"), w)
   else run.1 = Ok (true, "Game added successfully") /\
        after = (games ++ [game_record name selector "" (default true enabled)])%list) /\
  existsb (has_selector selector) after = true /\
  Forall well_formed after /\
  (distinct_selectors games -> distinct_selectors after).
Proof.
  intros Hcfg Hassoc Hwf. cbn zeta.
  rewrite (add_game_outcome h name selector enabled w kvs games Hcfg Hassoc Hwf).
  assert (games_list (games_config w) = games) as Hlist.
  { unfold games_list, games_of. rewrite Hcfg. cbn. by rewrite Hassoc. }
  destruct (existsb (has_selector selector) games) eqn:Hdup; cbn [fst snd].
  { rewrite Hlist. by repeat split. }
  assert (games_list
            (games_config
               (save_config h
                  (set_games_config
                     (JObj (assoc_set "games"
                              (JArr (games ++ [game_record name selector ""
                                                 (default true enabled)])) kvs)) w))) =
          (games ++ [game_record name selector "" (default true enabled)])%list) as ->.
  { unfold save_config. destruct (can_write h); cbn;
      unfold games_list; by rewrite games_of_store. }
  split; [done|].
  assert (Forall well_formed
            (games ++ [game_record name selector "" (default true enabled)])) as Hwf'.
  { apply Forall_app. split; [done|]. constructor; [|done].
    apply game_record_well_formed. }
  split; [|split; [done|]].
  - apply existsb_has_selector; [done|]. rewrite map_app.
    apply in_or_app. right. by left.
  - unfold distinct_selectors. rewrite map_app. cbn [List.map].
    intros Hnodup. apply NoDup_app. split; [done|]. split.
    + intros x Hx [<-|[]]%list_elem_of_In. apply list_elem_of_In in Hx.
      change (selector_of (game_record name selector "" (default true enabled)))
        with selector in Hx.
      apply (existsb_has_selector selector games Hwf) in Hx. congruence.
    + apply NoDup_singleton.
Qed.

(** Adding "Hades" to two games. *)
Lemma X12_add_game_keeps_selectors_distinct_witness :
  existsb (has_selector "hades")
    (games_list (games_config
       (add_game Examples.friendly "Hades" "hades" None
          (Examples.loaded Examples.two_games)).2)) = true.
Proof.
  refine (proj1 (proj2 (X12_add_game_keeps_selectors_distinct Examples.friendly
                          "Hades" "hades" None (Examples.loaded Examples.two_games)
                          [("games", JArr Examples.two_games)] Examples.two_games
                          eq_refl eq_refl _))).
  solve_well_formed.
Defined.

Lemma filter_app_last {A} (f : A -> bool) l x :
  Forall (fun y => f y = true) l -> f x = false ->
  List.filter f (l ++ [x]) = l.
Proof.
  intros Hall Hx. rewrite List.filter_app. cbn. rewrite Hx.
  by rewrite app_nil_r, filter_all_kept.
Qed.

(** X13: adding a game and removing it again gives back the games list:
    on a configuration of well-formed entries none of which has the
    selector, [remove_game(selector)] after [add_game(name, selector)]
    returns and leaves the list as it was before the two calls. *)
Theorem X13_remove_undoes_add h name selector enabled w kvs games :
  games_config w = JObj kvs ->
  assoc "games" kvs = Some (JArr games) ->
  Forall well_formed games ->
  existsb (has_selector selector) games = false ->
  let w1 := (add_game h name selector enabled w).2 in
  (remove_game h selector w1).1 = Ok tt /\
  games_list (games_config (remove_game h selector w1).2) = games.
Proof.
  intros Hcfg Hassoc Hwf Hnew. cbn zeta.
  rewrite (add_game_outcome h name selector enabled w kvs games Hcfg Hassoc Hwf), Hnew.
  cbn [snd].
  set (w1 := save_config h _).
  assert (games_config w1 =
          JObj (assoc_set "games"
                  (JArr (games ++ [game_record name selector ""
                                     (default true enabled)])) kvs)) as Hcfg1
    by (unfold w1, save_config; by destruct (can_write h)).
  assert (games_of (games_config w1) =
          Ok (games ++ [game_record name selector "" (default true enabled)])%list)
    as Hgames1 by (by rewrite Hcfg1, games_of_store).
  assert (Forall well_formed
            (games ++ [game_record name selector "" (default true enabled)])) as Hwf1.
  { apply Forall_app. split; [done|]. constructor; [|done].
    apply game_record_well_formed. }
  destruct (remove_game_returns h selector w1 _ _ Hcfg1 Hgames1 Hwf1) as [w2 Hret].
  rewrite Hret. cbn [fst snd]. split; [done|].
  destruct (remove_game_Ok _ _ _ _ Hret) as (l & kept & Hl & Hkept & Hafter).
  rewrite Hgames1 in Hl. injection Hl as <-.
  unfold games_list. rewrite Hafter. cbn [catch].
  destruct (without_selector_filter _ _ _ Hkept) as [-> _].
  apply filter_app_last.
  - apply Forall_forall. intros g Hg.
    assert (has_selector selector g = false) as ->; [|done].
    destruct (has_selector selector g) eqn:Hsel; [|done].
    assert (existsb (has_selector selector) games = true); [|congruence].
    apply existsb_exists. exists g. split; [by apply list_elem_of_In|done].
  - rewrite (proj2 (has_selector_well_formed _ _
                      (game_record_well_formed name selector ""
                         (default true enabled)))).
    change (selector_of (game_record name selector "" (default true enabled)))
      with selector.
    by rewrite String.eqb_refl.
Qed.

Lemma X13_remove_undoes_add_witness :
  games_list (games_config
    (remove_game Examples.friendly "HADES"
       (add_game Examples.friendly "Hades" "HADES" None
          (Examples.loaded Examples.two_games)).2).2) = Examples.two_games.
Proof.
  refine (proj2 (X13_remove_undoes_add Examples.friendly "Hades" "HADES" None
                   (Examples.loaded Examples.two_games)
                   [("games", JArr Examples.two_games)] Examples.two_games
                   eq_refl eq_refl _ eq_refl)).
  solve_well_formed.
Defined.

(** ** Saving that fails, loading twice *)

(** X14: [save_config] never raises and never changes the configuration
    in memory; where the file cannot be written it leaves the file as it
    was.  [add_game] does not notice: it still answers (True, "Game added
    successfully"), the new entry is in memory only, and the next
    [load_config] brings back the list of the file, without it. *)
Theorem X14_unsaved_add_is_lost_on_reload h name selector enabled w kvs games :
  can_write h = false ->
  games_config w = JObj kvs ->
  assoc "games" kvs = Some (JArr games) ->
  config_file w = Content (games_config w) ->
  Forall well_formed games ->
  existsb (has_selector selector) games = false ->
  save_config h w = w /\
  let run := add_game h name selector enabled w in
  run.1 = Ok (true, "Game added successfully") /\
  config_file run.2 = config_file w /\
  games_list (games_config run.2) =
    (games ++ [game_record name selector "" (default true enabled)])%list /\
  games_list (load_config h run.2).1 = games.
Proof.
  intros Hcw Hcfg Hassoc Hfile Hwf Hnew.
  split; [unfold save_config; by rewrite Hcw|]. cbn zeta.
  rewrite (add_game_outcome h name selector enabled w kvs games Hcfg Hassoc Hwf), Hnew.
  unfold save_config. rewrite Hcw. cbn [fst snd set_games_config config_file games_config].
  split; [done|]. split; [done|]. split.
  - unfold games_list. by rewrite games_of_store.
  - unfold load_config. cbn [config_file set_games_config]. rewrite Hfile, Hcfg.
    cbn [py_in bind]. rewrite Hassoc. cbn.
    unfold games_list, games_of. cbn. by rewrite Hassoc.
Qed.

Lemma X14_unsaved_add_is_lost_on_reload_witness :
  games_list
    (load_config Examples.read_only
       (add_game Examples.read_only "Hades" "hades" None
          (Examples.loaded Examples.two_games)).2).1 = Examples.two_games.
Proof.
  refine (proj2 (proj2 (proj2 (proj2
            (X14_unsaved_add_is_lost_on_reload Examples.read_only "Hades" "hades"
               None (Examples.loaded Examples.two_games)
               [("games", JArr Examples.two_games)] Examples.two_games
               eq_refl eq_refl eq_refl eq_refl _ eq_refl))))).
  solve_well_formed.
Defined.

(** X15: [load_config] of the script is idempotent: a second call returns
    the same configuration and leaves everything as the first call left
    it.  It writes the file only when the file is absent (and can be
    written); a file that is there is never rewritten by loading, not
    even when "games" had to be added to what it holds. *)
Theorem X15_load_config_is_idempotent h w :
  load_config h (load_config h w).2 = load_config h w /\
  (config_file w <> Absent -> config_file (load_config h w).2 = config_file w) /\
  (config_file w = Absent ->
   config_file (load_config h w).2 =
     if can_write h then Content (JObj [("games", JArr [])]) else Absent).
Proof.
  split; [|split].
  - unfold load_config at 2 3. destruct (config_file w) as [| |v] eqn:Hfile.
    + unfold save_config. destruct (can_write h) eqn:Hcw; cbn [snd].
      * reflexivity.
      * unfold load_config. cbn [config_file set_games_config].
        rewrite Hfile. unfold save_config. by rewrite Hcw.
    + unfold load_config. cbn [snd config_file set_games_config].
      by rewrite Hfile.
    + destruct (bind (py_in "games" v) _) as [v'|e] eqn:Hv;
        unfold load_config; cbn [snd config_file set_games_config];
        by rewrite Hfile, Hv.
  - intros Hpresent. unfold load_config.
    destruct (config_file w) as [| |v] eqn:Hfile; [done|done|].
    by destruct (bind (py_in "games" v) _).
  - intros Habsent. unfold load_config. rewrite Habsent.
    unfold save_config. destruct (can_write h); cbn; [done|].
    done.
Qed.

Lemma X15_load_config_is_idempotent_witness :
  config_file (load_config Examples.friendly (Examples.facing Absent)).2 =
  Content (JObj [("games", JArr [])]).
Proof.
  exact (proj2 (proj2 (X15_load_config_is_idempotent Examples.friendly
                         (Examples.facing Absent))) eq_refl).
Defined.

(** X16: [add_game] needs the key "games": on a configuration object
    without it the duplicate check passes over an empty list and the
    append raises [KeyError], nothing being changed.  After [load_config]
    this cannot happen: when the file is absent, unreadable, or holds an
    object whose "games" entry, if any, is a list of well-formed entries,
    [add_game] on what [load_config] leaves always returns. *)
Theorem X16_add_game_after_load_config h name selector enabled w :
  (forall kvs, games_config w = JObj kvs -> assoc "games" kvs = None ->
               add_game h name selector enabled w = (Raise KeyError, w)) /\
  ((config_file w = Absent \/ config_file w = Unreadable \/
    exists kvs, config_file w = Content (JObj kvs) /\
                (assoc "games" kvs = None \/
                 exists games, assoc "games" kvs = Some (JArr games) /\
                               Forall well_formed games)) ->
   exists answer, (add_game h name selector enabled (load_config h w).2).1 = Ok answer).
Proof.
  split.
  - intros kvs Hcfg Hassoc. unfold add_game, games_of. rewrite Hcfg.
    cbn. by rewrite Hassoc.
  - assert (forall w1 kvs games,
              games_config w1 = JObj kvs -> assoc "games" kvs = Some (JArr games) ->
              Forall well_formed games ->
              exists answer, (add_game h name selector enabled w1).1 = Ok answer)
      as Hadd.
    { intros w1 kvs games Hcfg Hassoc Hwf.
      rewrite (add_game_outcome h name selector enabled w1 kvs games Hcfg Hassoc Hwf).
      destruct (existsb _ games); by eexists. }
    intros [Hfile|[Hfile|(kvs & Hfile & Hgames)]].
    + apply (Hadd _ [("games", JArr [])] []); [|done|done].
      unfold load_config. rewrite Hfile. unfold save_config.
      by destruct (can_write h).
    + apply (Hadd _ [("games", JArr [])] []); [|done|done].
      unfold load_config. by rewrite Hfile.
    + destruct Hgames as [Hnone|(games & Hassoc & Hwf)].
      * apply (Hadd _ (assoc_set "games" (JArr []) kvs) []);
          [|apply assoc_set_eq|done].
        unfold load_config. rewrite Hfile. cbn. by rewrite Hnone.
      * apply (Hadd _ kvs games); [|done|done].
        unfold load_config. rewrite Hfile. cbn. by rewrite Hassoc.
Qed.

Lemma X16_add_game_after_load_config_witness :
  add_game Examples.friendly "Hades" "hades" None
    (set_games_config (JObj [("version", JNum 2)]) (Examples.loaded [])) =
  (Raise KeyError,
   set_games_config (JObj [("version", JNum 2)]) (Examples.loaded [])).
Proof.
  exact (proj1 (X16_add_game_after_load_config Examples.friendly "Hades" "hades"
                  None (set_games_config (JObj [("version", JNum 2)])
                          (Examples.loaded [])))
           [("version", JNum 2)] eq_refl eq_refl).
Defined.

(** ** Enabling and disabling *)

Lemma first_with_selector_first selector i0 games i game :
  first_with_selector selector i0 games = Ok (Some (i, game)) ->
  exists k,
    i = (i0 + k)%nat /\ games !! k = Some game /\
    same_selector selector game = Ok true /\
    forall j g, (j < k)%nat -> games !! j = Some g ->
                same_selector selector g = Ok false.
Proof.
  revert i0. induction games as [|g games IH]; intros i0; cbn; [done|].
  destruct (same_selector selector g) as [[|]|e] eqn:Hg; cbn; [| |done].
  - intros [= <- <-]. exists 0%nat. rewrite Nat.add_0_r.
    repeat split; try done. intros j g' Hj. lia.
  - intros Hrest. destruct (IH _ Hrest) as (k & -> & Hk & Hsame & Hbefore).
    exists (S k). split; [lia|]. split; [done|]. split; [done|].
    intros [|j] g' Hj; cbn; [by intros [= <-]|]. apply Hbefore. lia.
Qed.

(** [set_game_enabled] on a configuration object that holds a list of
    well-formed entries. *)
Lemma set_game_enabled_outcome h selector enabled w kvs games :
  games_config w = JObj kvs ->
  assoc "games" kvs = Some (JArr games) ->
  Forall well_formed games ->
  (existsb (has_selector selector) games = false /\
   set_game_enabled h selector enabled w = (Ok false, w)) \/
  (exists i kvs0,
      games !! i = Some (JObj kvs0) /\
      has_selector selector (JObj kvs0) = true /\
      (forall j g, (j < i)%nat -> games !! j = Some g ->
                   has_selector selector g = false) /\
      set_game_enabled h selector enabled w =
      (Ok true,
       save_config h
         (set_games_config
            (JObj (assoc_set "games"
                     (JArr (<[i := JObj (assoc_set "enabled" (JBool enabled) kvs0)]>
                              games)) kvs)) w))).
Proof.
  intros Hcfg Hassoc Hwf.
  assert (games_of (games_config w) = Ok games) as Hgames.
  { rewrite Hcfg. unfold games_of. cbn. by rewrite Hassoc. }
  unfold set_game_enabled. rewrite Hgames. cbn [bind].
  destruct (first_with_selector_total selector 0 games
              (well_formed_comparable _ _ Hwf)) as (found & Hfound & Hdup).
  rewrite Hfound. destruct found as [[i g]|]; cbn [bind].
  - right. apply first_with_selector_first in Hfound
      as (k & -> & Hk & Hsame & Hbefore).
    destruct (same_selector_object _ _ _ Hsame) as [kvs0 ->].
    exists k, kvs0. split; [done|].
    split; [by rewrite (has_selector_ok _ _ _ Hsame)|]. split.
    + intros j g Hj Hg. by rewrite (has_selector_ok _ _ _ (Hbefore j g Hj Hg)).
    + cbn [setitem bind]. change (0 + k)%nat with k.
      rewrite Hcfg. unfold store_game. by rewrite Hassoc.
  - left. split; [|done].
    destruct (existsb (has_selector selector) games); [|done].
    by destruct (Hdup eq_refl).
Qed.

(** X17: on a configuration whose games are well-formed,
    [set_game_enabled] answers False and changes nothing when no entry has
    the selector, up to case; otherwise it answers True, and the first
    entry with the selector, and no other, now holds the given flag under
    "enabled", which is what [check_any_game_running] will read; the file
    is rewritten when it can be. *)
Theorem X17_set_game_enabled_sets_the_first_match
        h selector enabled w kvs games :
  games_config w = JObj kvs ->
  assoc "games" kvs = Some (JArr games) ->
  Forall well_formed games ->
  let run := set_game_enabled h selector enabled w in
  let after := games_list (games_config run.2) in
  (existsb (has_selector selector) games = false -> run = (Ok false, w)) /\
  (existsb (has_selector selector) games = true ->
   run.1 = Ok true /\
   exists i g g',
     games !! i = Some g /\ after = <[i := g']> games /\
     has_selector selector g = true /\
     (forall j gj, (j < i)%nat -> games !! j = Some gj ->
                   has_selector selector gj = false) /\
     same_but "enabled" g g' /\ enabled_of g' = enabled /\
     (can_write h = true -> config_file run.2 = Content (games_config run.2))).
Proof.
  intros Hcfg Hassoc Hwf. cbn zeta.
  destruct (set_game_enabled_outcome h selector enabled w kvs games Hcfg Hassoc Hwf)
    as [[Hnone ->]|(i & kvs0 & Hi & Hsel & Hfirst & ->)].
  - split; [done|]. intros Hsome. congruence.
  - split.
    + intros Hnone. exfalso.
      assert (existsb (has_selector selector) games = true); [|congruence].
      apply existsb_exists. exists (JObj kvs0). split; [|done].
      apply list_elem_of_In. by eapply list_elem_of_lookup_2.
    + intros _. cbn [fst snd]. split; [done|].
      exists i, (JObj kvs0), (JObj (assoc_set "enabled" (JBool enabled) kvs0)).
      split; [done|]. split.
      { unfold save_config. destruct (can_write h); cbn;
          unfold games_list; by rewrite games_of_store. }
      split; [done|]. split; [done|]. split.
      { by apply (setitem_same_but (JObj kvs0) "enabled" (JBool enabled)). }
      split.
      { unfold enabled_of. cbn. rewrite assoc_set_eq. by destruct enabled. }
      intros Hcw. unfold save_config. by rewrite Hcw.
Qed.

Lemma X17_set_game_enabled_sets_the_first_match_witness :
  set_game_enabled Examples.friendly "hades" false
    (Examples.loaded Examples.two_games) =
  (Ok false, Examples.loaded Examples.two_games).
Proof.
  refine (proj1 (X17_set_game_enabled_sets_the_first_match Examples.friendly
                   "hades" false (Examples.loaded Examples.two_games)
                   [("games", JArr Examples.two_games)] Examples.two_games
                   eq_refl eq_refl _) eq_refl).
  solve_well_formed.
Defined.

Lemma NoDup_map_lookup {A B} (f : A -> B) (l : list A) i j x y :
  NoDup (List.map f l) -> l !! i = Some x -> l !! j = Some y -> f x = f y -> i = j.
Proof.
  revert i j. induction l as [|a l IH]; intros i j Hnd Hi Hj Hf; [done|].
  cbn in Hnd. apply NoDup_cons in Hnd as [Hnotin Hnd].
  destruct i as [|i], j as [|j]; cbn in Hi, Hj.
  - done.
  - injection Hi as ->. exfalso. apply Hnotin. rewrite Hf.
    apply list_elem_of_In, in_map, list_elem_of_In. by eapply list_elem_of_lookup_2.
  - injection Hj as ->. exfalso. apply Hnotin. rewrite <- Hf.
    apply list_elem_of_In, in_map, list_elem_of_In. by eapply list_elem_of_lookup_2.
  - f_equal. by eapply IH.
Qed.

(** The entry behind a game that [check_any_game_running] returns. *)
Lemma returned_game_entry h os processes w games game p w' selector :
  games_of (games_config w) = Ok games ->
  check_any_game_running h os processes w = (Ok (Some game, p), w') ->
  exists j g,
    games !! j = Some g /\
    enabled_of g = true /\
    has_selector selector game = has_selector selector g.
Proof.
  intros Hgames. unfold check_any_game_running. rewrite Hgames. intros Hret.
  destruct (check_games_returned h os _ [] games w game p w' Hret)
    as (j & g & q & s & en & Hj & Hen & Htrue & Hsel & Hne & _ & _ & Hx).
  cbn [app] in Hj. exists j, g. split; [done|].
  pose proof (try_extract_icon_same_but _ _ _ _ _ _ _ Hx) as Hsame.
  assert (truthy (JStr s) = true) as Hts by (by apply nonempty_true).
  pose proof (dict_get_truthy_getitem _ _ _ Hsel Hts) as Hgs.
  assert (getitem game "selector" = Ok (JStr s)) as Hgame
    by (by rewrite (Hsame "selector")).
  destruct (getitem_object _ _ _ Hgs) as [kvs ->].
  destruct (getitem_object _ _ _ Hgame) as [kvs' ->].
  split.
  - unfold enabled_of. by rewrite Hen.
  - unfold has_selector, same_selector.
    by rewrite (same_but_dict_get _ _ _ "selector" _ Hsame).
Qed.

(** X18: a game that was disabled is not detected any more: on a
    configuration of well-formed entries with pairwise distinct selectors,
    after [set_game_enabled(selector, False)] no call of
    [check_any_game_running] returns an entry with that selector, whatever
    runs on the system. *)
Theorem X18_disabled_game_is_not_detected h selector w kvs games :
  games_config w = JObj kvs ->
  assoc "games" kvs = Some (JArr games) ->
  Forall well_formed games ->
  distinct_selectors games ->
  forall os processes game p w2,
    check_any_game_running h os processes
      (set_game_enabled h selector false w).2 = (Ok (Some game, p), w2) ->
    has_selector selector game = false.
Proof.
  intros Hcfg Hassoc Hwf Hdistinct os processes game p w2.
  destruct (set_game_enabled_outcome h selector false w kvs games Hcfg Hassoc Hwf)
    as [[Hnone ->]|(i & kvs0 & Hi & Hsel & Hfirst & ->)]; cbn [snd]; intros Hret.
  - assert (games_of (games_config w) = Ok games) as Hgames.
    { rewrite Hcfg. unfold games_of. cbn. by rewrite Hassoc. }
    destruct (returned_game_entry _ _ _ _ _ _ _ _ selector Hgames Hret)
      as (j & g & Hj & _ & ->).
    destruct (has_selector selector g) eqn:Hg; [|done].
    assert (existsb (has_selector selector) games = true); [|congruence].
    apply existsb_exists. exists g. split; [|done].
    apply list_elem_of_In. by eapply list_elem_of_lookup_2.
  - assert (games_of (games_config
              (save_config h
                 (set_games_config
                    (JObj (assoc_set "games"
                             (JArr (<[i := JObj (assoc_set "enabled" (JBool false) kvs0)]>
                                      games)) kvs)) w))) =
            Ok (<[i := JObj (assoc_set "enabled" (JBool false) kvs0)]> games))
      as Hgames.
    { unfold save_config. destruct (can_write h); cbn; apply games_of_store. }
    destruct (returned_game_entry _ _ _ _ _ _ _ _ selector Hgames Hret)
      as (j & g & Hj & Hen & ->).
    destruct (decide (j = i)) as [->|Hne].
    + rewrite list_lookup_insert_eq in Hj by (by eapply lookup_lt_Some).
      injection Hj as <-. unfold enabled_of in Hen. cbn in Hen.
      rewrite assoc_set_eq in Hen. discriminate.
    + rewrite list_lookup_insert_ne in Hj by done.
      destruct (has_selector selector g) eqn:Hg; [|done]. exfalso. apply Hne.
      rewrite Forall_forall in Hwf.
      assert (well_formed g) as Hwg by (apply Hwf; by eapply list_elem_of_lookup_2).
      assert (well_formed (JObj kvs0)) as Hw0
        by (apply Hwf; by eapply list_elem_of_lookup_2).
      rewrite (proj2 (has_selector_well_formed selector _ Hwg)) in Hg.
      rewrite (proj2 (has_selector_well_formed selector _ Hw0)) in Hsel.
      apply String.eqb_eq in Hg, Hsel.
      eapply (NoDup_map_lookup _ games j i); [exact Hdistinct|done|done|].
      cbn. congruence.
Qed.

(** With "hollow" disabled, the game found running is another one. *)
Lemma X18_disabled_game_is_not_detected_witness :
  has_selector "hollow"
    (Examples.game "Elden Ring" "elden ring" (icon_file Examples.friendly "Elden Ring")
       true) = false.
Proof.
  refine (X18_disabled_game_is_not_detected Examples.friendly "hollow"
            (Examples.loaded Examples.two_games)
            [("games", JArr Examples.two_games)] Examples.two_games
            eq_refl eq_refl _ _ Examples.game_window None
            (Examples.game "Elden Ring" "elden ring"
               (icon_file Examples.friendly "Elden Ring") true)
            (Some {| name := "eldenring.exe"; pid := 31;
                     window_title := "ELDEN RING"; hwnd := 3002;
                     command_line := "" |})
            (check_any_game_running Examples.friendly Examples.game_window None
               (set_game_enabled Examples.friendly "hollow" false
                  (Examples.loaded Examples.two_games)).2).2
            eq_refl).
  - solve_well_formed.
  - unfold distinct_selectors. cbn. repeat constructor.
    + intros [H|[]]%list_elem_of_In. discriminate H.
    + intros []%list_elem_of_In.
Defined.

Example disabled_game_gives_nothing :
  (check_any_game_running Examples.friendly Examples.game_window None
     (set_game_enabled Examples.friendly "Elden Ring" false
        (Examples.loaded Examples.two_games)).2).1 = Ok (None, None).
Proof. reflexivity. Qed.

(** ** The buttons of the OBS panel *)

Lemma first_candidate_cases m ws :
  (exists before win after,
      ws = (before ++ win :: after)%list /\
      Forall (fun u => is_system_window m u = true) before /\
      is_system_window m win = false /\
      first_candidate m ws = Some (title win)) \/
  (Forall (fun u => is_system_window m u = true) ws /\
   first_candidate m ws = None).
Proof.
  induction ws as [|w ws IH]; [right; by split|].
  cbn [first_candidate].
  destruct (existsb (String.eqb (default "" (m !! win_pid w))) system_procs) eqn:Hp.
  { assert (is_system_window m w = true) as Hw
      by (unfold is_system_window; by rewrite Hp).
    destruct IH as [(b & win & a & -> & Hb & Hwin & ->)|[Hall ->]].
    - left. exists (w :: b), win, a. repeat split; try done. by constructor.
    - right. split; [by constructor|done]. }
  destruct (existsb (fun t => contains t (lower (title w))) system_titles) eqn:Ht.
  { assert (is_system_window m w = true) as Hw
      by (unfold is_system_window; by rewrite Hp, Ht).
    destruct IH as [(b & win & a & -> & Hb & Hwin & ->)|[Hall ->]].
    - left. exists (w :: b), win, a. repeat split; try done. by constructor.
    - right. split; [by constructor|done]. }
  left. exists [], w, ws. repeat split; try done.
  unfold is_system_window. by rewrite Hp, Ht.
Qed.

Lemma visible_window_title os win :
  In win (get_visible_windows os) -> title win <> "".
Proof.
  intros (t & _ & [[_ Htext] ->]%enum_callback_Some)%list_elem_of_In%list_elem_of_omap.
  done.
Qed.

(** X19: the button "Detect Running Game" does nothing without settings.
    With settings it always answers True and touches nothing but the field
    "new_game_selector", which becomes a non-empty title of a visible
    window: the title of the first window, in enumeration order, that
    belongs to none of the listed system programs and has none of the
    listed system words in its lower-cased title, or, when every window is
    such a system window, the title of the very first window; when no
    window is visible nothing changes. *)
Theorem X19_detect_button_proposes_a_visible_title os s :
  (current_settings s = None -> on_detect_running_clicked os s = (false, s)) /\
  (forall settings,
      current_settings s = Some settings ->
      let run := on_detect_running_clicked os s in
      let windows := get_visible_windows os in
      let m := get_process_list os in
      run.1 = true /\
      (windows = [] -> run.2 = s) /\
      (windows <> [] ->
       exists win,
         In win windows /\ title win <> "" /\
         run.2 = set_settings (set_string "new_game_selector" (title win) settings) s /\
         ((exists before after,
              windows = (before ++ win :: after)%list /\
              Forall (fun u => is_system_window m u = true) before /\
              is_system_window m win = false) \/
          (Forall (fun u => is_system_window m u = true) windows /\
           exists rest, windows = win :: rest)))).
Proof.
  split.
  - intros Hnone. unfold on_detect_running_clicked. by rewrite Hnone.
  - intros settings Hsome. cbn zeta. unfold on_detect_running_clicked.
    rewrite Hsome.
    destruct (first_candidate_cases (get_process_list os) (get_visible_windows os))
      as [(b & win & a & Hws & Hb & Hwin & ->)|[Hall ->]].
    + cbn [fst snd]. split; [done|]. split.
      * intros Hnil. rewrite Hnil in Hws. by destruct b.
      * intros _. exists win.
        assert (In win (get_visible_windows os)) as Hin
          by (rewrite Hws; apply in_or_app; right; by left).
        split; [done|]. split; [by eapply visible_window_title|].
        split; [done|]. left. by exists b, a.
    + destruct (get_visible_windows os) as [|win rest] eqn:Hws; cbn [fst snd].
      * by repeat split.
      * split; [done|]. split; [done|]. intros _. exists win.
        assert (In win (get_visible_windows os)) as Hin by (rewrite Hws; by left).
        split; [by left|]. split; [by eapply visible_window_title|].
        split; [done|]. right. split; [done|]. by exists rest.
Qed.

Example detect_skips_the_launcher_of_obs :
  let os := {| desktop := [ {| handle := 1; visible := true;
                               text := "OBS 30.0 - Profile"; owner := 1 |};
                            {| handle := 2; visible := true;
                               text := "Inbox"; owner := 2 |};
                            {| handle := 3; visible := true;
                               text := "Hades"; owner := 3 |} ];
               toolhelp := Some [ {| th32ProcessID := 1; szExeFile := "obs64.exe" |};
                                  {| th32ProcessID := 2; szExeFile := "Chrome.exe" |};
                                  {| th32ProcessID := 3; szExeFile := "Hades.exe" |} ] |} in
  match current_settings
          (on_detect_running_clicked os
             (set_settings {| get_string := fun _ => ""; get_bool := fun _ => false;
                              get_int := fun _ => 3000 |} initial_script)).2 with
  | Some settings => get_string settings "new_game_selector" = "Hades"
  | None => False
  end.
Proof. reflexivity. Qed.

Lemma X19_detect_button_proposes_a_visible_title_witness :
  on_detect_running_clicked Examples.game_window initial_script =
  (false, initial_script).
Proof.
  exact (proj1 (X19_detect_button_proposes_a_visible_title Examples.game_window
                  initial_script) eq_refl).
Defined.

Lemma load_config_global h w :
  games_config (load_config h w).2 = (load_config h w).1.
Proof.
  unfold load_config. destruct (config_file w) as [| |v].
  - unfold save_config. by destruct (can_write h).
  - done.
  - by destruct (bind (py_in "games" v) _).
Qed.







Example panel_adds_a_running_game :
  games_list (games_config
    (on_add_game_clicked Examples.friendly Examples.game_window
       (set_settings Examples.typed_elden_ring initial_script)
       (Examples.facing Absent)).2) =
  [ Examples.game "Elden Ring" "ELDEN RING" "C:\obs\icons\Elden_Ring.png" true ].
Proof. reflexivity. Qed.

(** ** The check boxes of the panel *)

Lemma sync_enabled_Ok py_str settings games games' :
  sync_enabled py_str settings games = (Ok tt, games') ->
  Forall2 (synced py_str settings) games games'.
Proof.
  revert games'. induction games as [|g games IH]; intros games'; cbn.
  - intros [= <-]. constructor.
  - destruct (getitem g "selector") as [sel|e] eqn:Hsel; cbn [bind]; [|done].
    destruct g as [| | | | |kvs]; try discriminate. cbn [setitem].
    destruct (sync_enabled py_str settings games) as [r rest] eqn:Hrest.
    intros [= -> <-]. constructor; [|by apply IH].
    exists kvs, sel. split; [done|]. split; [|done].
    cbn in Hsel. by destruct (assoc "selector" kvs) as [x|]; [injection Hsel as ->|].
Qed.

Lemma store_all_games config games games' :
  games_of config = Ok games ->
  Forall2 (fun g g' : json => exists kvs, g = JObj kvs) games games' ->
  games_of (store_all games' config) = Ok games'.
Proof.
  intros Hgames Hall. destruct Hall as [|g g' games games' [kvs0 ->] Hrest].
  - unfold store_all. destruct config as [| | | | |kvs]; try done.
    destruct (assoc "games" kvs) as [[| | | | |]|] eqn:Hassoc; try done.
    apply games_of_store.
  - destruct (games_of_stored _ _ 0%nat _ Hgames eq_refl) as (kvs & -> & Hassoc).
    unfold store_all. rewrite Hassoc. apply games_of_store.
Qed.

Lemma on_game_checkbox_changed_Ok py_str h settings w b w' :
  on_game_checkbox_changed py_str h settings w = (Ok b, w') ->
  exists games games',
    games_of (games_config w) = Ok games /\
    games_of (games_config w') = Ok games' /\
    Forall2 (synced py_str settings) games games' /\
    (can_write h = true -> config_file w' = Content (games_config w')).
Proof.
  unfold on_game_checkbox_changed.
  destruct (games_of (games_config w)) as [games|e] eqn:Hgames; [|done].
  destruct (sync_enabled py_str settings games) as [[[]|e] games'] eqn:Hsync; [|done].
  intros [= _ <-]. exists games, games'. split; [done|].
  pose proof (sync_enabled_Ok _ _ _ _ Hsync) as Hall.
  assert (games_of (store_all games' (games_config w)) = Ok games') as Hstored.
  { apply (store_all_games _ games); [done|].
    eapply Forall2_impl; [done|]. intros g g' (kvs & sel & -> & _). by eexists. }
  unfold save_config. destruct (can_write h); cbn; (split; [done|]);
    (split; [done|]); [done|discriminate].
Qed.

Lemma count_enabled_bounds games n :
  count_enabled games = Ok n -> 0 <= n <= Z.of_nat (length games).
Proof.
  revert n. induction games as [|g games IH]; intros n; cbn [count_enabled].
  - intros [= <-]. cbn. lia.
  - destruct (dict_get g "enabled" (JBool true)) as [en|e]; cbn [bind]; [|done].
    destruct (count_enabled games) as [m|e]; cbn [bind]; [|done].
    specialize (IH m eq_refl). cbn [length].
    destruct (truthy en); intros [= <-]; lia.
Qed.

(** X21: when [script_update] returns, the settings and the interval are
    those OBS handed over, every entry of the list [load_config] found has
    under "enabled" the check box OBS holds for its selector and is
    otherwise unchanged, the number it logs lies between 0 and the number
    of games, and from then on [check_any_game_running] only returns games
    whose check box is ticked. *)
Theorem X21_check_boxes_decide_what_is_detected py_str h settings s w n s1 w1 :
  script_update py_str h settings s w = (Ok n, s1, w1) ->
  current_settings s1 = Some settings /\
  check_interval s1 = get_int settings "check_interval" /\
  is_recording_for_game s1 = is_recording_for_game s /\
  current_game s1 = current_game s /\
  (exists games games',
      games_of (load_config h w).1 = Ok games /\
      games_of (games_config w1) = Ok games' /\
      Forall2 (synced py_str settings) games games' /\
      0 <= n <= Z.of_nat (length games')) /\
  (forall os processes game p w2,
      check_any_game_running h os processes w1 = (Ok (Some game, p), w2) ->
      exists selector,
        dict_get game "selector" (JStr "") = Ok (JStr selector) /\
        get_bool settings ("game_enabled_" +:+ selector) = true).
Proof.
  unfold script_update.
  destruct (on_game_checkbox_changed py_str h settings (load_config h w).2)
    as [[b|e] w2] eqn:Hsync; [|done].
  destruct (on_game_checkbox_changed_Ok _ _ _ _ _ _ Hsync)
    as (games & games' & Hgames & Hgames' & Hall & _).
  rewrite Hgames'. cbn [bind].
  destruct (count_enabled games') as [m|e] eqn:Hcount; [|done].
  intros [= <- <- <-]. split; [done|]. split; [done|]. split; [done|].
  split; [done|]. split.
  - exists games, games'. rewrite <- load_config_global.
    split; [done|]. split; [done|]. split; [done|]. by apply count_enabled_bounds.
  - intros os processes game p w3. unfold check_any_game_running.
    rewrite Hgames'. intros Hret.
    destruct (check_games_returned h os _ [] games' w2 game p w3 Hret)
      as (j & g & q & sel & en & Hj & Hen & Htrue & Hsel & Hne & _ & _ & Hx).
    cbn [app] in Hj. exists sel.
    pose proof (try_extract_icon_same_but _ _ _ _ _ _ _ Hx) as Hsame.
    assert (truthy (JStr sel) = true) as Hts by (by apply nonempty_true).
    pose proof (dict_get_truthy_getitem _ _ _ Hsel Hts) as Hgs.
    split.
    + apply getitem_dict_get. by rewrite (Hsame "selector").
    + destruct (Forall2_lookup_r _ _ _ _ _ Hall Hj)
        as (g0 & _ & kvs & sel0 & -> & Hsel0 & ->).
      cbn in Hen, Hgs. rewrite assoc_set_eq in Hen. injection Hen as <-.
      rewrite assoc_set_ne in Hgs by done. rewrite Hsel0 in Hgs.
      injection Hgs as ->. exact Htrue.
Qed.

(** The panel with "elden ring" ticked and "hollow" not. *)
Lemma X21_check_boxes_decide_what_is_detected_witness :
  games_list (games_config
    (script_update Examples.no_str Examples.friendly Examples.typed_elden_ring
       initial_script (Examples.loaded Examples.two_games)).2) =
  [ Examples.game "Elden Ring" "elden ring" "" true;
    Examples.game "Hollow Knight" "hollow" "" false ] /\
  current_settings
    (script_update Examples.no_str Examples.friendly Examples.typed_elden_ring
       initial_script (Examples.loaded Examples.two_games)).1.2 =
  Some Examples.typed_elden_ring.
Proof.
  split; [reflexivity|].
  exact (proj1 (X21_check_boxes_decide_what_is_detected Examples.no_str
                  Examples.friendly Examples.typed_elden_ring initial_script
                  (Examples.loaded Examples.two_games) 1 _ _ eq_refl)).
Defined.

(** ** The Remove button *)

(** X22: [on_remove_game_clicked] returns False and does nothing without
    settings, and True without doing anything when the selector field is
    empty; otherwise, when it returns, it returns True and the games list
    is the one [load_config] has just read from the file with every entry
    of that selector, compared without case, filtered out, whether or not
    an entry has exactly that selector. *)
Theorem X22_remove_button_reloads_then_filters h s w :
  (current_settings s = None -> on_remove_game_clicked h s w = (Ok false, w)) /\
  (forall settings,
      current_settings s = Some settings ->
      let selector := get_string settings "remove_game_selector" in
      (selector = "" -> on_remove_game_clicked h s w = (Ok true, w)) /\
      (forall b w',
          selector <> "" ->
          on_remove_game_clicked h s w = (Ok b, w') ->
          b = true /\
          games_list (games_config w') =
          List.filter (fun g => negb (has_selector selector g))
                      (games_list (load_config h w).1))).
Proof.
  unfold on_remove_game_clicked. split; [by intros ->|].
  intros settings ->. cbn zeta. split; [by intros ->|].
  intros b w' Hne.
  destruct (get_string settings "remove_game_selector") as [|c r] eqn:Hsel; [done|].
  cbn [nonempty].
  match goal with
  | |- context [match ?m with Ok _ => _ | Raise _ => _ end] => destruct m; [|done]
  end.
  destruct (remove_game h (String c r) (load_config h w).2) as [[[]|e] w2] eqn:Hret;
    [|done].
  intros [= <- <-]. split; [done|].
  destruct (remove_game_Ok _ _ _ _ Hret) as (games & kept & Hg & Hk & Hg').
  rewrite load_config_global in Hg. unfold games_list. rewrite Hg, Hg'. cbn [catch].
  by destruct (without_selector_filter _ _ _ Hk).
Qed.

(** "ELDEN RING" typed where the list holds "elden ring". *)
Lemma X22_remove_button_reloads_then_filters_witness :
  games_list (games_config
    (on_remove_game_clicked Examples.friendly
       (set_settings Examples.typed_to_remove initial_script)
       (Examples.loaded Examples.two_games)).2) =
  [ Examples.game "Hollow Knight" "hollow" "" false ].
Proof.
  refine (proj2 (proj2 (proj2 (X22_remove_button_reloads_then_filters
            Examples.friendly
            (set_settings Examples.typed_to_remove initial_script)
            (Examples.loaded Examples.two_games))
          Examples.typed_to_remove eq_refl) true _ _ eq_refl)).
  discriminate.
Defined.

(** ** The console tool: adding, removing and toggling by hand *)

(** X23: however [add_game_interactive] ends, by a silent return, with
    "Already exists!" or with an exception such as the end of the input,
    the configuration file is as it was, except when it prints "Added";
    then it has read four lines, the display name (the third line,
    stripped) and the selector (the fourth line stripped, or the stripped
    search term when that is empty) are not empty, no entry had that
    selector up to case, and the file holds the configuration with the new
    entry appended to its games. *)
Theorem X23_interactive_add_writes_only_a_new_game w r w' :
  Manager.add_game_interactive w = (r, w') ->
  match r with
  | Ok Manager.Added =>
      exists line0 line1 line2 line3 kvs games,
        Manager.stdin w = line0 :: line1 :: line2 :: line3 :: Manager.stdin w' /\
        let name := strip line2 in
        let selector := if nonempty (strip line3) then strip line3
                        else strip line1 in
        name <> "" /\ selector <> "" /\
        Manager.load_config w = JObj kvs /\
        assoc "games" kvs = Some (JArr games) /\
        Forall (fun g => same_selector selector g = Ok false) games /\
        Manager.config_file w' =
        Content (JObj (assoc_set "games"
                         (JArr (games ++ [Manager.new_game name selector])) kvs))
  | _ => Manager.config_file w' = Manager.config_file w
  end.
Proof.
  unfold Manager.add_game_interactive, Manager.input.
  destruct (Manager.stdin w) as [|line0 [|line1 rest1]] eqn:Hin;
    cbn [Manager.stdin Manager.set_stdin]; try by intros [= <- <-].
  destruct (nonempty (strip line1)) eqn:H1; cbn [negb]; [|by intros [= <- <-]].
  destruct rest1 as [|line2 rest2]; cbn [Manager.stdin Manager.set_stdin];
    [by intros [= <- <-]|].
  destruct (nonempty (strip line2)) eqn:H2; cbn [negb]; [|by intros [= <- <-]].
  destruct rest2 as [|line3 rest3]; cbn [Manager.stdin Manager.set_stdin];
    [by intros [= <- <-]|].
  repeat match goal with
         | |- context [Manager.load_config (Manager.set_stdin ?l ?x)] =>
             change (Manager.load_config (Manager.set_stdin l x))
               with (Manager.load_config x)
         end.
  set (selector := if nonempty (strip line3) then strip line3 else strip line1).
  destruct (games_of (Manager.load_config w)) as [entries|e] eqn:Hentries;
    cbn [bind]; [|by intros [= <- <-]].
  rewrite already_exists_first.
  destruct (first_with_selector selector 0 entries) as [[x|]|e] eqn:Hfirst;
    cbn [bind]; try by intros [= <- <-].
  match goal with
  | |- context [match ?m with Ok _ => _ | Raise _ => _ end] =>
      destruct m as [config'|e] eqn:Happend
  end; [|by intros [= <- <-]].
  destruct (append_game _ _ _ Happend) as (kvs & games & Hload & Hassoc & ->).
  unfold Manager.save_config. cbn [Manager.can_write Manager.set_stdin].
  destruct (Manager.can_write w); cbv beta iota; intros [= <- <-]; [|done].
  exists line0, line1, line2, line3, kvs, games. cbn zeta. fold selector.
  split; [done|]. split; [by apply nonempty_true|]. split.
  { subst selector. destruct (nonempty (strip line3)) eqn:H3; by apply nonempty_true. }
  split; [done|]. split; [done|]. split; [|done].
  apply first_with_selector_None in Hfirst.
  revert Hentries Hfirst. unfold games_of. rewrite Hload. cbn [dict_get bind].
  rewrite Hassoc. by intros [= <-].
Qed.

(** "Hades" added under the search term, the selector line left empty. *)
Lemma X23_interactive_add_writes_only_a_new_game_witness :
  exists line0 line1 line2 line3 kvs games,
    [""; " hades "; " Hades"; " "] =
      line0 :: line1 :: line2 :: line3
        :: Manager.stdin (Manager.add_game_interactive
                            (Examples.on_disk Examples.two_games
                               [""; " hades "; " Hades"; " "])).2 /\
    let name := strip line2 in
    let selector := if nonempty (strip line3) then strip line3 else strip line1 in
    name <> "" /\ selector <> "" /\
    Manager.load_config (Examples.on_disk Examples.two_games
                           [""; " hades "; " Hades"; " "]) = JObj kvs /\
    assoc "games" kvs = Some (JArr games) /\
    Forall (fun g => same_selector selector g = Ok false) games /\
    Manager.config_file
      (Manager.add_game_interactive
         (Examples.on_disk Examples.two_games [""; " hades "; " Hades"; " "])).2 =
    Content (JObj (assoc_set "games"
                     (JArr (games ++ [Manager.new_game name selector])) kvs)).
Proof.
  exact (X23_interactive_add_writes_only_a_new_game
           (Examples.on_disk Examples.two_games [""; " hades "; " Hades"; " "])
           (Ok Manager.Added) _ eq_refl).
Defined.

Example interactive_add_of_hades :
  file_games (Manager.add_game_interactive
                (Examples.on_disk Examples.two_games
                   [""; " hades "; " Hades"; " "])).2 =
  (Examples.two_games ++ [Manager.new_game "Hades" "hades"])%list.
Proof. reflexivity. Qed.

(** What the two menus do up to the number typed, on a list that
    [list_games] can print. *)
Lemma menu_prefix w kvs games :
  Manager.config_file w = Content (JObj kvs) ->
  assoc "games" kvs = Some (JArr games) ->
  Manager.load_config w = JObj kvs /\
  dict_get (Manager.load_config w) "games" (JArr []) = Ok (JArr games).
Proof.
  intros Hfile Hassoc. unfold Manager.load_config. rewrite Hfile.
  split; [done|]. cbn. by rewrite Hassoc.
Qed.

(** X24: the number typed at [remove_game_interactive] is the one
    [list_games] printed, counted from 1.  Whatever the file holds, the
    end of the input, an answer that is not a number and a number below 1
    leave the configuration file as it is.  On a configuration whose list
    can be printed and a writable file, typing [k] with
    [1 <= k <= len(games)] removes exactly the [k]-th entry and keeps the
    rest of the configuration, a number outside that range changes
    nothing, and on an empty list nothing is asked. *)
Theorem X24_interactive_remove_by_number py_int w :
  (Manager.stdin w = [] ->
   Manager.config_file (Manager.remove_game_interactive py_int w).2 =
   Manager.config_file w) /\
  (forall line rest,
      Manager.stdin w = line :: rest ->
      (is_ok (py_int line) = false \/
       exists choice, py_int line = Ok choice /\ choice < 1) ->
      Manager.config_file (Manager.remove_game_interactive py_int w).2 =
      Manager.config_file w) /\
  (forall kvs games,
      Manager.config_file w = Content (JObj kvs) ->
      assoc "games" kvs = Some (JArr games) ->
      Manager.list_games w = Ok tt ->
      Manager.can_write w = true ->
      (games = [] -> Manager.remove_game_interactive py_int w = (Ok tt, w)) /\
      (forall line rest choice,
          games <> [] ->
          Manager.stdin w = line :: rest ->
          py_int line = Ok choice ->
          (1 <= choice <= Z.of_nat (length games) ->
           exists k g,
             choice = Z.of_nat (S k) /\
             games !! k = Some g /\
             Manager.remove_game_interactive py_int w =
             (Ok tt,
              Manager.set_config_file
                (Content (JObj (assoc_set "games"
                                  (JArr (take k games ++ drop (S k) games)) kvs)))
                (Manager.set_stdin rest w))) /\
          (choice < 1 \/ Z.of_nat (length games) < choice ->
           Manager.remove_game_interactive py_int w =
           (Ok tt, Manager.set_stdin rest w)))).
Proof.
  split; [|split].
  - intros Hin. unfold Manager.remove_game_interactive.
    destruct (Manager.list_games w); [|done].
    destruct (dict_get _ _ _) as [games|e]; [|done].
    destruct (negb (truthy games)); [done|].
    unfold Manager.input. by rewrite Hin.
  - intros line rest Hin Hbad. unfold Manager.remove_game_interactive.
    destruct (Manager.list_games w); [|done].
    destruct (dict_get _ _ _) as [games|e]; [|done].
    destruct (negb (truthy games)); [done|].
    unfold Manager.input. rewrite Hin.
    destruct Hbad as [Hbad|(choice & Hchoice & Hlow)].
    + by destruct (py_int line).
    + rewrite Hchoice. destruct (choice =? 0); [done|].
      destruct (len games) as [n|e]; cbn [bind]; [|done].
      assert ((1 <=? choice) = false) as -> by lia. done.
  - intros kvs games Hfile Hassoc Hlist Hcw.
    destruct (menu_prefix w kvs games Hfile Hassoc) as [Hload Hget].
    unfold Manager.remove_game_interactive. rewrite Hlist, Hget. split.
    { by intros ->. }
    intros line rest choice Hne Hin Hint.
    assert (negb (truthy (JArr games)) = false) as -> by (by destruct games).
    unfold Manager.input. rewrite Hin, Hint. split.
    + intros Hrange. exists (Z.to_nat (choice - 1)).
      destruct (games !! Z.to_nat (choice - 1)) as [g|] eqn:Hg.
      2:{ apply lookup_ge_None in Hg. lia. }
      exists g. split; [lia|]. split; [done|].
      assert ((choice =? 0) = false) as -> by lia.
      cbn [len bind Manager.pop].
      assert (((1 <=? choice) && (choice <=? Z.of_nat (length games)))%bool = true)
        as -> by lia.
      rewrite Hg. cbn [bind snd]. rewrite Hload. cbn [Manager.store_games].
      unfold Manager.save_config. cbn [Manager.can_write Manager.set_stdin].
      rewrite Hcw. cbn [snd]. by rewrite delete_take_drop.
    + intros Hout. destruct (choice =? 0) eqn:H0; [done|].
      cbn [len bind].
      assert (((1 <=? choice) && (choice <=? Z.of_nat (length games)))%bool = false)
        as -> by lia.
      done.
Qed.

(** Typing 2 in front of two games. *)
Lemma X24_interactive_remove_by_number_witness :
  exists k g,
    2 = Z.of_nat (S k) /\
    Examples.two_games !! k = Some g /\
    Manager.remove_game_interactive Examples.decimal
      (Examples.on_disk Examples.two_games ["2"]) =
    (Ok tt,
     Manager.set_config_file
       (Content (JObj (assoc_set "games"
                         (JArr (take k Examples.two_games ++
                                drop (S k) Examples.two_games))
                         [("games", JArr Examples.two_games)])))
       (Manager.set_stdin [] (Examples.on_disk Examples.two_games ["2"]))).
Proof.
  refine (proj1 (proj2 (proj2 (proj2 (X24_interactive_remove_by_number
            Examples.decimal (Examples.on_disk Examples.two_games ["2"])))
            [("games", JArr Examples.two_games)] Examples.two_games
            eq_refl eq_refl eq_refl eq_refl) "2" [] 2 _ eq_refl eq_refl) _).
  - discriminate.
  - cbn. lia.
Defined.

Example interactive_remove_of_the_second :
  file_games (Manager.remove_game_interactive Examples.decimal
                (Examples.on_disk Examples.two_games ["2"])).2 =
  [ Examples.game "Elden Ring" "elden ring" "" true ] /\
  file_games (Manager.remove_game_interactive Examples.decimal
                (Examples.on_disk Examples.two_games ["-1"])).2 =
  Examples.two_games /\
  file_games (Manager.remove_game_interactive Examples.decimal
                (Examples.on_disk Examples.two_games ["3"])).2 =
  Examples.two_games /\
  file_games (Manager.remove_game_interactive Examples.decimal
                (Examples.on_disk Examples.two_games [])).2 =
  Examples.two_games /\
  file_games (Manager.remove_game_interactive Examples.decimal
                (Examples.on_disk Examples.two_games ["two"])).2 =
  Examples.two_games.
Proof. by vm_compute. Qed.

(** Assigning twice to a key keeps the second value, and assigning the
    value a key holds changes nothing. *)
Lemma assoc_set_twice k v1 v2 kvs :
  assoc_set k v2 (assoc_set k v1 kvs) = assoc_set k v2 kvs.
Proof.
  induction kvs as [|[k' v'] kvs IH]; cbn.
  - by rewrite String.eqb_refl.
  - destruct (String.eqb k k') eqn:Hk; cbn; rewrite Hk; [done|]. by rewrite IH.
Qed.

Lemma assoc_set_same k v kvs : assoc k kvs = Some v -> assoc_set k v kvs = kvs.
Proof.
  induction kvs as [|[k' v'] kvs IH]; cbn; [done|].
  destruct (String.eqb k k') eqn:Hk; [by intros [= ->]|].
  intros H. by rewrite IH.
Qed.

(** The entries [list_games] prints without raising: dictionaries with a
    name and a selector. *)
Lemma list_entries_Ok games :
  Manager.list_entries games = Ok tt <->
  Forall (fun g => exists kvs0, g = JObj kvs0 /\
                                is_Some (assoc "name" kvs0) /\
                                is_Some (assoc "selector" kvs0)) games.
Proof.
  induction games as [|g games IH]; cbn [Manager.list_entries].
  - split; [constructor|done].
  - split.
    + destruct g as [| | | | |kvs0]; try done. cbn [dict_get getitem bind].
      destruct (assoc "name" kvs0) eqn:Hn; cbn [bind]; [|done].
      destruct (assoc "selector" kvs0) eqn:Hs; cbn [bind]; [|done].
      intros H. constructor; [|by apply IH]. exists kvs0. rewrite Hn, Hs. eauto.
    + intros H. apply Forall_cons in H as [(kvs0 & -> & [n Hn] & [s Hs]) H].
      cbn [dict_get getitem bind]. rewrite Hn. cbn [bind]. rewrite Hs. cbn [bind].
      by apply IH.
Qed.

(** [toggle_game_interactive] when the number typed is that of an entry. *)
Lemma toggle_by_number py_int w kvs games line rest k kvs0 :
  Manager.config_file w = Content (JObj kvs) ->
  assoc "games" kvs = Some (JArr games) ->
  Manager.list_entries games = Ok tt ->
  Manager.can_write w = true ->
  Manager.stdin w = line :: rest ->
  py_int line = Ok (Z.of_nat (S k)) ->
  games !! k = Some (JObj kvs0) ->
  Manager.toggle_game_interactive py_int w =
  (Ok tt,
   Manager.set_config_file
     (Content
        (JObj (assoc_set "games"
                 (JArr (<[k := JObj (assoc_set "enabled"
                                       (JBool (negb (enabled_of (JObj kvs0))))
                                       kvs0)]> games)) kvs)))
     (Manager.set_stdin rest w)).
Proof.
  intros Hfile Hassoc Hlist Hcw Hin Hint Hk.
  destruct (menu_prefix w kvs games Hfile Hassoc) as [Hload Hget].
  unfold Manager.toggle_game_interactive, Manager.list_games.
  rewrite Hget. cbn [bind].
  assert (negb (truthy (JArr games)) = false) as -> by (by destruct games).
  cbn [iter bind]. rewrite Hlist.
  unfold Manager.input. rewrite Hin, Hint.
  assert ((Z.of_nat (S k) =? 0) = false) as -> by (apply Z.eqb_neq; lia).
  cbn [len bind Manager.index].
  pose proof (lookup_lt_Some _ _ _ Hk) as Hlt.
  assert (((1 <=? Z.of_nat (S k)) && (Z.of_nat (S k) <=? Z.of_nat (length games)))%bool
          = true) as ->
    by (apply andb_true_intro; split; apply Z.leb_le; lia).
  replace (Z.to_nat (Z.of_nat (S k) - 1)) with k by lia.
  rewrite Hk. cbn [bind dict_get setitem]. rewrite Hload.
  unfold store_game. rewrite Hassoc.
  unfold Manager.save_config. cbn [Manager.can_write Manager.set_stdin].
  rewrite Hcw. done.
Qed.

(** X25: on a configuration whose list can be printed and a writable
    file, typing the number of an entry at [toggle_game_interactive]
    stores under "enabled" of that entry the negation of what
    [g.get('enabled', True)] was as a truth value and changes nothing
    else; typing the same number again brings that truth value back, and
    brings back the very file when the entry held a boolean there. *)
Theorem X25_toggle_twice_restores py_int w kvs games line1 line2 rest k g :
  Manager.config_file w = Content (JObj kvs) ->
  assoc "games" kvs = Some (JArr games) ->
  Manager.list_games w = Ok tt ->
  Manager.can_write w = true ->
  Manager.stdin w = line1 :: line2 :: rest ->
  py_int line1 = Ok (Z.of_nat (S k)) ->
  py_int line2 = Ok (Z.of_nat (S k)) ->
  games !! k = Some g ->
  let once := (Manager.toggle_game_interactive py_int w).2 in
  let twice := (Manager.toggle_game_interactive py_int once).2 in
  (exists g1,
      file_games once = <[k := g1]> games /\
      same_but "enabled" g g1 /\
      getitem g1 "enabled" = Ok (JBool (negb (enabled_of g)))) /\
  (exists g2,
      file_games twice = <[k := g2]> games /\
      same_but "enabled" g g2 /\
      getitem g2 "enabled" = Ok (JBool (enabled_of g))) /\
  Manager.stdin twice = rest /\
  (forall b, getitem g "enabled" = Ok (JBool b) ->
             Manager.config_file twice = Manager.config_file w).
Proof.
  intros Hfile Hassoc Hlist Hcw Hin Hint1 Hint2 Hk.
  assert (Manager.list_entries games = Ok tt) as Hentries.
  { revert Hlist. unfold Manager.list_games.
    rewrite (proj2 (menu_prefix w kvs games Hfile Hassoc)). cbn [bind].
    destruct games; [done|]. done. }
  pose proof (proj1 (list_entries_Ok games) Hentries) as Hall.
  destruct (proj1 (Forall_lookup _ _) Hall k g Hk) as (kvs0 & -> & Hname & Hsel).
  set (g1 := JObj (assoc_set "enabled" (JBool (negb (enabled_of (JObj kvs0)))) kvs0)).
  cbn zeta.
  rewrite (toggle_by_number py_int w kvs games line1 (line2 :: rest) k kvs0
             Hfile Hassoc Hentries Hcw Hin Hint1 Hk).
  cbn [snd]. fold g1.
  assert (Manager.list_entries (<[k := g1]> games) = Ok tt) as Hentries1.
  { apply list_entries_Ok. apply Forall_insert; [done|].
    exists (assoc_set "enabled" (JBool (negb (enabled_of (JObj kvs0)))) kvs0).
    split; [done|]. by rewrite !assoc_set_ne. }
  assert (<[k := g1]> games !! k = Some g1) as Hk1.
  { apply list_lookup_insert_eq. by eapply lookup_lt_Some. }
  rewrite (toggle_by_number py_int
             (Manager.set_config_file
                (Content (JObj (assoc_set "games" (JArr (<[k := g1]> games)) kvs)))
                (Manager.set_stdin (line2 :: rest) w))
             (assoc_set "games" (JArr (<[k := g1]> games)) kvs)
             (<[k := g1]> games) line2 rest k
             (assoc_set "enabled" (JBool (negb (enabled_of (JObj kvs0)))) kvs0)
             eq_refl (assoc_set_eq _ _ _) Hentries1 Hcw eq_refl Hint2 Hk1).
  cbn [snd]. unfold file_games, Manager.load_config, games_list.
  cbn [Manager.config_file Manager.set_config_file Manager.stdin Manager.set_stdin].
  rewrite !games_of_store. cbn [catch].
  rewrite assoc_set_twice, list_insert_insert_eq.
  assert (enabled_of (JObj (assoc_set "enabled"
                              (JBool (negb (enabled_of (JObj kvs0)))) kvs0)) =
          negb (enabled_of (JObj kvs0))) as ->.
  { unfold enabled_of at 1. cbn [dict_get catch]. by rewrite assoc_set_eq. }
  rewrite negb_involutive, assoc_set_twice.
  split; [|split; [|split]].
  - exists g1. split; [done|]. split.
    + by apply (setitem_same_but (JObj kvs0) "enabled"
                  (JBool (negb (enabled_of (JObj kvs0))))).
    + subst g1. cbn [getitem]. by rewrite assoc_set_eq.
  - eexists. split; [done|]. split.
    + by apply (setitem_same_but (JObj kvs0) "enabled"
                  (JBool (enabled_of (JObj kvs0)))).
    + cbn [getitem]. by rewrite assoc_set_eq.
  - done.
  - intros b Hb. rewrite Hfile. cbn [getitem] in Hb.
    destruct (assoc "enabled" kvs0) as [v|] eqn:Hv; [|done]. injection Hb as ->.
    assert (enabled_of (JObj kvs0) = b) as ->.
    { unfold enabled_of. cbn [dict_get catch]. by rewrite Hv. }
    rewrite (assoc_set_same _ _ _ Hv), (list_insert_id _ _ _ Hk).
    by rewrite (assoc_set_same _ _ _ Hassoc).
Qed.

(** "Hollow Knight", the second of two games, toggled twice. *)
Lemma X25_toggle_twice_restores_witness :
  Manager.config_file
    (Manager.toggle_game_interactive Examples.decimal
       (Manager.toggle_game_interactive Examples.decimal
          (Examples.on_disk Examples.two_games ["2"; "2"])).2).2 =
  Content (Examples.config Examples.two_games).
Proof.
  exact (proj2 (proj2 (proj2 (X25_toggle_twice_restores Examples.decimal
           (Examples.on_disk Examples.two_games ["2"; "2"])
           [("games", JArr Examples.two_games)] Examples.two_games
           "2" "2" [] 1%nat (Examples.game "Hollow Knight" "hollow" "" false)
           eq_refl eq_refl eq_refl eq_refl eq_refl eq_refl eq_refl eq_refl)))
         false eq_refl).
Defined.

Example toggle_of_the_second :
  file_games (Manager.toggle_game_interactive Examples.decimal
                (Examples.on_disk Examples.two_games ["2"])).2 =
  [ Examples.game "Elden Ring" "elden ring" "" true;
    Examples.game "Hollow Knight" "hollow" "" true ].
Proof. reflexivity. Qed.

(** ** The watcher process *)

(** [is_watcher_running] answers (True, pid) or (False, None). *)
Lemma is_watcher_running_cases py_int OpenProcess w :
  (exists s pid handle,
      Manager.pid_file w = Manager.Text s /\
      py_int (strip s) = Ok pid /\
      OpenProcess pid = Ok handle /\
      handle <> 0 /\
      Manager.is_watcher_running py_int OpenProcess w = (true, Some pid)) \/
  Manager.is_watcher_running py_int OpenProcess w = (false, None).
Proof.
  unfold Manager.is_watcher_running.
  destruct (Manager.pid_file w) as [| |s]; [by right|by right|].
  destruct (py_int (strip s)) as [pid|e] eqn:Hpid; cbn [bind]; [|by right].
  destruct (OpenProcess pid) as [handle|e] eqn:Hopen; cbn [bind]; [|by right].
  destruct (handle =? 0) eqn:Hz; cbn [negb]; [by right|].
  left. exists s, pid, handle. apply Z.eqb_neq in Hz. done.
Qed.

(** X26: [stop_watcher] never touches the configuration file.  It prints
    "Watcher not running" exactly when [is_watcher_running] says so, and
    then changes nothing and asks nothing of the system.  Otherwise it
    asks once for the termination of the process whose PID
    [is_watcher_running] gave, whatever it prints afterwards.  When it
    prints "Watcher stopped" with a PID, that is this PID, the PID file
    and the state file are gone, and from then on, whatever [OpenProcess]
    answers, the watcher counts as not running, there is no state, and
    stopping again prints "Watcher not running".  When it prints an error,
    the termination has been asked for all the same, and either the PID
    file could not be removed and the files are as before, or the state
    file could not be removed and only the PID file is gone. *)
Theorem X26_stop_watcher_cleans_up py_int OpenProcess os_remove_ok w :
  let run := Manager.stop_watcher py_int OpenProcess os_remove_ok w in
  Manager.config_file run.2 = Manager.config_file w /\
  Manager.stdin run.2 = Manager.stdin w /\
  match run.1.1 with
  | Manager.NotRunning =>
      Manager.is_watcher_running py_int OpenProcess w = (false, None) /\
      run.1.2 = [] /\
      run.2 = w
  | Manager.Stopped pid =>
      Manager.is_watcher_running py_int OpenProcess w = (true, pid) /\
      is_Some pid /\
      run.1.2 = [Manager.TerminateProcess pid] /\
      Manager.pid_file run.2 = Manager.NoFile /\
      Manager.state_file run.2 = Manager.NoFile /\
      Manager.get_watcher_state run.2 = None /\
      forall OpenProcess',
        Manager.is_watcher_running py_int OpenProcess' run.2 = (false, None) /\
        Manager.stop_watcher py_int OpenProcess' os_remove_ok run.2 =
        (Manager.NotRunning, [], run.2)
  | Manager.StopError =>
      (exists pid,
          Manager.is_watcher_running py_int OpenProcess w = (true, Some pid) /\
          run.1.2 = [Manager.TerminateProcess (Some pid)]) /\
      ((os_remove_ok "watcher.pid" = false /\ run.2 = w) \/
       (os_remove_ok "game_state" = false /\
        Manager.pid_file run.2 = Manager.NoFile /\
        Manager.state_file run.2 = Manager.state_file w /\
        Manager.state_file w <> Manager.NoFile))
  end.
Proof.
  cbn zeta. unfold Manager.stop_watcher.
  destruct (is_watcher_running_cases py_int OpenProcess w)
    as [(s & pid & handle & Hs & _ & _ & _ & ->) | ->]; [|done].
  unfold Manager.remove_if_exists. rewrite Hs.
  destruct (os_remove_ok "watcher.pid") eqn:Hpid; cbn [fst snd].
  2:{ split; [done|]. split; [done|]. split; [by eexists|]. by left. }
  cbn [Manager.state_file Manager.set_pid_file].
  destruct (Manager.state_file w) as [| |t] eqn:Hstate;
    [|destruct (os_remove_ok "game_state") eqn:Hst..]; cbn [fst snd];
    (split; [done|]); (split; [done|]).
  1,2,4: repeat split; eauto.
  all: split; [by eexists|]; right; cbn; by rewrite ?Hstate.
Qed.

Example stop_of_a_running_watcher :
  Manager.stop_watcher Examples.decimal Examples.open_any (fun _ => true)
    {| Manager.config_file := Absent;
       Manager.pid_file := Manager.Text " 4242 ";
       Manager.state_file := Manager.Text "RECORDING|Elden Ring";
       Manager.can_write := true;
       Manager.stdin := [] |} =
  (Manager.Stopped (Some 4242), [Manager.TerminateProcess (Some 4242)],
   {| Manager.config_file := Absent;
      Manager.pid_file := Manager.NoFile;
      Manager.state_file := Manager.NoFile;
      Manager.can_write := true;
      Manager.stdin := [] |}).
Proof. reflexivity. Qed.

(** The PID file cannot be removed: the error is printed, the files are
    as before, and the termination has been asked for. *)
Example stop_that_cannot_remove_the_pid_file :
  Manager.stop_watcher Examples.decimal Examples.open_any (fun _ => false)
    {| Manager.config_file := Absent;
       Manager.pid_file := Manager.Text "4242";
       Manager.state_file := Manager.Text "IDLE";
       Manager.can_write := true;
       Manager.stdin := [] |} =
  (Manager.StopError, [Manager.TerminateProcess (Some 4242)],
   {| Manager.config_file := Absent;
      Manager.pid_file := Manager.Text "4242";
      Manager.state_file := Manager.Text "IDLE";
      Manager.can_write := true;
      Manager.stdin := [] |}).
Proof. reflexivity. Qed.




(** A PID file that holds 0 and a blank state file. *)
Example status_of_pid_zero :
  Manager.show_status Examples.decimal Examples.open_any
    {| Manager.config_file := Content (Examples.config Examples.two_games);
       Manager.pid_file := Manager.Text "0";
       Manager.state_file := Manager.Text "  ";
       Manager.can_write := true;
       Manager.stdin := [] |} = Ok (true, None, "N/A", 1, 2).
Proof. reflexivity. Qed.
